(** * Kaspa REST gateway: the handlers of its routes

    A shallow embedding of the routes of the gateway that do more than
    forward a request:

    - the three variants of [POST /createTransaction]: the multi-UTXO
      handler (greedy accumulation of inputs, change output guarded by a
      minimum), module [MultiUtxo]; the single-UTXO handler of
      [src/index.js], module [SingleUtxo]; and the variant that signs
      nothing and replies with an unsigned transaction, module
      [Unsigned];
    - [GET /transactions/:address] of the signing variants, which flags
      the transactions of an address, and [POST /submit], module
      [Gateway].

    JavaScript values are modelled as the handlers use them: a [BigInt] is
    an integer of [Z]; a [Number] is an IEEE-754 binary64 value, taken from
    the standard library's [spec_float] with its round-to-nearest-even
    operations; strings are [string]s; the documents of the REST API that
    a handler takes apart are [json] values.  Everything outside the
    repository (the key/transaction library, the HTTP client) is an oracle
    of a [World] or [Upstream] record, and every call to it is logged in a
    trace. *)

From Stdlib Require Import ZArith List String Ascii Bool Lia.
From Stdlib Require Import Floats.SpecFloat.
From Stdlib Require Import DecimalString.
From Stdlib Require Decimal DecimalZ DecimalPos.
Import ListNotations.

Open Scope Z_scope.

(** ** JavaScript numbers *)

Module JsNumber.

(** A [Number] is a binary64 float: 53 bits of mantissa, infinities at
    exponent 1024. *)
Definition number : Type := spec_float.

Definition prec : Z := 53.
Definition emax : Z := 1024.

(** [x * y] *)
Definition mul (x y : number) : number := SFmul prec emax x y.

(** [x / y] *)
Definition div (x y : number) : number := SFdiv prec emax x y.

(** [x <= y] and [x < y]; both are false when an operand is NaN. *)
Definition leb (x y : number) : bool := SFleb x y.
Definition ltb (x y : number) : bool := SFltb x y.

(** [x >= y] is [y <= x]. *)
Definition geb (x y : number) : bool := SFleb y x.

(** [Number(z)] for a BigInt [z] (and for a decimal integer string):
    the nearest binary64 value, ties to even. *)
Definition Number_of_BigInt (z : Z) : number :=
  binary_normalize prec emax z 0 false.

(** The mathematical value of a finite number as a signed mantissa. *)
Definition signed (s : bool) (m : positive) : Z := cond_Zopp s (Zpos m).

(** [Math.floor(x)]: numbers with a non-negative exponent are integers
    already; zeros, infinities and NaN are returned unchanged. *)
Definition Math_floor (x : number) : number :=
  match x with
  | S754_finite s m e =>
      if 0 <=? e then x
      else Number_of_BigInt (signed s m / 2 ^ (- e))
  | _ => x
  end.

(** [BigInt(x)] for a Number [x]: the integer [x] denotes; a RangeError
    ([None]) when [x] is NaN, an infinity or not an integer. *)
Definition BigInt_of_number (x : number) : option Z :=
  match x with
  | S754_zero _ => Some 0
  | S754_finite s m e =>
      if 0 <=? e then Some (signed s m * 2 ^ e)
      else if (Zpos m mod 2 ^ (- e) =? 0)
           then Some (signed s m / 2 ^ (- e))
           else None
  | S754_infinity _ | S754_nan => None
  end.

(** The integer part [floor x] of a finite number, in [Z]. *)
Definition floorZ (x : number) : option Z :=
  match x with
  | S754_zero _ => Some 0
  | S754_finite s m e =>
      Some (if 0 <=? e then signed s m * 2 ^ e else signed s m / 2 ^ (- e))
  | S754_infinity _ | S754_nan => None
  end.

(** Zeros, NaN and the numbers with a clear sign bit. *)
Definition nonneg (x : number) : bool :=
  match x with
  | S754_zero _ | S754_nan => true
  | S754_infinity s | S754_finite s _ _ => negb s
  end.

(** Numeric literals of the sources. *)
Definition lit_0 : number := S754_zero false.
Definition lit_1e8 : number := Number_of_BigInt 100000000.
Definition lit_100000 : number := Number_of_BigInt 100000.
(** [0.02]: the binary64 value nearest to 2/100. *)
Definition lit_0_02 : number :=
  div (Number_of_BigInt 2) (Number_of_BigInt 100).

(** A decimal literal [n / 10^k], correctly rounded (both operands of
    the division are exact). *)
Definition decimal (n : Z) (k : Z) : number :=
  div (Number_of_BigInt n) (Number_of_BigInt (10 ^ k)).

End JsNumber.

Import JsNumber.

(** ** Regular expressions *)

Module Regex.

(** The patterns of the sources are anchored at both ends ([^...$]) and
    are sequences of literal text and of quantified character classes
    [[...]{lo,hi}]; a class is a list of character ranges. *)
Definition char_range : Type := (ascii * ascii)%type.

Inductive atom : Type :=
| Literal (text : string)
| ClassRepeat (cls : list char_range) (lo hi : nat).

Definition pattern : Type := list atom.

Definition in_range (c : ascii) (r : char_range) : bool :=
  (nat_of_ascii (fst r) <=? nat_of_ascii c)%nat
  && (nat_of_ascii c <=? nat_of_ascii (snd r))%nat.

Definition in_class (cls : list char_range) (c : ascii) : bool :=
  existsb (in_range c) cls.

Fixpoint strip_prefix (p s : string) : option string :=
  match p, s with
  | EmptyString, _ => Some s
  | String a p', String b s' =>
      if Ascii.eqb a b then strip_prefix p' s' else None
  | String _ _, EmptyString => None
  end.

Definition at_end (s : string) : bool :=
  match s with EmptyString => true | String _ _ => false end.

(** A backtracking matcher for [cls{lo,hi}] followed by the rest [k] of
    the pattern: consume a character of the class while allowed, and
    fall back to stopping here once [lo] characters were taken. *)
Fixpoint class_repeat (cls : list char_range) (lo hi : nat)
         (k : string -> bool) (s : string) : bool :=
  let stop := match lo with O => k s | S _ => false end in
  match hi with
  | O => stop
  | S hi' =>
      match s with
      | String c s' =>
          (in_class cls c && class_repeat cls (Nat.pred lo) hi' k s')
          || stop
      | EmptyString => stop
      end
  end.

Fixpoint match_from (atoms : pattern) (s : string) : bool :=
  match atoms with
  | [] => at_end s
  | Literal text :: rest =>
      match strip_prefix text s with
      | Some s' => match_from rest s'
      | None => false
      end
  | ClassRepeat cls lo hi :: rest =>
      class_repeat cls lo hi (match_from rest) s
  end.

(** [re.test(s)] for an anchored pattern without flags. *)
Definition test (re : pattern) (s : string) : bool := match_from re s.

End Regex.

(** [/^kaspa:[a-z0-9]{61,63}$/] *)
Definition kaspaRegex : Regex.pattern :=
  [ Regex.Literal "kaspa:";
    Regex.ClassRepeat [("a", "z"); ("0", "9")]%char 61 63 ].

(** ** Data of a request *)

(** Values whose shape is decided upstream (fields of JSON answers). *)
Inductive value : Type :=
| Undefined
| Null
| Num (n : number)
| Str (s : string).

(** The request body.  A field is [None] when it is [undefined]; the
    addresses and the key are strings, [amount] and [fee] are Numbers
    (bodies with other JSON types in these fields are not modelled). *)
Record Body : Type := {
  senderAddress : option string;
  recipientAddress : option string;
  amount : option number;
  fee : option number;
  privateKey : option string
}.

(** An entry of the ledger's answer to [/addresses/<a>/utxos]:
    [outpoint.transactionId], [outpoint.index], [utxoEntry.amount] (a
    decimal integer) and [utxoEntry.scriptPublicKey.scriptPublicKey]. *)
Record Utxo : Type := {
  u_transactionId : string;
  u_index : Z;
  u_amount : Z;
  u_scriptPublicKey : string
}.

(** Objects of the transaction library: they hold what the handler hands
    to their constructors; [tx.addInput] and [tx.addOutput] append to the
    lists of the transaction, and [o.satoshis] and the hexadecimal form of
    [o.script] read back what the output was built from. *)
Record Output : Type := {
  script : string;
  satoshis : number
}.

Record Input : Type := {
  prevTxId : string;
  outputIndex : Z;
  input_script : string;
  sequenceNumber : Z;
  output : Output
}.

Record Transaction : Type := {
  version : Z;
  inputs : list Input;
  outputs : list Output
}.

(** The REST payload posted to [/transactions]. *)
Record SignedInput : Type := {
  previousOutpoint : string * Z;
  signatureScript : string;
  sequence : Z;
  sigOpCount : Z
}.

Record PayloadOutput : Type := {
  po_amount : number;
  po_version : Z;
  po_scriptPublicKey : string
}.

Record Payload : Type := {
  p_version : Z;
  p_inputs : list SignedInput;
  p_outputs : list PayloadOutput;
  lockTime : Z;
  subnetworkId : string;
  allowOrphan : bool
}.

(** What a handler can throw into its [catch]: the RangeError of a failed
    [BigInt(...)], or an error of the library or of the HTTP client. *)
Inductive js_error : Type :=
| RangeError
| External (details : string).

(** The replies of the route. *)
Inductive response : Type :=
| BadRequest (error : string)
| ServerError (details : js_error)
| Success (transactionId rawTransaction : value)
          (transferredAmount chargedAmount : string)
          (walletBalance : value).

(** ** The outside world *)

Inductive result (A : Type) : Type :=
| Returns (a : A)
| Throws (details : string).
Arguments Returns {A} a.
Arguments Throws {A} details.

(** Everything the handlers call outside the repository: the answer of
    each call, or the exception it throws. *)
Record World : Type := {
  (** [new PrivateKey(hex)] *)
  PrivateKey_new : string -> result unit;
  (** [axios.get(".../addresses/<a>/utxos")] *)
  get_utxos : string -> result (list Utxo);
  (** [new Transaction.Input.PublicKey({...})] *)
  Input_new : Input -> result unit;
  (** [new Script(new Address(a)).toBuffer().toString("hex")] *)
  Address_script : string -> result string;
  (** [new Transaction.Output({script, satoshis})] *)
  Output_new : Output -> result unit;
  (** [input.getSignatures(tx, sk, index, SIGHASH_ALL, null, "schnorr")[0]
      .signature.toBuffer("schnorr").toString("hex")] *)
  getSignatures : Transaction -> string -> Input -> nat -> result string;
  (** [input.prevTxId.toString("hex")] for an input built with this
      [prevTxId]: the library keeps the id in a form of its own *)
  prevTxId_hex : string -> string;
  (** [axios.post(".../transactions", payload)]: the answer's
      [transactionId] and [rawTransaction] *)
  post_transaction : Payload -> result (value * value);
  (** [axios.get(".../addresses/<a>/balance")]: the answer's [balance] *)
  get_balance : string -> result value
}.

(** One entry of the trace per call to the outside. *)
Inductive event : Type :=
| EvPrivateKey (hex : string)
| EvGetUtxos (address : string)
| EvInput (i : Input)
| EvAddressScript (address : string)
| EvOutput (o : Output)
| EvSign (index : nat)
| EvPost (p : Payload)
| EvGetBalance (address : string).

(** ** The handler monad: a trace of calls, early replies, exceptions *)

Inductive outcome (A : Type) : Type :=
| Next (a : A)
| Reply (r : response)
| Raise (e : js_error).
Arguments Next {A} a.
Arguments Reply {A} r.
Arguments Raise {A} e.

(** A computation yields its outcome and the calls it made, in order. *)
Definition M (A : Type) : Type := (outcome A * list event)%type.

Definition ret {A} (a : A) : M A := (Next a, []).

Definition bind {A B} (m : M A) (f : A -> M B) : M B :=
  match m with
  | (Next a, t) => let '(o, t') := f a in (o, t ++ t')
  | (Reply r, t) => (Reply r, t)
  | (Raise e, t) => (Raise e, t)
  end.

(** [return res.status(...).json(...)] *)
Definition reply {A} (r : response) : M A := (Reply r, []).

Definition raise {A} (e : js_error) : M A := (Raise e, []).

(** A call to the outside: logged, and an exception when it throws. *)
Definition call {A} (e : event) (r : result A) : M A :=
  match r with
  | Returns a => (Next a, [e])
  | Throws d => (Raise (External d), [e])
  end.

(** A call inside its own [try]/[catch] with a fallback value. *)
Definition call_or {A} (e : event) (r : result A) (fallback : A) : M A :=
  match r with
  | Returns a => (Next a, [e])
  | Throws _ => (Next fallback, [e])
  end.

Declare Scope handler_scope.
Delimit Scope handler_scope with handler.
Notation "x <- m ;; k" := (bind m (fun x => k))
  (at level 61, m at next level, right associativity) : handler_scope.
Open Scope handler_scope.

(** [BigInt(x)] for a Number. *)
Definition BigInt (x : number) : M Z :=
  match BigInt_of_number x with
  | Some z => ret z
  | None => raise RangeError
  end.

(** [list.map((x, index) => f(x, index))], left to right. *)
Fixpoint map_indexed {A B} (f : A -> nat -> M B) (l : list A) (i : nat)
  : M (list B) :=
  match l with
  | [] => ret []
  | x :: l' =>
      y <- f x i ;;
      ys <- map_indexed f l' (S i) ;;
      ret (y :: ys)
  end.

(** The whole route: the body inside [try], and the [catch] that turns an
    exception into the 500 reply. *)
Definition route (body : M response) : response * list event :=
  match body with
  | (Next r, t) => (r, t)
  | (Reply r, t) => (r, t)
  | (Raise e, t) => (ServerError e, t)
  end.

(** [z.toString()] for a BigInt. *)
Definition BigInt_toString (z : Z) : string :=
  NilZero.string_of_int (Z.to_int z).

(** ** Steps shared by the two handlers *)

(** [!s] for an optional string: [undefined] and the empty string. *)
Definition falsy (s : option string) : bool :=
  match s with
  | None => true
  | Some s => String.eqb s ""
  end.

Definition is_undefined {A} (x : option A) : bool :=
  match x with None => true | Some _ => false end.

(** The validated fields of a request. *)
Record Params : Type := {
  sender : string;
  recipient : string;
  amount_ : number;
  fee_ : number;
  key : string
}.

(** Steps 1 to 4 of both handlers (the same text in both sources). *)
Definition validate (req : Body) : M Params :=
  (* 1. Validate required parameters *)
  if falsy (senderAddress req) || falsy (recipientAddress req)
     || is_undefined (amount req) || is_undefined (fee req)
     || falsy (privateKey req)
  then reply (BadRequest "Missing required parameters")
  else
    match senderAddress req, recipientAddress req,
          amount req, fee req, privateKey req with
    | Some sender, Some recipient, Some amount, Some fee, Some key =>
        (* 2. Validate address format *)
        if negb (Regex.test kaspaRegex sender)
        then reply (BadRequest "Invalid sender address format")
        else if negb (Regex.test kaspaRegex recipient)
        then reply (BadRequest "Invalid recipient address format")
        (* 3. Validate recipient <> sender *)
        else if String.eqb recipient sender
        then reply (BadRequest "Recipient address cannot equal sender address")
        (* 4. Validate amount and fee *)
        else if leb amount lit_0
        then reply (BadRequest "Transfer amount must be greater than 0")
        else if ltb fee lit_0
        then reply (BadRequest "Fee cannot be negative")
        else ret {| sender := sender; recipient := recipient;
                    amount_ := amount; fee_ := fee; key := key |}
    | _, _, _, _, _ => reply (BadRequest "Missing required parameters")
    end.

(** The library input built from a ledger entry. *)
Definition input_of_utxo (u : Utxo) : Input :=
  {| prevTxId := u_transactionId u;
     outputIndex := u_index u;
     input_script := u_scriptPublicKey u;
     sequenceNumber := 0;
     output := {| script := u_scriptPublicKey u;
                  satoshis := Number_of_BigInt (u_amount u) |} |}.

Definition new_input (w : World) (u : Utxo) : M Input :=
  let i := input_of_utxo u in
  _ <- call (EvInput i) (Input_new w i) ;;
  ret i.

(** [new Transaction.Output({ script: <script of address>, satoshis })] *)
Definition new_output (w : World) (address : string) (sat : number)
  : M Output :=
  s <- call (EvAddressScript address) (Address_script w address) ;;
  let o := {| script := s; satoshis := sat |} in
  _ <- call (EvOutput o) (Output_new w o) ;;
  ret o.

(** The object returned for one input by the [map] that signs. *)
Definition signed_input (w : World) (input : Input) (signature : string)
  : SignedInput :=
  {| previousOutpoint :=
       (prevTxId_hex w (prevTxId input), outputIndex input);
     signatureScript := "41" ++ signature ++ "01";
     sequence := sequenceNumber input;
     sigOpCount := 1 |}.

Definition payload_output (amount : number) (script : string)
  : PayloadOutput :=
  {| po_amount := amount; po_version := 0; po_scriptPublicKey := script |}.

Definition rest_json (version : Z) (ins : list SignedInput)
           (outs : list PayloadOutput) : Payload :=
  {| p_version := version;
     p_inputs := ins;
     p_outputs := outs;
     lockTime := 0;
     subnetworkId := "0000000000000000000000000000000000000000";
     allowOrphan := true |}.

(** Broadcast, best-effort balance lookup and the success reply. *)
Definition broadcast_and_reply (w : World) (p : Params)
           (restApiJson : Payload) (amountToSend charged : Z) : M response :=
  txResponse <- call (EvPost restApiJson) (post_transaction w restApiJson) ;;
  balance <- call_or (EvGetBalance (sender p)) (get_balance w (sender p))
                     Null ;;
  reply (Success (fst txResponse) (snd txResponse)
                 (BigInt_toString amountToSend)
                 (BigInt_toString charged)
                 balance).

(** ** The multi-UTXO handler *)

Module MultiUtxo.

(** The selection loop: [inputs.push(u); inputSum += BigInt(amount);
    if (inputSum >= totalNeeded) break;] over the entries in the order
    of the ledger's answer. *)
Fixpoint select_loop (utxos : list Utxo) (totalNeeded : Z)
         (inputs : list Utxo) (inputSum : Z) : list Utxo * Z :=
  match utxos with
  | [] => (inputs, inputSum)
  | u :: rest =>
      let inputs := inputs ++ [u] in
      let inputSum := inputSum + u_amount u in
      if totalNeeded <=? inputSum then (inputs, inputSum)
      else select_loop rest totalNeeded inputs inputSum
  end.

Definition select (utxos : list Utxo) (totalNeeded : Z) : list Utxo * Z :=
  select_loop utxos totalNeeded [] 0.

(** [input.getSignatures(tx, sk, index, ...)] and the signed input. *)
Definition sign_input (w : World) (tx : Transaction) (sk : string)
           (input : Input) (index : nat) : M SignedInput :=
  signature <- call (EvSign index) (getSignatures w tx sk input index) ;;
  ret (signed_input w input signature).

(** The outputs of the transaction: the recipient's, then the change
    when it reaches the minimum [BigInt(Math.floor(0.02 * 1e8))]. *)
Definition add_outputs (w : World) (p : Params)
           (amountToSend changeAmount : Z) : M (list Output) :=
  recipientOutput <-
    new_output w (recipient p) (Number_of_BigInt amountToSend) ;;
  minimum <- BigInt (Math_floor (mul lit_0_02 lit_1e8)) ;;
  if minimum <=? changeAmount then
    changeOutput <-
      new_output w (sender p) (Number_of_BigInt changeAmount) ;;
    ret [recipientOutput; changeOutput]
  else ret [recipientOutput].

Definition payload_of (tx : Transaction) (signedInputs : list SignedInput)
  : Payload :=
  rest_json (version tx) signedInputs
    (map (fun o => payload_output (satoshis o) (script o)) (outputs tx)).

Definition createTransaction_body (w : World) (req : Body) : M response :=
  p <- validate req ;;
  amountToSend <- BigInt (Math_floor (mul (amount_ p) lit_1e8)) ;;
  feeAmount <- BigInt (Math_floor (mul (fee_ p) lit_1e8)) ;;
  let totalNeeded := amountToSend + feeAmount in
  _ <- call (EvPrivateKey (key p)) (PrivateKey_new w (key p)) ;;
  let sk := key p in
  (* Fetch UTXOs *)
  utxos <- call (EvGetUtxos (sender p)) (get_utxos w (sender p)) ;;
  (* Select multiple UTXOs to cover totalNeeded *)
  let '(inputs, inputSum) := select utxos totalNeeded in
  if inputSum <? totalNeeded
  then reply (BadRequest "Insufficient UTXOs for requested amount")
  else
    (* Construct transaction; add all selected UTXOs as inputs *)
    txInputs <- map_indexed (fun u _ => new_input w u) inputs 0 ;;
    (* Calculate change *)
    let changeAmount := inputSum - totalNeeded in
    txOutputs <- add_outputs w p amountToSend changeAmount ;;
    let tx := {| version := 0; inputs := txInputs;
                 outputs := txOutputs |} in
    (* Sign all inputs *)
    signedInputs <- map_indexed (sign_input w tx sk) txInputs 0 ;;
    (* Prepare REST JSON, broadcast, fetch sender balance *)
    broadcast_and_reply w p (payload_of tx signedInputs)
                        amountToSend totalNeeded.

Definition createTransaction (w : World) (req : Body)
  : response * list event :=
  route (createTransaction_body w req).

End MultiUtxo.

(** ** The single-UTXO handler of [src/index.js] *)

Module SingleUtxo.

(** [u.utxoEntry.amount >= 100000], a comparison of Numbers. *)
Definition suitable (u : Utxo) : bool :=
  geb (Number_of_BigInt (u_amount u)) lit_100000.

(** [utxos.find((u) => u.utxoEntry.amount >= 100000)] *)
Definition selectedUtxo (utxos : list Utxo) : option Utxo :=
  find suitable utxos.

(** The signing [map] of this handler passes index 0 for every input. *)
Definition sign_input (w : World) (tx : Transaction) (sk : string)
           (input : Input) (index : nat) : M SignedInput :=
  signature <- call (EvSign 0) (getSignatures w tx sk input 0%nat) ;;
  ret (signed_input w input signature).

Definition createTransaction_body (w : World) (req : Body) : M response :=
  p <- validate req ;;
  _ <- call (EvPrivateKey (key p)) (PrivateKey_new w (key p)) ;;
  let sk := key p in
  (* Fetch UTXOs *)
  utxos <- call (EvGetUtxos (sender p)) (get_utxos w (sender p)) ;;
  match selectedUtxo utxos with
  | None => reply (BadRequest "No suitable UTXO available")
  | Some selected =>
      (* Create transaction *)
      txInput <- new_input w selected ;;
      amountToSend <- BigInt (Math_floor (mul (amount_ p) lit_1e8)) ;;
      feeAmount <- BigInt (Math_floor (mul (fee_ p) lit_1e8)) ;;
      let changeAmount := u_amount selected - amountToSend - feeAmount in
      txOutput <-
        new_output w (recipient p) (Number_of_BigInt amountToSend) ;;
      txChange <-
        new_output w (sender p) (Number_of_BigInt changeAmount) ;;
      let tx := {| version := 0; inputs := [txInput];
                   outputs := [txOutput; txChange] |} in
      (* Sign input *)
      signedInputs <- map_indexed (sign_input w tx sk) (inputs tx) 0 ;;
      (* Construct REST JSON *)
      let restApiJson :=
        rest_json (version tx) signedInputs
          [ payload_output (Number_of_BigInt amountToSend)
                           (script txOutput);
            payload_output (Number_of_BigInt changeAmount)
                           (script txChange) ] in
      broadcast_and_reply w p restApiJson
                          amountToSend (amountToSend + feeAmount)
  end.

Definition createTransaction (w : World) (req : Body)
  : response * list event :=
  route (createTransaction_body w req).

End SingleUtxo.

(** ** Reading a run *)

(** The payloads a run has posted, in order. *)
Fixpoint posted (t : list event) : list Payload :=
  match t with
  | [] => []
  | EvPost p :: t' => p :: posted t'
  | _ :: t' => posted t'
  end.

(** Sums of amounts. *)
Definition sum_utxos (l : list Utxo) : Z :=
  fold_right (fun u acc => u_amount u + acc) 0 l.

(** The integer a payload amount denotes, when it is one. *)
Definition payload_amounts (p : Payload) : list (option Z) :=
  map (fun o => BigInt_of_number (po_amount o)) (p_outputs p).

(** The signatures a signing pass obtained: input number [k] of [ins]
    was signed under the index [idx k]. *)
Inductive signed_by (w : World) (tx : Transaction) (sk : string)
          (idx : nat -> nat)
  : nat -> list Input -> list SignedInput -> Prop :=
| signed_nil (i : nat) : signed_by w tx sk idx i [] []
| signed_cons (i : nat) (input : Input) (ins : list Input)
              (signature : string) (sis : list SignedInput) :
    getSignatures w tx sk input (idx i) = Returns signature ->
    signed_by w tx sk idx (S i) ins sis ->
    signed_by w tx sk idx i (input :: ins)
              (signed_input w input signature :: sis).

(** The amounts of a request in smallest units:
    [BigInt(Math.floor(x * 1e8))]. *)
Definition to_sompi (x : number) : option Z :=
  BigInt_of_number (Math_floor (mul x lit_1e8)).

(** What a run of the multi-UTXO handler that reaches the broadcast has
    computed on its way. *)
Record Build : Type := {
  b_params : Params;
  b_amountToSend : Z;
  b_feeAmount : Z;
  b_utxos : list Utxo;
  b_inputs : list Utxo;
  b_inputSum : Z;
  b_outputs : list Output;
  b_signedInputs : list SignedInput
}.

Definition b_totalNeeded (b : Build) : Z :=
  b_amountToSend b + b_feeAmount b.

Definition b_changeAmount (b : Build) : Z :=
  b_inputSum b - b_totalNeeded b.

Definition b_tx (b : Build) : Transaction :=
  {| version := 0;
     inputs := map input_of_utxo (b_inputs b);
     outputs := b_outputs b |}.

Definition b_payload (b : Build) : Payload :=
  MultiUtxo.payload_of (b_tx b) (b_signedInputs b).

Definition is_build (w : World) (req : Body) (b : Build) : Prop :=
  validate req = (Next (b_params b), [])
  /\ to_sompi (amount_ (b_params b)) = Some (b_amountToSend b)
  /\ to_sompi (fee_ (b_params b)) = Some (b_feeAmount b)
  /\ PrivateKey_new w (key (b_params b)) = Returns tt
  /\ get_utxos w (sender (b_params b)) = Returns (b_utxos b)
  /\ MultiUtxo.select (b_utxos b) (b_totalNeeded b)
     = (b_inputs b, b_inputSum b)
  /\ b_totalNeeded b <= b_inputSum b
  /\ fst (MultiUtxo.add_outputs w (b_params b) (b_amountToSend b)
                                (b_changeAmount b))
     = Next (b_outputs b)
  /\ signed_by w (b_tx b) (key (b_params b)) (fun i => i) 0
               (inputs (b_tx b)) (b_signedInputs b).

(** The same for the single-UTXO handler. *)
Record Build1 : Type := {
  s_params : Params;
  s_amountToSend : Z;
  s_feeAmount : Z;
  s_utxos : list Utxo;
  s_selected : Utxo;
  s_recipientScript : string;
  s_senderScript : string;
  s_signedInputs : list SignedInput
}.

Definition s_changeAmount (b : Build1) : Z :=
  u_amount (s_selected b) - s_amountToSend b - s_feeAmount b.

Definition s_tx (b : Build1) : Transaction :=
  {| version := 0;
     inputs := [input_of_utxo (s_selected b)];
     outputs :=
       [ {| script := s_recipientScript b;
            satoshis := Number_of_BigInt (s_amountToSend b) |};
         {| script := s_senderScript b;
            satoshis := Number_of_BigInt (s_changeAmount b) |} ] |}.

Definition s_payload (b : Build1) : Payload :=
  rest_json 0 (s_signedInputs b)
    [ payload_output (Number_of_BigInt (s_amountToSend b))
                     (s_recipientScript b);
      payload_output (Number_of_BigInt (s_changeAmount b))
                     (s_senderScript b) ].

Definition is_build1 (w : World) (req : Body) (b : Build1) : Prop :=
  validate req = (Next (s_params b), [])
  /\ PrivateKey_new w (key (s_params b)) = Returns tt
  /\ get_utxos w (sender (s_params b)) = Returns (s_utxos b)
  /\ SingleUtxo.selectedUtxo (s_utxos b) = Some (s_selected b)
  /\ to_sompi (amount_ (s_params b)) = Some (s_amountToSend b)
  /\ to_sompi (fee_ (s_params b)) = Some (s_feeAmount b)
  /\ Address_script w (recipient (s_params b))
     = Returns (s_recipientScript b)
  /\ Address_script w (sender (s_params b)) = Returns (s_senderScript b)
  /\ signed_by w (s_tx b) (key (s_params b)) (fun _ => 0%nat) 0
               (inputs (s_tx b)) (s_signedInputs b).

(** The reply of a run that went through the broadcast. *)
Definition reply_after_post (w : World) (p : Params) (payload : Payload)
           (amountToSend charged : Z) : response :=
  match post_transaction w payload with
  | Returns txResponse =>
      Success (fst txResponse) (snd txResponse)
              (BigInt_toString amountToSend) (BigInt_toString charged)
              (match get_balance w (sender p) with
               | Returns v => v
               | Throws _ => Null
               end)
  | Throws d => ServerError (External d)
  end.

(** ** Strings *)

(** All characters of a string satisfy a test. *)
Fixpoint string_forallb (f : ascii -> bool) (s : string) : bool :=
  match s with
  | EmptyString => true
  | String c s' => f c && string_forallb f s'
  end.

(** A lowercase letter or a digit: the class [[a-z0-9]]. *)
Definition lower_alnum (c : ascii) : bool :=
  Regex.in_class [("a", "z"); ("0", "9")]%char c.

(** The 36 characters of the class [[a-z0-9]]. *)
Definition class36 : list ascii :=
  list_ascii_of_string "abcdefghijklmnopqrstuvwxyz0123456789".

(** A decimal digit. *)
Definition is_digit (c : ascii) : bool :=
  Regex.in_class [("0", "9")]%char c.

(** A lowercase hexadecimal digit. *)
Definition is_hex (c : ascii) : bool :=
  Regex.in_class [("0", "9"); ("a", "f")]%char c.

(** [/^41[0-9a-f]{128}01$/]: the shape [41<128 hex chars>01]. *)
Definition signatureScriptRegex : Regex.pattern :=
  [ Regex.Literal "41";
    Regex.ClassRepeat [("0", "9"); ("a", "f")]%char 128 128;
    Regex.Literal "01" ].

(** The length in bytes of a hexadecimal string. *)
Definition hex_bytes (s : string) : nat := Nat.div (String.length s) 2.

(** A hexadecimal string with its digits [A] to [F] in lower case. *)
Fixpoint lower_hex (s : string) : string :=
  match s with
  | EmptyString => EmptyString
  | String c s' =>
      String (if Regex.in_class [("A", "F")]%char c
              then ascii_of_nat (nat_of_ascii c + 32)
              else c)
             (lower_hex s')
  end.

(** An address format as a prefix and an alphabet: the literal prefix,
    then 61 to 63 characters of the alphabet. *)
Definition address_over (alphabet : list ascii) (s : string) : Prop :=
  exists payload,
    s = ("kaspa:" ++ payload)%string
    /\ (61 <= String.length payload <= 63)%nat
    /\ string_forallb (fun c => existsb (Ascii.eqb c) alphabet) payload
       = true.

(** ** Validation failures *)

(** An address that is present and does not have the address format. *)
Definition malformed (a : option string) : Prop :=
  exists s, a = Some s /\ Regex.test kaspaRegex s = false.

(** The failures of validation: a missing parameter, a malformed sender
    or recipient address, a recipient equal to the sender, an amount that
    is not positive, a negative fee. *)
Definition validation_failure (req : Body) : Prop :=
  falsy (senderAddress req) = true
  \/ falsy (recipientAddress req) = true
  \/ amount req = None
  \/ fee req = None
  \/ falsy (privateKey req) = true
  \/ malformed (senderAddress req)
  \/ malformed (recipientAddress req)
  \/ recipientAddress req = senderAddress req
  \/ (exists a, amount req = Some a /\ leb a lit_0 = true)
  \/ (exists f, fee req = Some f /\ ltb f lit_0 = true).

(** ** A test bench: a ledger and a library that accept everything

    The library of this bench checks nothing: its constructors take
    every input and every output, which the transaction library itself
    does not (see [accepted_satoshis] and [Checked.world] below). *)

Module Bench.

Local Open Scope string_scope.

Definition addr (c : ascii) : string :=
  "kaspa:" ++ string_of_list_ascii (repeat c 61).

Definition alice : string := addr "q".
Definition bob : string := addr "p".

(** A 64-byte signature in hexadecimal. *)
Definition sig64 : string := string_of_list_ascii (repeat "a"%char 128).

Definition utxo (n : Z) (a : Z) : Utxo :=
  {| u_transactionId := "00"; u_index := n; u_amount := a;
     u_scriptPublicKey := "20aaac" |}.

(** A world whose ledger holds [utxos] for every address and whose
    balance lookup answers [balance]. *)
Definition world (utxos : list Utxo) (balance : result value) : World :=
  {| PrivateKey_new := fun _ => Returns tt;
     get_utxos := fun _ => Returns utxos;
     Input_new := fun _ => Returns tt;
     Address_script := fun a => Returns ("script:" ++ a);
     Output_new := fun _ => Returns tt;
     getSignatures := fun _ _ _ _ => Returns sig64;
     prevTxId_hex := lower_hex;
     post_transaction := fun _ => Returns (Str "txid", Str "raw");
     get_balance := fun _ => balance |}.

Definition request (amount fee : number) : Body :=
  {| senderAddress := Some alice;
     recipientAddress := Some bob;
     amount := Some amount;
     fee := Some fee;
     privateKey := Some "11" |}.

End Bench.

(** ** The checks of the transaction library *)

(** What the output constructor of the library takes for [satoshis]: a
    natural number below 2^53.  The library is not part of the
    repository; its constructor throws on a Number that is negative or
    not an integer, and on one that its big-number type cannot hold, an
    integer of 2^53 or more. *)
Definition accepted_satoshis (x : number) : bool :=
  match BigInt_of_number x with
  | Some z => (0 <=? z) && (z <? 2 ^ 53)
  | None => false
  end.

(** A world whose library makes this check when an output is built. *)
Definition checks_outputs (w : World) : Prop :=
  forall o, Output_new w o = Returns tt ->
            accepted_satoshis (satoshis o) = true.

(** The bench with a library that makes the check, for the outputs of a
    transaction and for the output that an input holds. *)
Module Checked.

Local Open Scope string_scope.

(** The message of the exception, which the handlers pass on in their
    500 reply. *)
Definition refusal : string := "Output satoshis is not a natural number".

Definition world (utxos : list Utxo) (balance : result value) : World :=
  let w := Bench.world utxos balance in
  {| PrivateKey_new := PrivateKey_new w;
     get_utxos := get_utxos w;
     Input_new := fun i => if accepted_satoshis (satoshis (output i))
                           then Returns tt else Throws refusal;
     Address_script := Address_script w;
     Output_new := fun o => if accepted_satoshis (satoshis o)
                            then Returns tt else Throws refusal;
     getSignatures := getSignatures w;
     prevTxId_hex := prevTxId_hex w;
     post_transaction := post_transaction w;
     get_balance := get_balance w |}.

End Checked.

(** ** More about numbers *)

(** The literal [1]. *)
Definition lit_1 : number := Number_of_BigInt 1.

(** [Number.isFinite(x)] *)
Definition isFinite (x : number) : bool :=
  match x with
  | S754_zero _ | S754_finite _ _ _ => true
  | S754_infinity _ | S754_nan => false
  end.

(** ** The calls of a build *)

(** The calls that build the outputs [outs], one address and one
    constructor call each, for the addresses in the order given. *)
Definition output_calls (addresses : list string) (outs : list Output)
  : list event :=
  flat_map (fun ao => [EvAddressScript (fst ao); EvOutput (snd ao)])
           (combine addresses outs).

(** The calls of a run of the multi-UTXO handler that went through to
    the broadcast, up to and including the broadcast. *)
Definition build_calls (b : Build) : list event :=
  [EvPrivateKey (key (b_params b)); EvGetUtxos (sender (b_params b))]
  ++ map EvInput (inputs (b_tx b))
  ++ output_calls [recipient (b_params b); sender (b_params b)]
                  (b_outputs b)
  ++ map EvSign (seq 0 (List.length (inputs (b_tx b))))
  ++ [EvPost (b_payload b)].

(** The calls of the single-UTXO handler up to the constructor of the
    change output. *)
Definition construction_calls (p : Params) (selected : Utxo)
           (txOutput txChange : Output) : list event :=
  [ EvPrivateKey (key p); EvGetUtxos (sender p);
    EvInput (input_of_utxo selected);
    EvAddressScript (recipient p); EvOutput txOutput;
    EvAddressScript (sender p); EvOutput txChange ].

(** ** The unsigned variant of the route *)

(** The third variant of [POST /createTransaction] holds no library for
    keys and transactions: it checks the request, spends every entry of
    the sender and replies with the unsigned transaction, for the caller
    to sign. *)
Module Unsigned.

Local Open Scope string_scope.

(** The inputs and outputs of [unsignedTx].  The amounts are BigInts
    ([A := Z]) while the handler computes, and their decimal strings
    ([A := string]) in the reply. *)
Record TxIn (A : Type) : Type := {
  in_transactionId : string;
  in_outputIndex : Z;
  in_amount : A;
  in_scriptPublicKey : string
}.
Arguments in_transactionId {A} _.
Arguments in_outputIndex {A} _.
Arguments in_amount {A} _.
Arguments in_scriptPublicKey {A} _.

Record TxOut (A : Type) : Type := {
  out_recipient : string;
  out_amount : A
}.
Arguments out_recipient {A} _.
Arguments out_amount {A} _.

Record Tx (A : Type) : Type := {
  tx_inputs : list (TxIn A);
  tx_outputs : list (TxOut A)
}.
Arguments tx_inputs {A} _.
Arguments tx_outputs {A} _.

(** The replies: [res.status(400).json({ error })], the 500 of the
    [catch] (which carries no details), and the success. *)
Inductive response : Type :=
| Status400 (error : string)
| Status500
| Status200 (unsignedTx : Tx string)
            (transferredAmount chargedAmount : string)
            (walletBalance : value).

(** Steps 1 to 5 (step 3, the check of the key against the sender, is
    commented out in the source). *)
Definition validate (req : Body) : string + Params :=
  (* 1. Validate required params *)
  if falsy (senderAddress req) || falsy (recipientAddress req)
     || is_undefined (amount req) || is_undefined (fee req)
     || falsy (privateKey req)
  then inl "Missing required parameters"
  else
    match senderAddress req, recipientAddress req,
          amount req, fee req, privateKey req with
    | Some sender, Some recipient, Some amount, Some fee, Some key =>
        (* 2. Validate address format *)
        if negb (Regex.test kaspaRegex sender)
        then inl "Invalid sender address format"
        else if negb (Regex.test kaspaRegex recipient)
        then inl "Invalid recipient address format"
        (* 4. Validate recipient <> sender *)
        else if String.eqb recipient sender
        then inl "Recipient address cannot equal sender address"
        (* 5. Validate amount/fee *)
        else if leb amount lit_0
        then inl "Transfer amount must be greater than 0"
        else if ltb fee lit_0
        then inl "Fee cannot be negative"
        else inr {| sender := sender; recipient := recipient;
                    amount_ := amount; fee_ := fee; key := key |}
    | _, _, _, _, _ => inl "Missing required parameters"
    end.

(** 7. Map UTXOs to inputs *)
Definition input_of (utxo : Utxo) : TxIn Z :=
  {| in_transactionId := u_transactionId utxo;
     in_outputIndex := u_index utxo;
     in_amount := u_amount utxo;
     in_scriptPublicKey := u_scriptPublicKey utxo |}.

(** [inputs.reduce((sum, utxo) => sum + utxo.amount, BigInt(0))] *)
Definition totalInputAmount (inputs : list (TxIn Z)) : Z :=
  fold_left (fun sum utxo => sum + in_amount utxo) inputs 0.

(** [JSON.parse(JSON.stringify(unsignedTx, replacer))]: the replacer
    turns every BigInt into its decimal string and leaves the rest. *)
Definition replaced (unsignedTx : Tx Z) : Tx string :=
  {| tx_inputs :=
       map (fun i => {| in_transactionId := in_transactionId i;
                        in_outputIndex := in_outputIndex i;
                        in_amount := BigInt_toString (in_amount i);
                        in_scriptPublicKey := in_scriptPublicKey i |})
           (tx_inputs unsignedTx);
     tx_outputs :=
       map (fun o => {| out_recipient := out_recipient o;
                        out_amount := BigInt_toString (out_amount o) |})
           (tx_outputs unsignedTx) |}.

(** The handler.  The ledger answers with an array, as the signing
    handlers read it, so [utxosResp.data.utxos || utxosResp.data] is that
    array. *)
Definition createTransaction (w : World) (req : Body)
  : response * list event :=
  match validate req with
  | inl error => (Status400 error, [])
  | inr p =>
      (* 6. Fetch UTXOs for sender *)
      let fetch := EvGetUtxos (sender p) in
      match get_utxos w (sender p) with
      | Throws _ =>
          (Status400 "Invalid sender address or unable to fetch UTXOs",
           [fetch])
      | Returns utxos =>
          match utxos with
          | [] =>
              (Status400 "No UTXOs available for the sender address",
               [fetch])
          | _ :: _ =>
              let inputs := map input_of utxos in
              let totalInputAmount := totalInputAmount inputs in
              match to_sompi (amount_ p), to_sompi (fee_ p) with
              | Some amountBigInt, Some feeBigInt =>
                  let changeAmount :=
                    totalInputAmount - amountBigInt - feeBigInt in
                  (* 8. Validate balance *)
                  if (changeAmount <? 0)%Z
                  then (Status400 "Insufficient funds", [fetch])
                  else
                    (* 9. Fetch balance for sender *)
                    let balance :=
                      match get_balance w (sender p) with
                      | Returns v => v
                      | Throws _ => Null
                      end in
                    (* 10. Build unsigned transaction *)
                    let unsignedTx :=
                      {| tx_inputs := inputs;
                         tx_outputs :=
                           [ {| out_recipient := recipient p;
                                out_amount := amountBigInt |};
                             {| out_recipient := sender p;
                                out_amount := changeAmount |} ] |} in
                    (Status200 (replaced unsignedTx)
                               (BigInt_toString amountBigInt)
                               (BigInt_toString (amountBigInt + feeBigInt))
                               balance,
                     [fetch; EvGetBalance (sender p)])
              | _, _ => (Status500, [fetch])
              end
          end
      end
  end.

End Unsigned.

(** ** The other routes *)

(** JSON documents, as the HTTP client and the body parser hand them
    over.  An object lists its keys in order, each key once. *)
#[warnings="-register-all"] Inductive json : Type :=
| JNull
| JBool (b : bool)
| JNum (n : number)
| JStr (s : string)
| JArr (items : list json)
| JObj (fields : list (string * json)).

(** [fields[k]]: [None] is [undefined]. *)
Fixpoint property (k : string) (fields : list (string * json))
  : option json :=
  match fields with
  | [] => None
  | (k', v) :: rest => if String.eqb k' k then Some v else property k rest
  end.

(** [{ ...fields, k: v }]: the key keeps its place when the object has
    it, and is added at the end otherwise. *)
Fixpoint assign (k : string) (v : json) (fields : list (string * json))
  : list (string * json) :=
  match fields with
  | [] => [(k, v)]
  | (k', v') :: rest =>
      if String.eqb k' k then (k, v) :: rest
      else (k', v') :: assign k v rest
  end.

(** The values that count as true in a condition. *)
Definition truthy (v : json) : bool :=
  match v with
  | JNull => false
  | JBool b => b
  | JNum (S754_zero _) | JNum S754_nan => false
  | JNum _ => true
  | JStr s => negb (String.eqb s "")
  | JArr _ | JObj _ => true
  end.

(** [v.length === 0] for a value that is not null. *)
Definition length_is_0 (v : json) : bool :=
  match v with
  | JArr [] => true
  | JStr s => String.eqb s ""
  | JObj fields =>
      match property "length" fields with
      | Some (JNum (S754_zero _)) => true
      | _ => false
      end
  | _ => false
  end.

Module Gateway.

Local Open Scope string_scope.

Definition KASPA_REST : string := "https://api.kaspa.org".

(** An answer of the REST API to the HTTP client: the body, or the
    exception of the client, of which the handlers read
    [err.response?.data || err.message]. *)
Inductive answer : Type :=
| Data (data : json)
| Fails (details : json).

Record Upstream : Type := {
  axios_get : string -> answer;
  axios_post : string -> json -> answer
}.

(** The requests a handler sent. *)
Inductive request : Type :=
| Get (url : string)
| Post (url : string) (body : json).

(** What reaches a [catch]: a TypeError of the handler's own code, or
    the exception of the HTTP client. *)
Inductive thrown : Type :=
| TypeError
| HttpError (details : json).

(** The replies: [res.status(status).json(body)], and the reply of the
    [catch] blocks, [res.status(500).json({ status: "ERROR", error })]
    with the details or the message of what was caught. *)
Inductive reply : Type :=
| Json (status : Z) (body : json)
| Failure (cause : thrown).

(** [{ status: "OK", [key]: data }] *)
Definition ok (key : string) (data : json) : json :=
  JObj [("status", JStr "OK"); (key, data)].

(** [{ status: "ERROR", error }] *)
Definition error (message : string) : json :=
  JObj [("status", JStr "ERROR"); ("error", JStr message)].

(** [POST /submit]: [tx] is the field of the body, [None] when the body
    has none. *)
Definition submit (u : Upstream) (tx : option json)
  : reply * list request :=
  match tx with
  | None => (Json 400 (error "Missing signed transaction data"), [])
  | Some tx =>
      if negb (truthy tx)
      then (Json 400 (error "Missing signed transaction data"), [])
      else
        let url := KASPA_REST ++ "/transactions" in
        let body := JObj [("tx", tx)] in
        match axios_post u url body with
        | Data data => (Json 200 (ok "result" data), [Post url body])
        | Fails details => (Failure (HttpError details), [Post url body])
        end
  end.

(** *** The history with its flags *)

(** [v[k]] for a key that only the document can define: [undefined]
    ([None]) when [v] has no such key, a TypeError when [v] is null. *)
Definition read (v : json) (k : string) : thrown + option json :=
  match v with
  | JNull => inl TypeError
  | JObj fields => inr (property k fields)
  | _ => inr None
  end.

(** The loop of [Array.prototype.map] for a callback that can throw. *)
Fixpoint map_throwing {A B} (f : A -> thrown + B) (l : list A)
  : thrown + list B :=
  match l with
  | [] => inr []
  | x :: l' =>
      match f x with
      | inl e => inl e
      | inr y =>
          match map_throwing f l' with
          | inl e => inl e
          | inr ys => inr (y :: ys)
          end
      end
  end.

(** [a.map(f)] for a value read from a document: a TypeError unless [a]
    is an array. *)
Definition array_map {B} (a : option json) (f : json -> thrown + B)
  : thrown + list B :=
  match a with
  | Some (JArr items) => map_throwing f items
  | _ => inl TypeError
  end.

(** [address => address !== null] *)
Definition not_null (address : option json) : bool :=
  match address with
  | Some JNull => false
  | _ => true
  end.

(** [addresses.includes(address)] for a string [address]. *)
Definition includes (addresses : list (option json)) (address : string)
  : bool :=
  existsb (fun a => match a with
                    | Some (JStr s) => String.eqb s address
                    | _ => false
                    end) addresses.

(** The callback of [resp.data.map]: the transaction with its three
    flags. *)
Definition flagged (address : string) (tx : json) : thrown + json :=
  match tx with
  | JObj fields =>
      match array_map (property "inputs" fields)
                      (fun input => read input "previous_outpoint_address")
      with
      | inl e => inl e
      | inr previous =>
          let inputAddresses := filter not_null previous in
          match array_map (property "outputs" fields)
                  (fun output => read output "script_public_key_address")
          with
          | inl e => inl e
          | inr outputAddresses =>
              let isSent := includes inputAddresses address in
              let isReceived := includes outputAddresses address in
              let isSelfTransfer :=
                includes inputAddresses address
                && includes outputAddresses address in
              inr (JObj (assign "isSelfTransfer" (JBool isSelfTransfer)
                           (assign "isReceived" (JBool isReceived)
                              (assign "isSent" (JBool isSent) fields))))
          end
      end
  | _ => inl TypeError
  end.

(** [GET /transactions/:address] of the signing variants. *)
Definition transactions (u : Upstream) (address : string)
  : reply * list request :=
  let url :=
    KASPA_REST ++ "/addresses/" ++ address ++ "/full-transactions" in
  match axios_get u url with
  | Fails details => (Failure (HttpError details), [Get url])
  | Data data =>
      if negb (truthy data) || length_is_0 data
      then (Json 404 (error "No transactions found for the address"),
            [Get url])
      else
        match array_map (Some data) (flagged address) with
        | inr transactions =>
            (Json 200 (ok "transactions" (JArr transactions)), [Get url])
        | inl e => (Failure e, [Get url])
        end
  end.

End Gateway.

(** ** Reading a history *)

(** The field [k] of [v] is the string [address]. *)
Definition names (v : json) (k address : string) : bool :=
  match v with
  | JObj fields =>
      match property k fields with
      | Some (JStr s) => String.eqb s address
      | _ => false
      end
  | _ => false
  end.

(** An array without null entries. *)
Definition no_null (items : list json) : bool :=
  forallb (fun x => match x with JNull => false | _ => true end) items.

(** A transaction whose [inputs] and [outputs] are arrays without null
    entries. *)
Definition readable (tx : json) : bool :=
  match tx with
  | JObj fields =>
      match property "inputs" fields, property "outputs" fields with
      | Some (JArr ins), Some (JArr outs) => no_null ins && no_null outs
      | _, _ => false
      end
  | _ => false
  end.

(** ** A test bench for the history: documents of the ledger *)

Module Ledger.

Local Open Scope string_scope.

Definition input (address : json) : json :=
  JObj [("index", JNum lit_0); ("previous_outpoint_address", address)].

Definition output (address : string) : json :=
  JObj [("amount", JNum lit_1e8);
        ("script_public_key_address", JStr address)].

Definition transaction (id : string) (ins outs : json) : json :=
  JObj [("transaction_id", JStr id); ("inputs", ins); ("outputs", outs)].

(** A REST API that answers every request with [data]. *)
Definition upstream (data : Gateway.answer) : Gateway.Upstream :=
  {| Gateway.axios_get := fun _ => data;
     Gateway.axios_post := fun _ _ => data |}.

(** Alice pays Bob and keeps the change. *)
Definition payment : json :=
  transaction "aa" (JArr [input (JStr Bench.alice)])
              (JArr [output Bench.bob; output Bench.alice]).

(** A transaction whose inputs are null. *)
Definition without_inputs : json :=
  transaction "cb" JNull (JArr [output Bench.alice]).

End Ledger.

(** * Facts about Numbers *)

Section Digits.

Lemma digits2_pos_bounds (p : positive) :
  2 ^ (Zpos (digits2_pos p) - 1) <= Zpos p < 2 ^ Zpos (digits2_pos p).
Proof.
  induction p as [p IH | p IH | ]; cbn [digits2_pos].
  - rewrite Pos2Z.inj_succ.
    replace (Z.succ (Zpos (digits2_pos p)) - 1)
      with (Zpos (digits2_pos p)) by lia.
    rewrite Z.pow_succ_r by lia.
    assert (H : 2 ^ Zpos (digits2_pos p)
                = 2 * 2 ^ (Zpos (digits2_pos p) - 1)).
    { rewrite <- Z.pow_succ_r by lia. f_equal. lia. }
    lia.
  - rewrite Pos2Z.inj_succ.
    replace (Z.succ (Zpos (digits2_pos p)) - 1)
      with (Zpos (digits2_pos p)) by lia.
    rewrite Z.pow_succ_r by lia.
    assert (H : 2 ^ Zpos (digits2_pos p)
                = 2 * 2 ^ (Zpos (digits2_pos p) - 1)).
    { rewrite <- Z.pow_succ_r by lia. f_equal. lia. }
    lia.
  - cbn. lia.
Qed.

Lemma digits2_pos_le (p : positive) (n : Z) :
  0 <= n -> Zpos p < 2 ^ n -> Zpos (digits2_pos p) <= n.
Proof.
  intros Hn Hp.
  destruct (Z.le_gt_cases (Zpos (digits2_pos p)) n) as [H | H]; [exact H | ].
  exfalso.
  pose proof (digits2_pos_bounds p) as [Hlo _].
  assert (2 ^ n <= 2 ^ (Zpos (digits2_pos p) - 1))
    by (apply Z.pow_le_mono_r; lia).
  lia.
Qed.

Lemma iter_xO_value (p n : positive) :
  Zpos (Pos.iter xO p n) = Zpos p * 2 ^ Zpos n.
Proof.
  induction n as [ | n IH] using Pos.peano_ind.
  - cbn. lia.
  - rewrite Pos.iter_succ, Pos2Z.inj_succ, Z.pow_succ_r by lia.
    rewrite Pos2Z.inj_xO, IH. lia.
Qed.

Lemma iter_xO_digits (p n : positive) :
  Zpos (digits2_pos (Pos.iter xO p n)) = Zpos (digits2_pos p) + Zpos n.
Proof.
  induction n as [ | n IH] using Pos.peano_ind.
  - cbn. lia.
  - rewrite Pos.iter_succ. cbn [digits2_pos].
    rewrite Pos2Z.inj_succ, IH. lia.
Qed.

End Digits.

(** A mantissa is in place when it has exactly 53 bits and its exponent
    is in range; rounding leaves such a number alone. *)
Lemma binary_round_aux_in_place (s : bool) (m : positive) (e : Z) :
  Zpos (digits2_pos m) = 53 -> -1021 <= e <= 971 ->
  binary_round_aux prec emax s (Zpos m) e loc_Exact = S754_finite s m e.
Proof.
  intros Hd He.
  unfold binary_round_aux, shr_fexp, Zdigits2, fexp, emin, prec, emax.
  rewrite Hd.
  replace (Z.max (53 + e - 53) (3 - 1024 - 53) - e) with 0 by lia.
  cbn [shr shr_record_of_loc shr_m loc_of_shr_record round_nearest_even].
  rewrite Hd.
  replace (Z.max (53 + e - 53) (3 - 1024 - 53) - e) with 0 by lia.
  cbn [shr shr_record_of_loc shr_m].
  destruct (Z.leb_spec e (1024 - 53)); [reflexivity | lia].
Qed.

(** [Number(z)] of a positive integer below 2^53: the integer itself,
    shifted so that the mantissa has 53 bits. *)
Lemma binary_round_small (s : bool) (p : positive) :
  Zpos p < 2 ^ 53 ->
  exists m e,
    binary_round prec emax s p 0 = S754_finite s m e
    /\ e = Zpos (digits2_pos p) - 53
    /\ Zpos m = Zpos p * 2 ^ (- e)
    /\ Zpos (digits2_pos m) = 53.
Proof.
  intros Hp.
  pose proof (digits2_pos_le p 53 ltac:(lia) Hp) as Hd.
  assert (0 < Zpos (digits2_pos p)) by lia.
  unfold binary_round, shl_align, fexp, emin, prec, emax.
  replace (Z.max (Zpos (digits2_pos p) + 0 - 53) (3 - 1024 - 53) - 0)
    with (Zpos (digits2_pos p) - 53) by lia.
  replace (Z.max (Zpos (digits2_pos p) + 0 - 53) (3 - 1024 - 53))
    with (Zpos (digits2_pos p) - 53) by lia.
  destruct (Zpos (digits2_pos p) - 53) as [ | q | q] eqn:E; try lia.
  - exists p, 0. rewrite binary_round_aux_in_place by lia.
    repeat split; try lia.
  - exists (Pos.iter xO p q), (Zneg q).
    assert (Hq : Zpos (digits2_pos (Pos.iter xO p q)) = 53)
      by (rewrite iter_xO_digits; lia).
    rewrite binary_round_aux_in_place by lia.
    repeat split; try lia.
    rewrite iter_xO_value. reflexivity.
Qed.

(** Converting a small integer to a Number and back loses nothing. *)
Lemma BigInt_of_finite_small (s : bool) (p : positive) :
  Zpos p < 2 ^ 53 ->
  BigInt_of_number (binary_round prec emax s p 0) = Some (signed s p).
Proof.
  intros Hp.
  destruct (binary_round_small s p Hp) as (m & e & -> & He & Hm & Hd).
  pose proof (digits2_pos_le p 53 ltac:(lia) Hp) as Hle.
  unfold BigInt_of_number.
  destruct (Z.leb_spec 0 e) as [H0 | H0].
  - assert (E : e = 0) by lia. rewrite E in Hm |- *.
    change (2 ^ (- 0)) with 1 in Hm. change (2 ^ 0) with 1.
    f_equal. unfold signed, cond_Zopp. destruct s; lia.
  - assert (Hpow : 0 < 2 ^ (- e)) by (apply Z.pow_pos_nonneg; lia).
    rewrite Hm, Z.mod_mul by lia. cbn [Z.eqb].
    f_equal. unfold signed, cond_Zopp. rewrite Hm.
    destruct s.
    + rewrite <- Z.mul_opp_l, Z.div_mul by lia. reflexivity.
    + rewrite Z.div_mul by lia. reflexivity.
Qed.

Lemma BigInt_of_Number_exact (z : Z) :
  - 2 ^ 53 < z < 2 ^ 53 ->
  BigInt_of_number (Number_of_BigInt z) = Some z.
Proof.
  intros Hz. unfold Number_of_BigInt, binary_normalize.
  destruct z as [ | p | p].
  - reflexivity.
  - rewrite BigInt_of_finite_small by lia. reflexivity.
  - rewrite BigInt_of_finite_small by lia. reflexivity.
Qed.

(** A valid finite number has a mantissa of at most 53 bits. *)
Lemma valid_mantissa (s : bool) (m : positive) (e : Z) :
  valid_binary prec emax (S754_finite s m e) = true -> Zpos m < 2 ^ 53.
Proof.
  cbn [valid_binary].
  unfold bounded, canonical_mantissa, fexp, emin, prec, emax.
  intros H. apply andb_prop in H as [H _]. apply Z.eqb_eq in H.
  pose proof (digits2_pos_bounds m) as [_ Hhi].
  assert (Zpos (digits2_pos m) <= 53) by lia.
  assert (2 ^ Zpos (digits2_pos m) <= 2 ^ 53)
    by (apply Z.pow_le_mono_r; lia).
  lia.
Qed.

(** [BigInt(Math.floor(x))] is the integer part of [x], and a RangeError
    exactly when [x] is NaN or infinite. *)
Lemma BigInt_of_floor (x : number) :
  valid_binary prec emax x = true ->
  BigInt_of_number (Math_floor x) = floorZ x.
Proof.
  destruct x as [s | s | | s m e]; try reflexivity.
  intros Hv. pose proof (valid_mantissa s m e Hv) as Hm.
  unfold Math_floor, floorZ.
  destruct (Z.leb_spec 0 e) as [He | He].
  - cbn [BigInt_of_number]. destruct (Z.leb_spec 0 e); [reflexivity | lia].
  - apply BigInt_of_Number_exact.
    assert (Hpow : 0 < 2 ^ (- e)) by (apply Z.pow_pos_nonneg; lia).
    unfold signed, cond_Zopp. destruct s.
    + split.
      * apply Z.lt_le_trans with (- Zpos m); [lia | ].
        apply Z.div_le_lower_bound; [lia | ]. nia.
      * apply Z.le_lt_trans with 0; [ | lia].
        apply Z.div_le_upper_bound; lia.
    + split.
      * apply Z.lt_le_trans with 0; [lia | ].
        apply Z.div_pos; lia.
      * apply Z.le_lt_trans with (Zpos m); [ | lia].
        apply Z.div_le_upper_bound; [lia | ]. nia.
Qed.

(** The integer part is the floor: [z <= x < z + 1]. *)
Lemma floorZ_spec (s : bool) (m : positive) (e : Z) (z : Z) :
  e < 0 -> floorZ (S754_finite s m e) = Some z ->
  z * 2 ^ (- e) <= signed s m < (z + 1) * 2 ^ (- e).
Proof.
  intros He. cbn [floorZ].
  destruct (Z.leb_spec 0 e); [lia | ].
  intros [= <-].
  assert (Hpow : 0 < 2 ^ (- e)) by (apply Z.pow_pos_nonneg; lia).
  pose proof (Z.div_mod (signed s m) (2 ^ (- e)) ltac:(lia)).
  pose proof (Z.mod_pos_bound (signed s m) (2 ^ (- e)) Hpow).
  nia.
Qed.

(** Signs: rounding keeps the sign it is given. *)
Lemma binary_round_aux_sign (s : bool) (m e : Z) (l : location) :
  match binary_round_aux prec emax s m e l with
  | S754_zero s' | S754_infinity s' | S754_finite s' _ _ => s' = s
  | S754_nan => True
  end.
Proof.
  unfold binary_round_aux.
  destruct (shr_fexp prec emax m e l) as [mrs' e'].
  destruct (shr_fexp prec emax _ e' loc_Exact) as [mrs'' e''].
  destruct (shr_m mrs''); try exact I; try reflexivity.
  destruct (e'' <=? emax - prec); reflexivity.
Qed.

Lemma Number_of_BigInt_nonneg (z : Z) :
  0 <= z -> nonneg (Number_of_BigInt z) = true.
Proof.
  intros Hz. unfold Number_of_BigInt, binary_normalize.
  destruct z as [ | p | p]; try lia; try reflexivity.
  unfold binary_round. destruct (shl_align _ _ _) as [mz ez].
  pose proof (binary_round_aux_sign false (Zpos mz) ez loc_Exact) as H.
  destruct (binary_round_aux _ _ _ _ _ _); subst; reflexivity.
Qed.

Lemma BigInt_of_nonneg (x : number) (z : Z) :
  nonneg x = true -> BigInt_of_number x = Some z -> 0 <= z.
Proof.
  destruct x as [s | s | | s m e]; cbn [nonneg BigInt_of_number];
    try discriminate.
  - intros _ [= <-]. lia.
  - intros Hs. apply negb_true_iff in Hs. subst s.
    assert (Hs : 0 <= signed false m) by (unfold signed, cond_Zopp; lia).
    assert (Hm : 0 <= signed false m * 2 ^ e).
    { apply Z.mul_nonneg_nonneg; [exact Hs | ].
      destruct (Z.le_gt_cases 0 e);
        [apply Z.pow_nonneg; lia | rewrite Z.pow_neg_r by lia; lia]. }
    assert (Hd : 0 <= signed false m / 2 ^ (- e)).
    { destruct (Z.le_gt_cases 0 (- e));
        [ | rewrite Z.pow_neg_r, Z.div_0_r by lia; lia].
      apply Z.div_pos; [exact Hs | apply Z.pow_pos_nonneg; lia]. }
    destruct (0 <=? e); [intros [= <-]; exact Hm | ].
    destruct (_ =? 0); [ | discriminate].
    intros [= <-]. exact Hd.
Qed.

Lemma Math_floor_nonneg (x : number) :
  nonneg x = true -> nonneg (Math_floor x) = true.
Proof.
  destruct x as [s | s | | s m e]; cbn [Math_floor]; try (intros H; exact H).
  intros Hs. destruct (Z.leb_spec 0 e) as [He | He]; [exact Hs | ].
  apply Number_of_BigInt_nonneg.
  cbn in Hs. apply negb_true_iff in Hs. subst s.
  apply Z.div_pos; [cbn; lia | apply Z.pow_pos_nonneg; lia].
Qed.

Lemma lit_1e8_bits :
  lit_1e8 = S754_finite false 6710886400000000 (-26).
Proof. vm_compute. reflexivity. Qed.

(** The sign of [x * 1e8] when [x <= 0] and [x < 0] fail. *)
Lemma mul_1e8_nonneg_of_not_le (x : number) :
  leb x lit_0 = false -> nonneg (mul x lit_1e8) = true.
Proof.
  rewrite lit_1e8_bits.
  destruct x as [s | s | | s m e]; cbn; try discriminate; try reflexivity.
  - destruct s; [discriminate | reflexivity].
  - destruct s; [discriminate | ]. intros _.
    pose proof (binary_round_aux_sign false
                  (Zpos (m * 6710886400000000)) (e + -26) loc_Exact) as H.
    unfold mul, SFmul. cbn [xorb].
    destruct (binary_round_aux _ _ _ _ _ _); subst; reflexivity.
Qed.

Lemma mul_1e8_nonneg_of_not_lt (x : number) :
  ltb x lit_0 = false -> nonneg (mul x lit_1e8) = true.
Proof.
  rewrite lit_1e8_bits.
  destruct x as [s | s | | s m e]; cbn; try discriminate; try reflexivity.
  - destruct s; [discriminate | reflexivity].
  - destruct s; [discriminate | ]. intros _.
    pose proof (binary_round_aux_sign false
                  (Zpos (m * 6710886400000000)) (e + -26) loc_Exact) as H.
    unfold mul, SFmul. cbn [xorb].
    destruct (binary_round_aux _ _ _ _ _ _); subst; reflexivity.
Qed.

(** ** Rounding an integer of more than 53 bits *)

Lemma shr_1_m (mrs : shr_record) :
  0 <= shr_m mrs -> shr_m (shr_1 mrs) = shr_m mrs / 2.
Proof.
  destruct mrs as [m r s]. cbn [shr_m shr_1]. intros Hm.
  destruct m as [ | [p | p | ] | p]; cbn [shr_m]; [ | | | | lia].
  - reflexivity.
  - apply Z.div_unique with 1; lia.
  - apply Z.div_unique with 0; lia.
  - reflexivity.
Qed.

Lemma iter_shr_1_m (n : positive) (mrs : shr_record) :
  0 <= shr_m mrs ->
  shr_m (iter_pos shr_1 n mrs) = shr_m mrs / 2 ^ Zpos n.
Proof.
  revert mrs.
  assert (Hdiv : forall m k, 0 <= m -> 0 < k -> 0 <= m / k)
    by (intros; apply Z.div_pos; lia).
  induction n as [n IH | n IH | ]; intros mrs Hm; cbn [iter_pos].
  - assert (H1 : 0 <= shr_m (shr_1 mrs))
      by (rewrite shr_1_m by lia; apply Hdiv; lia).
    assert (Hp : 0 < 2 ^ Zpos n) by (apply Z.pow_pos_nonneg; lia).
    assert (H2 : 0 <= shr_m (iter_pos shr_1 n (shr_1 mrs)))
      by (rewrite IH by lia; apply Hdiv; lia).
    assert (E : 2 ^ Zpos n~1 = 2 * 2 ^ Zpos n * 2 ^ Zpos n).
    { replace (Zpos n~1) with (Z.succ (Zpos n + Zpos n)) by lia.
      rewrite Z.pow_succ_r, Z.pow_add_r by lia. lia. }
    rewrite IH, IH, shr_1_m by lia.
    rewrite !Z.div_div by lia.
    rewrite E. f_equal. lia.
  - assert (Hp : 0 < 2 ^ Zpos n) by (apply Z.pow_pos_nonneg; lia).
    assert (H2 : 0 <= shr_m (iter_pos shr_1 n mrs))
      by (rewrite IH by lia; apply Hdiv; lia).
    assert (E : 2 ^ Zpos n~0 = 2 ^ Zpos n * 2 ^ Zpos n).
    { replace (Zpos n~0) with (Zpos n + Zpos n) by lia.
      rewrite Z.pow_add_r by lia. reflexivity. }
    rewrite IH, IH by lia.
    rewrite Z.div_div by lia.
    rewrite E. reflexivity.
  - rewrite shr_1_m by lia. reflexivity.
Qed.

Lemma digits2_pos_53 (m : positive) :
  2 ^ 52 <= Zpos m < 2 ^ 53 -> Zpos (digits2_pos m) = 53.
Proof.
  intros [Hlo Hhi].
  pose proof (digits2_pos_bounds m) as [Hdlo Hdhi].
  pose proof (digits2_pos_le m 53 ltac:(lia) Hhi) as Hle.
  destruct (Z.eq_dec (Zpos (digits2_pos m)) 53) as [E | E]; [exact E | ].
  exfalso.
  assert (2 ^ Zpos (digits2_pos m) <= 2 ^ 52)
    by (apply Z.pow_le_mono_r; lia).
  lia.
Qed.

Lemma round_nearest_even_range (x : Z) (l : location) :
  x <= round_nearest_even x l <= x + 1.
Proof.
  destruct l as [ | [ | | ]]; cbn [round_nearest_even]; try lia.
  destruct (Z.even x); lia.
Qed.

Lemma shr_fexp_in_place (m : positive) (e : Z) :
  Zpos (digits2_pos m) = 53 -> -1074 <= e ->
  shr_fexp prec emax (Zpos m) e loc_Exact
  = ({| shr_m := Zpos m; shr_r := false; shr_s := false |}, e).
Proof.
  intros Hd He. unfold shr_fexp, Zdigits2, fexp, emin, prec, emax.
  rewrite Hd.
  replace (Z.max (53 + e - 53) (3 - 1024 - 53) - e) with 0 by lia.
  reflexivity.
Qed.

Lemma shr_fexp_2p53 (e : Z) :
  -1074 <= e ->
  shr_fexp prec emax (2 ^ 53) e loc_Exact
  = ({| shr_m := 2 ^ 52; shr_r := false; shr_s := false |}, e + 1).
Proof.
  intros He. unfold shr_fexp, fexp, emin, prec, emax.
  change (Zdigits2 (2 ^ 53)) with 54.
  replace (Z.max (54 + e - 53) (3 - 1024 - 53) - e) with 1 by lia.
  reflexivity.
Qed.

(** [Number(z)] for an integer of 54 bits or more keeps the sign and has
    a positive exponent and a mantissa of 53 bits, or is an infinity. *)
Lemma binary_round_large (s : bool) (p : positive) :
  2 ^ 53 <= Zpos p ->
  match binary_round prec emax s p 0 with
  | S754_finite s' m e => s' = s /\ 1 <= e /\ 2 ^ 52 <= Zpos m
  | S754_infinity s' => s' = s
  | S754_zero _ | S754_nan => False
  end.
Proof.
  intros Hp.
  pose proof (digits2_pos_bounds p) as [Hdlo Hdhi].
  assert (Hd : 54 <= Zpos (digits2_pos p)).
  { destruct (Z.le_gt_cases 54 (Zpos (digits2_pos p))) as [H | H];
      [exact H | exfalso].
    assert (2 ^ Zpos (digits2_pos p) <= 2 ^ 53)
      by (apply Z.pow_le_mono_r; lia).
    lia. }
  unfold binary_round, shl_align.
  assert (Ef : fexp prec emax (Zpos (digits2_pos p) + 0)
               = Zpos (digits2_pos p) - 53)
    by (unfold fexp, emin, prec, emax; lia).
  rewrite Ef.
  destruct (Zpos (digits2_pos p) - 53 - 0) as [ | q0 | q0] eqn:E0; try lia.
  clear E0 q0.
  unfold binary_round_aux.
  destruct (Zpos (digits2_pos p) - 53) as [ | q | q] eqn:Eq; try lia.
  assert (E1 : shr_fexp prec emax (Zpos p) 0 loc_Exact
               = (iter_pos shr_1 q
                    {| shr_m := Zpos p; shr_r := false; shr_s := false |},
                  0 + Zpos q)).
  { unfold shr_fexp. cbn [Zdigits2]. rewrite Ef.
    replace (Zpos q - 0) with (Zpos q) by lia. reflexivity. }
  rewrite E1. clear E1.
  set (mrs := iter_pos shr_1 q _).
  assert (Hx : shr_m mrs = Zpos p / 2 ^ Zpos q)
    by (unfold mrs; rewrite iter_shr_1_m; cbn [shr_m]; [reflexivity | lia]).
  assert (Hq : 0 < 2 ^ Zpos q) by (apply Z.pow_pos_nonneg; lia).
  assert (Hpow : 2 ^ Zpos (digits2_pos p) = 2 ^ Zpos q * 2 ^ 53).
  { replace (Zpos (digits2_pos p)) with (Zpos q + 53) by lia.
    apply Z.pow_add_r; lia. }
  assert (Hpow' : 2 ^ (Zpos (digits2_pos p) - 1) = 2 ^ Zpos q * 2 ^ 52).
  { replace (Zpos (digits2_pos p) - 1) with (Zpos q + 52) by lia.
    apply Z.pow_add_r; lia. }
  assert (Hrange : 2 ^ 52 <= shr_m mrs < 2 ^ 53).
  { rewrite Hx. split.
    - apply Z.div_le_lower_bound; lia.
    - apply Z.div_lt_upper_bound; lia. }
  pose proof (round_nearest_even_range (shr_m mrs) (loc_of_shr_record mrs))
    as Hr.
  set (m1 := round_nearest_even _ _) in *.
  destruct (Z.eq_dec m1 (2 ^ 53)) as [Em | Em].
  - rewrite Em, shr_fexp_2p53 by lia. cbn [shr_m].
    change (2 ^ 52) with (Zpos 4503599627370496).
    cbv iota beta.
    destruct (0 + Zpos q + 1 <=? emax - prec);
      [split; [reflexivity | split; [lia | discriminate]] | reflexivity].
  - destruct m1 as [ | m1p | m1p]; try lia.
    rewrite shr_fexp_in_place by (try apply digits2_pos_53; lia).
    cbn [shr_m].
    destruct (0 + Zpos q <=? emax - prec);
      [split; [reflexivity | split; lia] | reflexivity].
Qed.

Lemma lit_100000_bits :
  lit_100000 = S754_finite false 6871947673600000 (-36).
Proof. vm_compute. reflexivity. Qed.

Lemma binary_round_sign (s : bool) (p : positive) (e : Z) :
  match binary_round prec emax s p e with
  | S754_zero s' | S754_infinity s' | S754_finite s' _ _ => s' = s
  | S754_nan => True
  end.
Proof.
  unfold binary_round. destruct (shl_align _ _ _) as [mz ez].
  apply binary_round_aux_sign.
Qed.


Lemma geb_100000 (z : Z) :
  geb (Number_of_BigInt z) lit_100000 = (100000 <=? z).
Proof.
  unfold geb. rewrite lit_100000_bits.
  unfold Number_of_BigInt, binary_normalize.
  destruct z as [ | p | p].
  - reflexivity.
  - destruct (Z.lt_ge_cases (Zpos p) (2 ^ 53)) as [Hp | Hp].
    + destruct (binary_round_small false p Hp) as (m & e & -> & He & Hm & Hd).
      pose proof (digits2_pos_bounds p) as [Hlo Hhi].
      unfold SFleb, SFcompare.
      destruct (Z.compare_spec (-36) e) as [E | E | E].
      * rewrite <- E in Hm. clear Hlo Hhi Hp Hd He.
        rewrite Pos.compare_cont_spec. cbn [Pos.switch_Eq].
        change (2 ^ (- - 36)) with 68719476736 in Hm.
        change (6871947673600000 ?= m)%positive
          with (Zpos 6871947673600000 ?= Zpos m).
        rewrite Hm.
        change (Zpos 6871947673600000) with (100000 * 68719476736).
        rewrite <- Zmult_compare_compat_r by reflexivity.
        unfold Z.leb. destruct (100000 ?= Zpos p); reflexivity.
      * assert (Hd18 : 18 <= Zpos (digits2_pos p)) by lia.
        assert (Hpow : 2 ^ 17 <= 2 ^ (Zpos (digits2_pos p) - 1))
          by (apply Z.pow_le_mono_r; lia).
        change (2 ^ 17) with 131072 in Hpow.
        assert (131072 <= Zpos p) by (eapply Z.le_trans; eassumption).
        destruct (Z.leb_spec 100000 (Zpos p)); [reflexivity | lia].
      * assert (Hd16 : Zpos (digits2_pos p) <= 16) by lia.
        assert (Hpow : 2 ^ (Zpos (digits2_pos p)) <= 2 ^ 16)
          by (apply Z.pow_le_mono_r; lia).
        change (2 ^ 16) with 65536 in Hpow.
        assert (Zpos p < 65536) by (eapply Z.lt_le_trans; eassumption).
        destruct (Z.leb_spec 100000 (Zpos p)); [lia | reflexivity].
    + pose proof (binary_round_large false p ltac:(lia)) as H.
      change (2 ^ 53) with 9007199254740992 in Hp.
      destruct (Z.leb_spec 100000 (Zpos p)); [ | lia].
      destruct (binary_round prec emax false p 0) as [s | s | | s m e];
        try contradiction.
      * subst s. reflexivity.
      * destruct H as (-> & He & _). unfold SFleb, SFcompare.
        destruct (Z.compare_spec (-36) e); first [reflexivity | lia].
  - pose proof (binary_round_sign true p 0) as H.
    destruct (binary_round prec emax true p 0) as [s | s | | s m e];
      try subst s; reflexivity.
Qed.

(** ** Amounts the library takes *)

(** An amount [Number(z)] that the output constructor takes is the
    integer [z] itself, and [z] is a natural number below 2^53: the
    conversion of a larger integer gives 2^53 or more, the one of a
    negative integer a negative number. *)
Lemma accepted_satoshis_exact (z : Z) :
  accepted_satoshis (Number_of_BigInt z) = true ->
  0 <= z < 2 ^ 53 /\ BigInt_of_number (Number_of_BigInt z) = Some z.
Proof.
  unfold accepted_satoshis. intros H.
  destruct (Z.lt_ge_cases z (2 ^ 53)) as [Hhi | Hhi];
    [destruct (Z.lt_ge_cases (- 2 ^ 53) z) as [Hlo | Hlo] | ].
  - pose proof (BigInt_of_Number_exact z (conj Hlo Hhi)) as E.
    rewrite E in H. apply andb_prop in H as [H _].
    apply Z.leb_le in H. split; [split; [exact H | exact Hhi] | exact E].
  - exfalso. destruct z as [ | p | p]; try lia.
    assert (Hp : 2 ^ 53 <= Zpos p) by lia.
    pose proof (binary_round_large true p Hp) as Hr.
    unfold Number_of_BigInt, binary_normalize in H.
    destruct (binary_round prec emax true p 0) as [s | s | | s m e];
      try contradiction; try discriminate.
    destruct Hr as (-> & He & _). cbn [BigInt_of_number] in H.
    destruct (Z.leb_spec 0 e) as [_ | He']; [ | lia].
    apply andb_prop in H as [H _]. apply Z.leb_le in H.
    assert (0 < 2 ^ e) by (apply Z.pow_pos_nonneg; lia).
    unfold signed, cond_Zopp in H. nia.
  - exfalso. destruct z as [ | p | p]; try lia.
    pose proof (binary_round_large false p Hhi) as Hr.
    unfold Number_of_BigInt, binary_normalize in H.
    destruct (binary_round prec emax false p 0) as [s | s | | s m e];
      try contradiction; try discriminate.
    destruct Hr as (-> & He & Hm). cbn [BigInt_of_number] in H.
    destruct (Z.leb_spec 0 e) as [_ | He']; [ | lia].
    apply andb_prop in H as [_ H]. apply Z.ltb_lt in H.
    assert (Hpow : 2 ^ 1 <= 2 ^ e) by (apply Z.pow_le_mono_r; lia).
    change (2 ^ 1) with 2 in Hpow.
    unfold signed, cond_Zopp in H.
    change (2 ^ 53) with (2 ^ 52 * 2) in H.
    assert (2 ^ 52 * 2 <= Zpos m * 2 ^ e)
      by (apply Z.mul_le_mono_nonneg; lia).
    lia.
Qed.

(** The conversion of a negative integer is not an amount the library
    takes. *)
Lemma negative_not_accepted (z : Z) :
  z < 0 -> accepted_satoshis (Number_of_BigInt z) = false.
Proof.
  intros Hz.
  destruct (accepted_satoshis (Number_of_BigInt z)) eqn:E; [ | reflexivity].
  apply accepted_satoshis_exact in E as [[H _] _].
  exfalso. apply (Z.lt_irrefl z). apply Z.lt_le_trans with 0; assumption.
Qed.

(** ** The product with [1e8] is a valid number *)

Lemma digits2_pos_unique (p : positive) (k : Z) :
  2 ^ (k - 1) <= Zpos p < 2 ^ k -> Zpos (digits2_pos p) = k.
Proof.
  intros [Hlo Hhi].
  pose proof (digits2_pos_bounds p) as [Hdlo Hdhi].
  assert (Hk : 0 < k).
  { destruct (Z.lt_ge_cases 0 k) as [H | H]; [exact H | exfalso].
    destruct (Z.eq_dec k 0) as [-> | Hne]; [cbn in Hhi; lia | ].
    rewrite (Z.pow_neg_r 2 k) in Hhi by lia. lia. }
  destruct (Z.lt_trichotomy (Zpos (digits2_pos p)) k) as [H | [H | H]];
    [exfalso | exact H | exfalso].
  - assert (2 ^ Zpos (digits2_pos p) <= 2 ^ (k - 1))
      by (apply Z.pow_le_mono_r; lia).
    lia.
  - assert (2 ^ k <= 2 ^ (Zpos (digits2_pos p) - 1))
      by (apply Z.pow_le_mono_r; lia).
    lia.
Qed.

(** The digits of a shifted mantissa. *)
Lemma digits_of_shifted (p : positive) (n : Z) :
  0 <= n < Zpos (digits2_pos p) ->
  exists q, Zpos p / 2 ^ n = Zpos q
            /\ Zpos (digits2_pos q) = Zpos (digits2_pos p) - n.
Proof.
  intros Hn.
  pose proof (digits2_pos_bounds p) as [Hlo Hhi].
  assert (Hp : 0 < 2 ^ n) by (apply Z.pow_pos_nonneg; lia).
  assert (E1 : 2 ^ (Zpos (digits2_pos p) - 1)
               = 2 ^ n * 2 ^ (Zpos (digits2_pos p) - n - 1)).
  { rewrite <- Z.pow_add_r by lia. f_equal. lia. }
  assert (E2 : 2 ^ Zpos (digits2_pos p)
               = 2 ^ n * 2 ^ (Zpos (digits2_pos p) - n)).
  { rewrite <- Z.pow_add_r by lia. f_equal. lia. }
  assert (Hq : 2 ^ (Zpos (digits2_pos p) - n - 1) <= Zpos p / 2 ^ n
               < 2 ^ (Zpos (digits2_pos p) - n)).
  { split.
    - apply Z.div_le_lower_bound; lia.
    - apply Z.div_lt_upper_bound; lia. }
  assert (H0 : 0 < 2 ^ (Zpos (digits2_pos p) - n - 1))
    by (apply Z.pow_pos_nonneg; lia).
  destruct (Zpos p / 2 ^ n) as [ | q | q] eqn:E; try lia.
  exists q. split; [reflexivity | ].
  apply digits2_pos_unique. exact Hq.
Qed.

Lemma shifted_away (p : positive) (n : Z) :
  Zpos (digits2_pos p) <= n -> Zpos p / 2 ^ n = 0.
Proof.
  intros Hn. pose proof (digits2_pos_bounds p) as [_ Hhi].
  apply Z.div_small. split; [lia | ].
  assert (2 ^ Zpos (digits2_pos p) <= 2 ^ n)
    by (apply Z.pow_le_mono_r; lia).
  lia.
Qed.

(** The first shift of the rounding: to the exponent [fexp (digits + e)]
    when that is above [e]. *)
Lemma shr_fexp_m (m : positive) (e : Z) (l : location) :
  let n := fexp prec emax (Zpos (digits2_pos m) + e) - e in
  0 <= n ->
  shr_m (fst (shr_fexp prec emax (Zpos m) e l)) = Zpos m / 2 ^ n
  /\ snd (shr_fexp prec emax (Zpos m) e l) = e + n.
Proof.
  intros n Hn. unfold shr_fexp. cbn [Zdigits2]. fold n.
  destruct n as [ | q | q] eqn:E; try lia.
  - cbn [shr fst snd]. split; [ | lia].
    change (2 ^ 0) with 1. rewrite Z.div_1_r.
    destruct l as [ | [ | | ]]; reflexivity.
  - cbn [shr fst snd]. split; [ | reflexivity].
    rewrite iter_shr_1_m; destruct l as [ | [ | | ]];
      cbn [shr_m shr_record_of_loc]; lia || reflexivity.
Qed.

(** A shift to the exponent [fexp (digits + e)] that leaves some digits
    leaves a mantissa in place. *)
Lemma shr_fexp_canonical (r : positive) (e : Z) :
  let n := fexp prec emax (Zpos (digits2_pos r) + e) - e in
  0 <= n < Zpos (digits2_pos r) ->
  exists r',
    shr_m (fst (shr_fexp prec emax (Zpos r) e loc_Exact)) = Zpos r'
    /\ canonical_mantissa prec emax r'
         (snd (shr_fexp prec emax (Zpos r) e loc_Exact)) = true.
Proof.
  intros n Hn.
  destruct (shr_fexp_m r e loc_Exact ltac:(fold n; lia)) as [Hm He].
  fold n in Hm, He.
  destruct (digits_of_shifted r n Hn) as (r' & Hr' & Hd).
  exists r'. rewrite Hm, He. split; [exact Hr' | ].
  unfold canonical_mantissa. apply Z.eqb_eq. rewrite Hd.
  replace (Zpos (digits2_pos r) - n + (e + n))
    with (Zpos (digits2_pos r) + e) by lia.
  unfold n. lia.
Qed.

Lemma fexp_step (k : Z) :
  fexp prec emax k <= fexp prec emax (k + 1) <= fexp prec emax k + 1.
Proof. unfold fexp, emin, prec, emax. lia. Qed.

(** Rounding a mantissa whose exponent is not above its place gives a
    valid number. *)
Lemma binary_round_aux_valid (s : bool) (m : positive) (e : Z)
      (l : location) :
  e <= fexp prec emax (Zpos (digits2_pos m) + e) ->
  valid_binary prec emax (binary_round_aux prec emax s (Zpos m) e l) = true.
Proof.
  intros He. set (d := Zpos (digits2_pos m)) in *.
  set (n := fexp prec emax (d + e) - e).
  assert (Hn : 0 <= n) by (unfold n; lia).
  destruct (shr_fexp_m m e l Hn) as [Hm1 He1]. fold d n in Hm1, He1.
  unfold binary_round_aux.
  destruct (shr_fexp prec emax (Zpos m) e l) as [mrs' e1].
  cbn [fst snd] in Hm1, He1.
  pose proof (round_nearest_even_range (shr_m mrs') (loc_of_shr_record mrs'))
    as Hr.
  set (m1 := round_nearest_even _ _) in *.
  assert (Hfinish : forall r,
             m1 = Zpos r ->
             0 <= fexp prec emax (Zpos (digits2_pos r) + e1) - e1
               < Zpos (digits2_pos r) ->
             valid_binary prec emax
               (let '(mrs'', e'') := shr_fexp prec emax m1 e1 loc_Exact in
                match shr_m mrs'' with
                | 0 => S754_zero s
                | Zpos m0 =>
                    if e'' <=? emax - prec
                    then S754_finite s m0 e''
                    else S754_infinity s
                | Zneg _ => S754_nan
                end) = true).
  { intros r -> Hn2.
    destruct (shr_fexp_canonical r e1 Hn2) as (r' & Hr' & Hc).
    destruct (shr_fexp prec emax (Zpos r) e1 loc_Exact) as [mrs'' e''].
    cbn [fst snd] in Hr', Hc. rewrite Hr'.
    destruct (e'' <=? emax - prec) eqn:Hb; [ | reflexivity].
    cbn [valid_binary]. unfold bounded. rewrite Hc, Hb. reflexivity. }
  destruct (Z.lt_ge_cases n d) as [Hnd | Hnd].
  - (* some digits are left *)
    destruct (digits_of_shifted m n ltac:(fold d; lia)) as (q & Hq & Hdq).
    fold d in Hdq. rewrite Hq in Hm1.
    assert (Hcan : fexp prec emax (Zpos (digits2_pos q) + e1) = e1)
      by (rewrite Hdq; replace (d - n + e1) with (d + e) by lia;
          unfold n in He1; lia).
    pose proof (digits2_pos_bounds q) as [Hqlo Hqhi].
    destruct m1 as [ | r | r] eqn:Em1; try lia.
    apply (Hfinish r eq_refl).
    destruct (Z.eq_dec (Zpos r) (2 ^ Zpos (digits2_pos q))) as [Etop | Etop].
    + assert (Hdr : Zpos (digits2_pos r) = Zpos (digits2_pos q) + 1).
      { apply digits2_pos_unique. rewrite Etop.
        replace (Zpos (digits2_pos q) + 1 - 1) with (Zpos (digits2_pos q))
          by lia.
        split; [lia | ].
        apply Z.pow_lt_mono_r; lia. }
      rewrite Hdr.
      pose proof (fexp_step (Zpos (digits2_pos q) + e1)) as Hstep.
      replace (Zpos (digits2_pos q) + 1 + e1)
        with (Zpos (digits2_pos q) + e1 + 1) by lia.
      lia.
    + assert (Hdr : Zpos (digits2_pos r) = Zpos (digits2_pos q)).
      { apply digits2_pos_unique. lia. }
      rewrite Hdr, Hcan. lia.
  - (* every digit is shifted away *)
    rewrite (shifted_away m n ltac:(fold d; lia)) in Hm1.
    assert (Emin : e1 = emin prec emax).
    { unfold n, fexp, emin, prec, emax in *. lia. }
    destruct m1 as [ | r | r] eqn:Em1; try lia.
    + (* rounded to zero *)
      destruct (shr_fexp prec emax 0 e1 loc_Exact) as [mrs'' e''] eqn:E0.
      unfold shr_fexp in E0. cbn [Zdigits2] in E0.
      assert (En : fexp prec emax (0 + e1) - e1 = 0)
        by (unfold fexp, emin, prec, emax in *; lia).
      rewrite En in E0. cbn in E0. injection E0 as <- <-. reflexivity.
    + assert (r = 1%positive) by lia. subst r.
      apply (Hfinish 1%positive eq_refl). cbn [digits2_pos].
      unfold fexp, emin, prec, emax in *. lia.
Qed.

Lemma digits2_pos_mul_lower (p q : positive) (k : Z) :
  0 <= k -> 2 ^ k <= Zpos q ->
  Zpos (digits2_pos p) + k <= Zpos (digits2_pos (p * q)).
Proof.
  intros Hk Hq.
  pose proof (digits2_pos_bounds p) as [Hlo _].
  pose proof (digits2_pos_bounds (p * q)) as [_ Hhi].
  destruct (Z.le_gt_cases (Zpos (digits2_pos p) + k)
                          (Zpos (digits2_pos (p * q)))) as [H | H];
    [exact H | exfalso].
  assert (Hpow : 2 ^ Zpos (digits2_pos (p * q))
                 <= 2 ^ (Zpos (digits2_pos p) - 1 + k))
    by (apply Z.pow_le_mono_r; lia).
  rewrite Z.pow_add_r in Hpow by lia.
  rewrite Pos2Z.inj_mul in Hhi.
  assert (0 < 2 ^ (Zpos (digits2_pos p) - 1))
    by (apply Z.pow_pos_nonneg; lia).
  assert (0 < 2 ^ k) by (apply Z.pow_pos_nonneg; lia).
  assert (2 ^ (Zpos (digits2_pos p) - 1) * 2 ^ k <= Zpos p * Zpos q)
    by (apply Z.mul_le_mono_nonneg; lia).
  lia.
Qed.

(** [x * 1e8] is a valid binary64 number, whatever [x] is. *)
Lemma mul_1e8_valid (x : number) :
  valid_binary prec emax (mul x lit_1e8) = true.
Proof.
  rewrite lit_1e8_bits.
  destruct x as [s | s | | s m e]; try reflexivity.
  unfold mul, SFmul. apply binary_round_aux_valid.
  pose proof (digits2_pos_mul_lower m 6710886400000000 52 ltac:(lia)
                ltac:(cbn; lia)) as Hd.
  unfold fexp, emin, prec, emax. lia.
Qed.

(** The conversion at the boundary: [BigInt(Math.floor(x * 1e8))] is the
    integer part of the binary64 product, and throws exactly when the
    product is NaN or infinite. *)
Lemma to_sompi_floor (x : number) :
  to_sompi x = floorZ (mul x lit_1e8).
Proof. unfold to_sompi. apply BigInt_of_floor. apply mul_1e8_valid. Qed.

(** ** Numbers of the sources, evaluated *)

Example lit_0_02_bits :
  lit_0_02 = S754_finite false 5764607523034235 (-58).
Proof. vm_compute. reflexivity. Qed.

Example floor_of_minus_a_half :
  BigInt_of_number (Math_floor (decimal (-5) 1)) = Some (-1).
Proof. vm_compute. reflexivity. Qed.

Example BigInt_of_a_fraction : BigInt_of_number (decimal 5 1) = None.
Proof. vm_compute. reflexivity. Qed.

(** [0.29 * 1e8] is 28999999.999999996 in binary64. *)
Example sompi_of_0_29 : to_sompi (decimal 29 2) = Some 28999999.
Proof. vm_compute. reflexivity. Qed.

Example sompi_of_1_499999 :
  to_sompi (decimal 1499999 6) = Some 149999900.
Proof. vm_compute. reflexivity. Qed.

Example Number_of_2p53_plus_1 :
  BigInt_of_number (Number_of_BigInt (2 ^ 53 + 1)) = Some (2 ^ 53).
Proof. vm_compute. reflexivity. Qed.

Example Number_of_2p53_plus_3 :
  BigInt_of_number (Number_of_BigInt (2 ^ 53 + 3)) = Some (2 ^ 53 + 4).
Proof. vm_compute. reflexivity. Qed.

(** * The regular-expression matcher *)

Section RegexFacts.

Import Regex.
Local Open Scope string_scope.
Local Open Scope nat_scope.

Lemma strip_prefix_spec (p s t : string) :
  strip_prefix p s = Some t <-> s = p ++ t.
Proof.
  revert s. induction p as [ | a p IH]; intros s; cbn.
  - split; [intros [= ->]; reflexivity | intros ->; reflexivity].
  - destruct s as [ | b s]; [split; discriminate | ].
    destruct (Ascii.eqb_spec a b) as [-> | Hne].
    + rewrite IH. split; [intros ->; reflexivity | intros [= ->]; reflexivity].
    + split; [discriminate | intros [= E _]; congruence].
Qed.

Lemma at_end_spec (s : string) : at_end s = true <-> s = "".
Proof. destruct s; cbn; split; congruence. Qed.

(** [cls{lo,hi}] followed by [k]: the string splits into between [lo]
    and [hi] characters of the class and a rest accepted by [k]. *)
Lemma class_repeat_spec (cls : list char_range) (k : string -> bool)
      (hi lo : nat) (s : string) :
  class_repeat cls lo hi k s = true <->
  exists a b, s = a ++ b /\ lo <= String.length a <= hi
              /\ string_forallb (in_class cls) a = true /\ k b = true.
Proof.
  revert lo s. induction hi as [ | hi IH]; intros lo s.
  - cbn [class_repeat]. split.
    + destruct lo; [ | discriminate]. intros Hk.
      exists "", s. cbn. repeat split; auto.
    + intros (a & b & -> & [Hlo Hhi] & _ & Hk).
      destruct a; [ | cbn in Hhi; lia]. cbn in Hlo.
      destruct lo; [exact Hk | lia].
  - cbn [class_repeat]. split.
    + intros H.
      assert (Hstop : (match lo with 0 => k s | S _ => false end) = true ->
                      exists a b, s = a ++ b /\ lo <= String.length a <= S hi
                        /\ string_forallb (in_class cls) a = true
                        /\ k b = true).
      { destruct lo; [ | discriminate]. intros Hk.
        exists "", s. cbn. repeat split; auto. lia. }
      destruct s as [ | c s]; [auto | ].
      apply orb_true_iff in H as [H | H]; [ | auto].
      apply andb_true_iff in H as [Hc H].
      apply IH in H as (a & b & -> & [Hlo Hhi] & Ha & Hk).
      exists (String c a), b. cbn. rewrite Hc, Ha.
      repeat split; auto; lia.
    + intros (a & b & -> & [Hlo Hhi] & Ha & Hk).
      destruct a as [ | c a].
      * cbn in Hlo. assert (lo = 0) by lia. subst lo. cbn [append].
        destruct b; [exact Hk | ].
        rewrite Hk. apply orb_true_r.
      * cbn in Ha. apply andb_true_iff in Ha as [Hc Ha].
        cbn [append]. rewrite Hc. cbn [andb].
        apply orb_true_iff. left. apply IH.
        exists a, b. cbn in Hlo, Hhi. repeat split; auto; lia.
Qed.

End RegexFacts.

Section KaspaRegex.

Local Open Scope string_scope.

Lemma lower_alnum_spec (c : ascii) :
lower_alnum c = true <->
(97 <= nat_of_ascii c <= 122 \/ 48 <= nat_of_ascii c <= 57)%nat.
Proof.
unfold lower_alnum, Regex.in_class, Regex.in_range. cbn [existsb fst snd].
change (nat_of_ascii "a") with 97%nat. change (nat_of_ascii "z") with 122%nat.
change (nat_of_ascii "0") with 48%nat. change (nat_of_ascii "9") with 57%nat.
rewrite orb_false_r, orb_true_iff, !andb_true_iff, !Nat.leb_le. reflexivity.
Qed.

(** What [kaspaRegex.test] accepts. *)
Lemma kaspaRegex_spec (s : string) :
Regex.test kaspaRegex s = true <->
exists payload,
  s = "kaspa:" ++ payload
  /\ (61 <= String.length payload <= 63)%nat
  /\ string_forallb lower_alnum payload = true.
Proof.
unfold Regex.test, kaspaRegex. cbn [Regex.match_from].
split.
- destruct (Regex.strip_prefix "kaspa:" s) as [t | ] eqn:E; [ | discriminate].
  apply strip_prefix_spec in E. intros H.
  apply class_repeat_spec in H as (a & b & -> & Hlen & Ha & Hb).
  apply at_end_spec in Hb. subst b.
  exists a. rewrite E.
  assert (Ea : a ++ "" = a).
  { clear. induction a; cbn; [reflexivity | now f_equal]. }
  rewrite Ea. auto.
- intros (payload & -> & Hlen & Hall).
  assert (E : Regex.strip_prefix "kaspa:" ("kaspa:" ++ payload)
              = Some payload) by (apply strip_prefix_spec; reflexivity).
  rewrite E. apply class_repeat_spec.
  exists payload, "". repeat split; auto; try lia.
  clear. induction payload; cbn; [reflexivity | now f_equal].
Qed.

End KaspaRegex.

(** * Runs of the handlers *)

Lemma posted_app (t1 t2 : list event) :
  posted (t1 ++ t2) = posted t1 ++ posted t2.
Proof.
  induction t1 as [ | e t1 IH]; [reflexivity | ].
  destruct e; cbn; rewrite ?IH; reflexivity.
Qed.

(** Validation calls nothing. *)
Lemma validate_trace (req : Body) : snd (validate req) = [].
Proof.
  unfold validate.
  destruct (_ || _); [reflexivity | ].
  destruct (senderAddress req), (recipientAddress req), (amount req),
    (fee req), (privateKey req); try reflexivity.
  repeat (match goal with |- context [if ?b then _ else _] => destruct b end);
    reflexivity.
Qed.

Lemma validate_no_raise (req : Body) (e : js_error) (t : list event) :
  validate req <> (Raise e, t).
Proof.
  unfold validate.
  destruct (_ || _); [discriminate | ].
  destruct (senderAddress req), (recipientAddress req), (amount req),
    (fee req), (privateKey req); try discriminate.
  repeat (match goal with |- context [if ?b then _ else _] => destruct b end);
    discriminate.
Qed.

Lemma BigInt_run (x : number) :
  BigInt x = match BigInt_of_number x with
             | Some z => (Next z, [])
             | None => (Raise RangeError, [])
             end.
Proof. unfold BigInt. destruct (BigInt_of_number x); reflexivity. Qed.

(** Building the inputs: one library call per entry, nothing posted,
    no reply. *)
Lemma new_inputs_run (w : World) (l : list Utxo) (i : nat) :
  posted (snd (map_indexed (fun u _ => new_input w u) l i)) = []
  /\ (forall r, fst (map_indexed (fun u _ => new_input w u) l i)
                <> Reply r)
  /\ forall ys, fst (map_indexed (fun u _ => new_input w u) l i) = Next ys ->
                ys = map input_of_utxo l.
Proof.
  revert i. induction l as [ | u l IH]; intros i.
  - cbn. repeat split; [discriminate | intros ys [= <-]; reflexivity].
  - cbn [map_indexed map]. unfold new_input at 1 3 5.
    destruct (Input_new w (input_of_utxo u)) as [[] | d]; cbn.
    + destruct (IH (S i)) as (Hp & Hr & Hy).
      destruct (map_indexed _ l (S i)) as [[ys | r | e] t]; cbn in *.
      * repeat split; [rewrite app_nil_r; exact Hp | discriminate | ].
        intros ys' [= <-]. f_equal. apply Hy. reflexivity.
      * exfalso. exact (Hr r eq_refl).
      * repeat split; [exact Hp | discriminate | discriminate].
    + repeat split; discriminate.
Qed.

(** Signing: one call per input, nothing posted, no reply. *)
Lemma sign_inputs_run (w : World) (tx : Transaction) (sk : string)
      (l : list Input) (i : nat) :
  posted (snd (map_indexed (MultiUtxo.sign_input w tx sk) l i)) = []
  /\ (forall r, fst (map_indexed (MultiUtxo.sign_input w tx sk) l i)
                <> Reply r)
  /\ forall ys,
       fst (map_indexed (MultiUtxo.sign_input w tx sk) l i) = Next ys ->
       signed_by w tx sk (fun k => k) i l ys.
Proof.
  revert i. induction l as [ | input l IH]; intros i.
  - cbn. repeat split; [discriminate | intros ys [= <-]; constructor].
  - cbn [map_indexed]. unfold MultiUtxo.sign_input at 1 3 5.
    destruct (getSignatures w tx sk input i) as [sig | d] eqn:Es; cbn.
    + destruct (IH (S i)) as (Hp & Hr & Hy).
      destruct (map_indexed _ l (S i)) as [[ys | r | e] t]; cbn in *.
      * repeat split; [rewrite app_nil_r; exact Hp | discriminate | ].
        intros ys' [= <-]. constructor; [exact Es | ]. apply Hy. reflexivity.
      * exfalso. exact (Hr r eq_refl).
      * repeat split; [exact Hp | discriminate | discriminate].
    + repeat split; discriminate.
Qed.

Lemma new_output_no_reply (w : World) (a : string) (sat : number)
      (r : response) :
  fst (new_output w a sat) <> Reply r.
Proof.
  unfold new_output.
  destruct (Address_script w a) as [s | d]; cbn; [ | discriminate].
  destruct (Output_new w _) as [[] | d]; discriminate.
Qed.

Lemma new_output_posted (w : World) (a : string) (sat : number) :
  posted (snd (new_output w a sat)) = [].
Proof.
  unfold new_output.
  destruct (Address_script w a) as [s | d]; cbn; [ | reflexivity].
  destruct (Output_new w _) as [[] | d]; reflexivity.
Qed.

Lemma new_output_inv (w : World) (a : string) (sat : number) (o : Output) :
  fst (new_output w a sat) = Next o ->
  exists s, Address_script w a = Returns s
            /\ o = {| script := s; satoshis := sat |}.
Proof.
  unfold new_output.
  destruct (Address_script w a) as [s | d]; cbn; [ | discriminate].
  destruct (Output_new w _) as [[] | d]; cbn; [ | discriminate].
  intros [= <-]. exists s. split; reflexivity.
Qed.

(** The minimum for a change output, computed with Numbers, is exactly
    2000000. *)
Lemma minimum_change :
  BigInt (Math_floor (mul lit_0_02 lit_1e8)) = (Next 2000000, []).
Proof. vm_compute. reflexivity. Qed.

Lemma add_outputs_posted (w : World) (p : Params) (a c : Z) :
  posted (snd (MultiUtxo.add_outputs w p a c)) = [].
Proof.
  unfold MultiUtxo.add_outputs. rewrite minimum_change.
  pose proof (new_output_posted w (recipient p) (Number_of_BigInt a)) as H1.
  pose proof (new_output_posted w (sender p) (Number_of_BigInt c)) as H2.
  destruct (new_output w (recipient p) _) as [[o | r | e] t]; cbn in *;
    try exact H1.
  destruct (2000000 <=? c); cbn.
  - destruct (new_output w (sender p) _) as [[o' | r | e] t']; cbn in *;
      rewrite ?app_nil_r, posted_app, H1, H2; reflexivity.
  - rewrite app_nil_r. exact H1.
Qed.

Lemma add_outputs_no_reply (w : World) (p : Params) (a c : Z)
      (r : response) :
  fst (MultiUtxo.add_outputs w p a c) <> Reply r.
Proof.
  unfold MultiUtxo.add_outputs. rewrite minimum_change.
  pose proof (new_output_no_reply w (recipient p) (Number_of_BigInt a)) as H1.
  pose proof (new_output_no_reply w (sender p) (Number_of_BigInt c)) as H2.
  destruct (new_output w (recipient p) _) as [[o | r1 | e] t]; cbn in *;
    [ | intros [= <-]; exact (H1 r1 eq_refl) | discriminate].
  destruct (2000000 <=? c); cbn; [ | discriminate].
  destruct (new_output w (sender p) _) as [[o' | r2 | e] t']; cbn in *;
    [discriminate | intros [= <-]; exact (H2 r2 eq_refl) | discriminate].
Qed.

(** The outputs: the recipient's first; then the change, paid to the
    sender, exactly when it reaches 2000000. *)
Lemma add_outputs_inv (w : World) (p : Params) (a c : Z)
      (outs : list Output) :
  fst (MultiUtxo.add_outputs w p a c) = Next outs ->
  exists rs,
    Address_script w (recipient p) = Returns rs
    /\ ((2000000 <= c
         /\ exists ss,
              Address_script w (sender p) = Returns ss
              /\ outs = [ {| script := rs; satoshis := Number_of_BigInt a |};
                          {| script := ss; satoshis := Number_of_BigInt c |} ])
        \/ (c < 2000000
            /\ outs = [ {| script := rs;
                           satoshis := Number_of_BigInt a |} ])).
Proof.
  unfold MultiUtxo.add_outputs. rewrite minimum_change. intros H.
  pose proof (new_output_inv w (recipient p) (Number_of_BigInt a)) as H1.
  pose proof (new_output_inv w (sender p) (Number_of_BigInt c)) as H2.
  destruct (new_output w (recipient p) _) as [[o | r | e] t]; cbn in *;
    try discriminate.
  destruct (H1 o eq_refl) as (rs & Hrs & ->). exists rs. split; [exact Hrs | ].
  destruct (Z.leb_spec 2000000 c) as [Hc | Hc]; cbn in H.
  - destruct (new_output w (sender p) _) as [[o' | r | e] t']; cbn in *;
      try discriminate.
    destruct (H2 o' eq_refl) as (ss & Hss & ->).
    injection H as <-. left. split; [exact Hc | ]. exists ss. split; auto.
  - injection H as <-. right. split; [exact Hc | reflexivity].
Qed.

(** An output that was built went through the constructor. *)
Lemma new_output_built (w : World) (a : string) (sat : number)
      (o : Output) :
  fst (new_output w a sat) = Next o -> Output_new w o = Returns tt.
Proof.
  unfold new_output.
  destruct (Address_script w a) as [s | d]; cbn; [ | discriminate].
  destruct (Output_new w _) as [[] | d] eqn:E; cbn; [ | discriminate].
  intros [= <-]. exact E.
Qed.

Lemma add_outputs_built (w : World) (p : Params) (a c : Z)
      (outs : list Output) :
  fst (MultiUtxo.add_outputs w p a c) = Next outs ->
  forall o, In o outs -> Output_new w o = Returns tt.
Proof.
  unfold MultiUtxo.add_outputs. rewrite minimum_change. intros H.
  pose proof (new_output_built w (recipient p) (Number_of_BigInt a)) as H1.
  pose proof (new_output_built w (sender p) (Number_of_BigInt c)) as H2.
  destruct (new_output w (recipient p) _) as [[o1 | r | e] t]; cbn in *;
    try discriminate.
  specialize (H1 o1 eq_refl).
  destruct (2000000 <=? c); cbn in H.
  - destruct (new_output w (sender p) _) as [[o2 | r | e] t']; cbn in *;
      try discriminate.
    specialize (H2 o2 eq_refl). injection H as <-.
    intros o [<- | [<- | []]]; assumption.
  - injection H as <-. intros o [<- | []]. exact H1.
Qed.

Lemma validate_reply (req : Body) (r : response) (t : list event) :
  validate req = (Reply r, t) -> exists msg, r = BadRequest msg.
Proof.
  unfold validate.
  destruct (_ || _); [intros [= <- _]; eauto | ].
  destruct (senderAddress req), (recipientAddress req), (amount req),
    (fee req), (privateKey req); try (intros [= <- _]; eauto).
  repeat (match goal with |- context [if ?b then _ else _] => destruct b end);
    try (intros [= <- _]; eauto); discriminate.
Qed.

Lemma broadcast_and_reply_run (w : World) (p : Params) (payload : Payload)
      (a c : Z) :
  exists o t,
    broadcast_and_reply w p payload a c = (o, t)
    /\ posted t = [payload]
    /\ route (o, t) = (reply_after_post w p payload a c, t).
Proof.
  unfold broadcast_and_reply, reply_after_post.
  destruct (post_transaction w payload) as [txr | d]; cbn.
  - destruct (get_balance w (sender p)) as [v | d]; cbn;
      eexists _, _; repeat split; reflexivity.
  - eexists _, _; repeat split; reflexivity.
Qed.

Ltac quiet E :=
  cbv beta iota delta [bind reply raise call route] in E;
  let E1 := fresh "Eresp" in let E2 := fresh "Etrace" in
  injection E as E1 E2; rewrite <- E1, <- E2;
  left; split;
  [ cbn [posted app]; rewrite ?posted_app; cbn [posted app];
    repeat match goal with H : posted _ = [] |- _ => rewrite H end;
    reflexivity
  | intros; discriminate ].

(** Every run of the multi-UTXO handler either posts nothing and does
    not succeed, or is a build: it posts exactly the payload of the build
    and replies according to the broadcast. *)
Lemma multi_run (w : World) (req : Body) (resp : response)
      (t : list event) :
  MultiUtxo.createTransaction w req = (resp, t) ->
  (posted t = [] /\ forall a b c d e, resp <> Success a b c d e)
  \/ exists b,
       is_build w req b
       /\ posted t = [b_payload b]
       /\ resp = reply_after_post w (b_params b) (b_payload b)
                                  (b_amountToSend b) (b_totalNeeded b).
Proof.
  unfold MultiUtxo.createTransaction, MultiUtxo.createTransaction_body.
  intros E.
  pose proof (validate_trace req) as Hvt.
  pose proof (validate_reply req) as Hvr.
  pose proof (validate_no_raise req) as Hve.
  destruct (validate req) as [[p | r | e] tv] eqn:Ev; cbn in Hvt; subst tv;
    cbn [bind] in E.
  2: { destruct (Hvr r [] eq_refl) as [msg ->]. quiet E. }
  2: { exfalso. exact (Hve e [] eq_refl). }
  clear Hvr Hve.
  rewrite !BigInt_run in E.
  destruct (BigInt_of_number (Math_floor (mul (amount_ p) lit_1e8)))
    as [amountToSend | ] eqn:Ea; cbn [bind] in E; [ | quiet E].
  destruct (BigInt_of_number (Math_floor (mul (fee_ p) lit_1e8)))
    as [feeAmount | ] eqn:Ef; cbn [bind] in E; [ | quiet E].
  destruct (PrivateKey_new w (key p)) as [[] | d] eqn:Ek;
    cbn [bind call] in E; [ | quiet E].
  destruct (get_utxos w (sender p)) as [utxos | d] eqn:Eu;
    cbn [bind call] in E; [ | quiet E].
  destruct (MultiUtxo.select utxos (amountToSend + feeAmount))
    as [ins inputSum] eqn:Es.
  destruct (inputSum <? amountToSend + feeAmount) eqn:Hge; [quiet E | ].
  apply Z.ltb_ge in Hge.
  destruct (new_inputs_run w ins 0) as (Hip & Hir & Hiy).
  destruct (map_indexed (fun u _ => new_input w u) ins 0)
    as [[txInputs | r | e] ti]; cbn [fst snd] in Hip, Hir, Hiy;
    cbn [bind] in E;
    [ | exfalso; exact (Hir r eq_refl) | quiet E].
  specialize (Hiy txInputs eq_refl). subst txInputs. clear Hir.
  pose proof (add_outputs_posted w p amountToSend
                (inputSum - (amountToSend + feeAmount))) as Hop.
  pose proof (add_outputs_no_reply w p amountToSend
                (inputSum - (amountToSend + feeAmount))) as Hor.
  destruct (MultiUtxo.add_outputs w p amountToSend
              (inputSum - (amountToSend + feeAmount)))
    as [[txOutputs | r | e] to] eqn:Eo; cbn [fst snd] in Hop, Hor;
    cbn [bind] in E; [ | exfalso; exact (Hor r eq_refl) | quiet E].
  clear Hor.
  set (tx := {| version := 0; inputs := map input_of_utxo ins;
                outputs := txOutputs |}) in *.
  destruct (sign_inputs_run w tx (key p) (map input_of_utxo ins) 0)
    as (Hsp & Hsr & Hsy).
  destruct (map_indexed (MultiUtxo.sign_input w tx (key p))
                        (map input_of_utxo ins) 0)
    as [[signedInputs | r | e] ts]; cbn [fst snd] in Hsp, Hsr, Hsy;
    cbn [bind] in E; [ | exfalso; exact (Hsr r eq_refl) | quiet E].
  specialize (Hsy signedInputs eq_refl). clear Hsr.
  destruct (broadcast_and_reply_run w p (MultiUtxo.payload_of tx signedInputs)
              amountToSend (amountToSend + feeAmount))
    as (o & tb & Eb & Hbp & Hbr).
  rewrite Eb in E.
  right.
  exists {| b_params := p; b_amountToSend := amountToSend;
            b_feeAmount := feeAmount; b_utxos := utxos; b_inputs := ins;
            b_inputSum := inputSum; b_outputs := txOutputs;
            b_signedInputs := signedInputs |}.
  assert (Er : forall t0, route (o, t0)
                          = (fst (route (o, tb)), t0))
    by (intros; destruct o; reflexivity).
  rewrite Er, Hbr in E. cbn [fst] in E. injection E as E1 E2.
  rewrite <- E1, <- E2.
  split; [ | split].
  - unfold is_build, to_sompi, b_changeAmount, b_totalNeeded, b_tx;
      cbn [b_params b_amountToSend b_feeAmount b_utxos b_inputs b_inputSum
           b_outputs b_signedInputs].
    rewrite Eo. repeat split; auto.
  - cbn [posted app]. rewrite !posted_app.
    rewrite Hip, Hop, Hsp, Hbp. reflexivity.
  - reflexivity.
Qed.

Lemma sign_inputs_run1 (w : World) (tx : Transaction) (sk : string)
      (l : list Input) (i : nat) :
  posted (snd (map_indexed (SingleUtxo.sign_input w tx sk) l i)) = []
  /\ (forall r, fst (map_indexed (SingleUtxo.sign_input w tx sk) l i)
                <> Reply r)
  /\ forall ys,
       fst (map_indexed (SingleUtxo.sign_input w tx sk) l i) = Next ys ->
       signed_by w tx sk (fun _ => 0%nat) i l ys.
Proof.
  revert i. induction l as [ | input l IH]; intros i.
  - cbn. repeat split; [discriminate | intros ys [= <-]; constructor].
  - cbn [map_indexed]. unfold SingleUtxo.sign_input at 1 3 5.
    destruct (getSignatures w tx sk input 0) as [sig | d] eqn:Es; cbn.
    + destruct (IH (S i)) as (Hp & Hr & Hy).
      destruct (map_indexed _ l (S i)) as [[ys | r | e] t]; cbn in *.
      * repeat split; [rewrite app_nil_r; exact Hp | discriminate | ].
        intros ys' [= <-]. constructor; [exact Es | ]. apply Hy. reflexivity.
      * exfalso. exact (Hr r eq_refl).
      * repeat split; [exact Hp | discriminate | discriminate].
    + repeat split; discriminate.
Qed.

Lemma new_input_run (w : World) (u : Utxo) :
  posted (snd (new_input w u)) = []
  /\ (forall r, fst (new_input w u) <> Reply r)
  /\ forall i, fst (new_input w u) = Next i -> i = input_of_utxo u.
Proof.
  unfold new_input.
  destruct (Input_new w (input_of_utxo u)) as [[] | d]; cbn;
    repeat split; try discriminate.
  intros i [= <-]. reflexivity.
Qed.

(** Every run of the single-UTXO handler either posts nothing and does
    not succeed, or is a build with exactly one posted payload. *)
Lemma single_run (w : World) (req : Body) (resp : response)
      (t : list event) :
  SingleUtxo.createTransaction w req = (resp, t) ->
  (posted t = [] /\ forall a b c d e, resp <> Success a b c d e)
  \/ exists b,
       is_build1 w req b
       /\ posted t = [s_payload b]
       /\ resp = reply_after_post w (s_params b) (s_payload b)
                                  (s_amountToSend b)
                                  (s_amountToSend b + s_feeAmount b).
Proof.
  unfold SingleUtxo.createTransaction, SingleUtxo.createTransaction_body.
  intros E.
  pose proof (validate_trace req) as Hvt.
  pose proof (validate_reply req) as Hvr.
  pose proof (validate_no_raise req) as Hve.
  destruct (validate req) as [[p | r | e] tv] eqn:Ev; cbn in Hvt; subst tv;
    cbn [bind] in E.
  2: { destruct (Hvr r [] eq_refl) as [msg ->]. quiet E. }
  2: { exfalso. exact (Hve e [] eq_refl). }
  clear Hvr Hve.
  destruct (PrivateKey_new w (key p)) as [[] | d] eqn:Ek;
    cbn [bind call] in E; [ | quiet E].
  destruct (get_utxos w (sender p)) as [utxos | d] eqn:Eu;
    cbn [bind call] in E; [ | quiet E].
  destruct (SingleUtxo.selectedUtxo utxos) as [selected | ] eqn:Es;
    [ | quiet E].
  destruct (new_input_run w selected) as (Hip & Hir & Hiy).
  destruct (new_input w selected) as [[txInput | r | e] ti];
    cbn [fst snd] in Hip, Hir, Hiy; cbn [bind] in E;
    [ | exfalso; exact (Hir r eq_refl) | quiet E].
  specialize (Hiy txInput eq_refl). subst txInput. clear Hir.
  rewrite !BigInt_run in E.
  destruct (BigInt_of_number (Math_floor (mul (amount_ p) lit_1e8)))
    as [amountToSend | ] eqn:Ea; cbn [bind] in E; [ | quiet E].
  destruct (BigInt_of_number (Math_floor (mul (fee_ p) lit_1e8)))
    as [feeAmount | ] eqn:Ef; cbn [bind] in E; [ | quiet E].
  pose proof (new_output_posted w (recipient p)
                (Number_of_BigInt amountToSend)) as Hrp.
  pose proof (new_output_no_reply w (recipient p)
                (Number_of_BigInt amountToSend)) as Hrr.
  pose proof (new_output_inv w (recipient p)
                (Number_of_BigInt amountToSend)) as Hri.
  destruct (new_output w (recipient p) (Number_of_BigInt amountToSend))
    as [[txOutput | r | e] tr]; cbn [fst snd] in Hrp, Hrr, Hri;
    cbn [bind] in E; [ | exfalso; exact (Hrr r eq_refl) | quiet E].
  destruct (Hri txOutput eq_refl) as (rs & Ers & ->). clear Hrr Hri.
  set (change := u_amount selected - amountToSend - feeAmount) in *.
  pose proof (new_output_posted w (sender p) (Number_of_BigInt change))
    as Hcp.
  pose proof (new_output_no_reply w (sender p) (Number_of_BigInt change))
    as Hcr.
  pose proof (new_output_inv w (sender p) (Number_of_BigInt change)) as Hci.
  destruct (new_output w (sender p) (Number_of_BigInt change))
    as [[txChange | r | e] tc]; cbn [fst snd] in Hcp, Hcr, Hci;
    cbn [bind] in E; [ | exfalso; exact (Hcr r eq_refl) | quiet E].
  destruct (Hci txChange eq_refl) as (ss & Ess & ->). clear Hcr Hci.
  cbn [inputs version script] in E.
  set (tx := {| version := 0; inputs := [input_of_utxo selected];
                outputs := _ |}) in *.
  destruct (sign_inputs_run1 w tx (key p) [input_of_utxo selected] 0)
    as (Hsp & Hsr & Hsy).
  destruct (map_indexed (SingleUtxo.sign_input w tx (key p))
                        [input_of_utxo selected] 0)
    as [[signedInputs | r | e] ts]; cbn [fst snd] in Hsp, Hsr, Hsy;
    cbn [bind] in E; [ | exfalso; exact (Hsr r eq_refl) | quiet E].
  specialize (Hsy signedInputs eq_refl). clear Hsr.
  set (payload := rest_json 0 signedInputs _) in *.
  destruct (broadcast_and_reply_run w p payload
              amountToSend (amountToSend + feeAmount))
    as (o & tb & Eb & Hbp & Hbr).
  rewrite Eb in E.
  right.
  exists {| s_params := p; s_amountToSend := amountToSend;
            s_feeAmount := feeAmount; s_utxos := utxos;
            s_selected := selected; s_recipientScript := rs;
            s_senderScript := ss; s_signedInputs := signedInputs |}.
  assert (Er : forall t0, route (o, t0)
                          = (fst (route (o, tb)), t0))
    by (intros; destruct o; reflexivity).
  rewrite Er, Hbr in E. cbn [fst] in E. injection E as E1 E2.
  rewrite <- E1, <- E2.
  split; [ | split].
  - unfold is_build1, to_sompi, s_tx, s_changeAmount;
      cbn [s_params s_amountToSend s_feeAmount s_utxos s_selected
           s_recipientScript s_senderScript s_signedInputs].
    repeat split; auto.
  - cbn [posted app]. rewrite !posted_app.
    rewrite Hip, Hrp, Hcp, Hsp, Hbp. reflexivity.
  - reflexivity.
Qed.

(** * The selection loop *)

Lemma sum_utxos_app (l1 l2 : list Utxo) :
  sum_utxos (l1 ++ l2) = sum_utxos l1 + sum_utxos l2.
Proof.
  induction l1 as [ | u l1 IH]; cbn; [reflexivity | ].
  fold (sum_utxos (l1 ++ l2)). fold (sum_utxos l1). lia.
Qed.

Lemma sum_utxos_cons (u : Utxo) (l : list Utxo) :
  sum_utxos (u :: l) = u_amount u + sum_utxos l.
Proof. reflexivity. Qed.

(** The loop takes a prefix of the entries; the running sum stays below
    the target until the last entry taken, and the loop ends either on
    reaching the target or on running out of entries. *)
Lemma select_loop_spec (utxos : list Utxo) (target : Z) :
  forall (acc : list Utxo) (s : Z),
  exists taken rest,
    utxos = taken ++ rest
    /\ MultiUtxo.select_loop utxos target acc s
       = (acc ++ taken, s + sum_utxos taken)
    /\ (forall k, (0 < k < List.length taken)%nat ->
                  s + sum_utxos (firstn k taken) < target)
    /\ (target <= s + sum_utxos taken
        \/ (rest = [] /\ (taken = [] \/ s + sum_utxos taken < target))).
Proof.
  induction utxos as [ | u utxos IH]; intros acc s.
  - exists [], []. cbn. rewrite app_nil_r, Z.add_0_r.
    repeat split; auto. intros k Hk. cbn in Hk. lia.
  - cbn [MultiUtxo.select_loop].
    destruct (Z.leb_spec target (s + u_amount u)) as [Hstop | Hgo].
    + exists [u], utxos. cbn. rewrite Z.add_0_r.
      repeat split; auto. intros k Hk. cbn in Hk. lia.
    + destruct (IH (acc ++ [u]) (s + u_amount u))
        as (taken & rest & -> & E & Hbelow & Hend).
      exists (u :: taken), rest. rewrite E, <- app_assoc.
      rewrite sum_utxos_cons. cbn [app].
      repeat split.
      * f_equal. lia.
      * intros k Hk. destruct k as [ | k]; [lia | ].
        cbn [firstn]. rewrite sum_utxos_cons.
        destruct k as [ | k].
        -- cbn. lia.
        -- cbn [List.length] in Hk.
           assert (Hk' : (0 < S k < List.length taken)%nat) by lia.
           specialize (Hbelow (S k) Hk'). lia.
      * destruct Hend as [Hreach | [-> [-> | Hshort]]].
        -- left. lia.
        -- right. split; [reflexivity | right]. cbn. lia.
        -- right. split; [reflexivity | right]. lia.
Qed.

Lemma removelast_firstn_length {A} (l : list A) :
  removelast l = firstn (Nat.pred (List.length l)) l.
Proof.
  induction l as [ | a l IH]; [reflexivity | ].
  destruct l as [ | b l]; [reflexivity | ].
  cbn [removelast List.length Nat.pred firstn] in *. f_equal. exact IH.
Qed.

(** The reply when the loop ends short of the target: a 400, after the
    key and the fetch, with nothing built, signed or posted. *)
Lemma insufficient_reply (w : World) (req : Body) (p : Params)
      (a f : Z) (utxos : list Utxo) :
  validate req = (Next p, []) ->
  to_sompi (amount_ p) = Some a ->
  to_sompi (fee_ p) = Some f ->
  PrivateKey_new w (key p) = Returns tt ->
  get_utxos w (sender p) = Returns utxos ->
  snd (MultiUtxo.select utxos (a + f)) < a + f ->
  MultiUtxo.createTransaction w req
  = (BadRequest "Insufficient UTXOs for requested amount",
     [EvPrivateKey (key p); EvGetUtxos (sender p)]).
Proof.
  unfold to_sompi. intros Ev Ea Ef Ek Eu Hs.
  unfold MultiUtxo.createTransaction, MultiUtxo.createTransaction_body.
  rewrite Ev. cbn [bind].
  rewrite BigInt_run, Ea. cbn [bind].
  rewrite BigInt_run, Ef. cbn [bind].
  rewrite Ek. cbn [bind call].
  rewrite Eu. cbn [bind call].
  destruct (MultiUtxo.select utxos (a + f)) as [ins inputSum].
  cbn [snd] in Hs. apply Z.ltb_lt in Hs. rewrite Hs. reflexivity.
Qed.

(** ** The scenarios of the specification, run *)

(** One entry of 1.5, 1.0 to send and a fee of 0.0001: two outputs. *)
Example scenario_change_returned :
  map payload_amounts
      (posted (snd (MultiUtxo.createTransaction
                      (Bench.world [Bench.utxo 0 150000000] (Returns Null))
                      (Bench.request (decimal 1 0) (decimal 1 4)))))
  = [[Some 100000000; Some 49990000]].
Proof. vm_compute. reflexivity. Qed.

(** The same entry, 1.499999 to send and no fee: the change of 100 is
    below the minimum and only the recipient's output is built. *)
Example scenario_change_forfeited :
  map payload_amounts
      (posted (snd (MultiUtxo.createTransaction
                      (Bench.world [Bench.utxo 0 150000000] (Returns Null))
                      (Bench.request (decimal 1499999 6) lit_0))))
  = [[Some 149999900]].
Proof. vm_compute. reflexivity. Qed.

(** Entries worth 0.5 for a target of 1.0. *)
Example scenario_insufficient_funds :
  MultiUtxo.createTransaction
    (Bench.world [Bench.utxo 0 20000000; Bench.utxo 1 30000000]
                 (Returns Null))
    (Bench.request (decimal 1 0) lit_0)
  = (BadRequest "Insufficient UTXOs for requested amount",
     [EvPrivateKey "11"; EvGetUtxos Bench.alice]).
Proof. vm_compute. reflexivity. Qed.

(** The order of the entries decides the selection. *)
Example selection_depends_on_order :
  fst (MultiUtxo.select [Bench.utxo 0 30; Bench.utxo 1 100] 100)
  = [Bench.utxo 0 30; Bench.utxo 1 100]
  /\ fst (MultiUtxo.select [Bench.utxo 1 100; Bench.utxo 0 30] 100)
     = [Bench.utxo 1 100].
Proof. split; reflexivity. Qed.

(** * Validation *)

(** What a request that passes validation looks like. *)
Lemma validate_ok_inv (req : Body) (p : Params) (t : list event) :
  validate req = (Next p, t) ->
  senderAddress req = Some (sender p)
  /\ recipientAddress req = Some (recipient p)
  /\ amount req = Some (amount_ p)
  /\ fee req = Some (fee_ p)
  /\ privateKey req = Some (key p)
  /\ falsy (senderAddress req) = false
  /\ falsy (recipientAddress req) = false
  /\ falsy (privateKey req) = false
  /\ Regex.test kaspaRegex (sender p) = true
  /\ Regex.test kaspaRegex (recipient p) = true
  /\ recipient p <> sender p
  /\ leb (amount_ p) lit_0 = false
  /\ ltb (fee_ p) lit_0 = false.
Proof.
  unfold validate.
  destruct (falsy (senderAddress req)) eqn:F1; [discriminate | ].
  destruct (falsy (recipientAddress req)) eqn:F2; [discriminate | ].
  destruct (falsy (privateKey req)) eqn:F3;
    [rewrite !orb_true_r; discriminate | ].
  destruct (senderAddress req) as [s | ], (recipientAddress req) as [r | ],
    (amount req) as [a | ], (fee req) as [f | ],
    (privateKey req) as [k | ]; try discriminate.
  cbn [is_undefined orb].
  destruct (Regex.test kaspaRegex s) eqn:T1; [ | discriminate].
  destruct (Regex.test kaspaRegex r) eqn:T2; [ | discriminate].
  cbn [negb].
  destruct (String.eqb_spec r s) as [E | E]; [discriminate | ].
  destruct (leb a lit_0) eqn:L1; [discriminate | ].
  destruct (ltb f lit_0) eqn:L2; [discriminate | ].
  intros [= <- _]. cbn. repeat split; auto.
Qed.

(** A request with a validation failure does not pass. *)
Lemma validation_failure_rejected (req : Body) :
  validation_failure req ->
  exists msg, validate req = (Reply (BadRequest msg), []).
Proof.
  intros Hfail.
  pose proof (validate_trace req) as Ht.
  destruct (validate req) as [[p | r | e] t] eqn:Ev; cbn in Ht; subst t.
  - exfalso.
    destruct (validate_ok_inv req p [] Ev)
      as (Es & Er & Ea & Ef & Ek & F1 & F2 & F3 & T1 & T2 & Hne & L1 & L2).
    unfold validation_failure, malformed in Hfail.
    rewrite Es, Er, Ea, Ef, Ek in *.
    destruct Hfail as [H | [H | [H | [H | [H | [H | [H | [H | [H | H]]]]]]]]];
      try congruence.
    + destruct H as (s & [= <-] & H). congruence.
    + destruct H as (s & [= <-] & H). congruence.
    + destruct H as (a & [= <-] & H). congruence.
    + destruct H as (f & [= <-] & H). congruence.
  - destruct (validate_reply req r [] Ev) as [msg ->]. eauto.
  - exfalso. exact (validate_no_raise req e [] Ev).
Qed.

(** C4. Every validation failure (a missing parameter, a malformed sender
    or recipient address, a recipient equal to the sender, a non-positive
    amount, a negative fee) is answered with a 400 before anything
    outside the handler is called: the trace of the run is empty, so
    there is no key handling, no UTXO fetch, no signing and no
    broadcast.  This holds for both handlers and whatever the other
    fields of the request are. *)
Theorem validation_before_any_call (w : World) (req : Body) :
  validation_failure req ->
  exists msg,
    MultiUtxo.createTransaction w req = (BadRequest msg, [])
    /\ SingleUtxo.createTransaction w req = (BadRequest msg, []).
Proof.
  intros Hfail.
  destruct (validation_failure_rejected req Hfail) as [msg Ev].
  exists msg.
  unfold MultiUtxo.createTransaction, MultiUtxo.createTransaction_body,
    SingleUtxo.createTransaction, SingleUtxo.createTransaction_body.
  rewrite Ev. split; reflexivity.
Qed.

(** A request whose recipient is its sender, with a valid amount and
    fee, against a ledger that would serve it. *)
Lemma validation_before_any_call_witness :
  let w := Bench.world [Bench.utxo 0 150000000] (Returns Null) in
  let req := {| senderAddress := Some Bench.alice;
                recipientAddress := Some Bench.alice;
                amount := Some (decimal 1 0);
                fee := Some (decimal 1 4);
                privateKey := Some "11"%string |} in
  validation_failure req
  /\ exists msg,
       MultiUtxo.createTransaction w req = (BadRequest msg, [])
       /\ SingleUtxo.createTransaction w req = (BadRequest msg, []).
Proof.
  intros w req.
  assert (H : validation_failure req)
    by (unfold validation_failure; do 7 right; left; reflexivity).
  split; [exact H | exact (validation_before_any_call w req H)].
Defined.

(** * Claims about the multi-UTXO handler *)

(** C2, as stated, fails when the target is 0: an amount below one
    smallest unit passes validation ([1e-9 > 0]) and converts to 0, the
    loop still takes the first entry, and the sum of the selected entries
    without the last (the empty sum) is not below the target. *)
Lemma greedy_minimality_fails_at_target_0 :
  let utxos := [Bench.utxo 0 5] in
  let w := Checked.world utxos (Returns Null) in
  let req := Bench.request (decimal 1 9) lit_0 in
  to_sompi (decimal 1 9) = Some 0
  /\ to_sompi lit_0 = Some 0
  /\ 0 <= sum_utxos utxos
  /\ MultiUtxo.select utxos 0 = (utxos, 5)
  /\ ~ sum_utxos (removelast (fst (MultiUtxo.select utxos 0))) < 0
  /\ fst (MultiUtxo.createTransaction w req)
     = Success (Str "txid") (Str "raw") "0" "0" Null.
Proof.
  vm_compute. repeat split; try reflexivity; try discriminate.
Qed.

(** C2 (amended).  The selection takes the entries in the order supplied,
    adding each to the running sum and stopping as soon as the sum
    reaches the target.  Whatever the target: the selected entries are a
    prefix of the candidates, their sum is the reported sum, no shorter
    non-empty prefix reaches the target, and the first candidate is
    always taken; when the candidates total at least the target, so does
    the selected sum; when the loop ends below the target it has taken
    every candidate, and the handler replies 400 (insufficient funds)
    having built, signed and posted nothing.  The sum of all selected
    entries but the last is below the target when the target is at least
    1; for a target of 0 or less a first candidate that reaches it is the
    whole selection, and the sum without it, 0, is not below the
    target. *)
Theorem greedy_selection (utxos : list Utxo) (totalNeeded : Z) :
  let selected := fst (MultiUtxo.select utxos totalNeeded) in
  let inputSum := snd (MultiUtxo.select utxos totalNeeded) in
  (exists rest, utxos = selected ++ rest)
  /\ inputSum = sum_utxos selected
  /\ (forall k, (0 < k < List.length selected)%nat ->
                sum_utxos (firstn k selected) < totalNeeded)
  /\ (forall u rest, utxos = u :: rest -> exists tail, selected = u :: tail)
  /\ (totalNeeded <= sum_utxos utxos -> totalNeeded <= inputSum)
  /\ (0 < totalNeeded -> sum_utxos (removelast selected) < totalNeeded)
  /\ (totalNeeded <= 0 ->
      forall u rest,
        utxos = u :: rest ->
        totalNeeded <= u_amount u ->
        selected = [u]
        /\ ~ sum_utxos (removelast selected) < totalNeeded)
  /\ (inputSum < totalNeeded ->
      selected = utxos
      /\ forall w req p a f,
           validate req = (Next p, []) ->
           to_sompi (amount_ p) = Some a ->
           to_sompi (fee_ p) = Some f ->
           a + f = totalNeeded ->
           PrivateKey_new w (key p) = Returns tt ->
           get_utxos w (sender p) = Returns utxos ->
           MultiUtxo.createTransaction w req
           = (BadRequest "Insufficient UTXOs for requested amount",
              [EvPrivateKey (key p); EvGetUtxos (sender p)])).
Proof.
  unfold MultiUtxo.select.
  destruct (select_loop_spec utxos totalNeeded [] 0)
    as (taken & rest & Hsplit & E & Hbelow & Hend).
  rewrite E. cbn [fst snd app]. rewrite Z.add_0_l in *.
  split; [ | split; [ | split; [ | split; [ | split; [ | split;
    [ | split]]]]]].
  - exists rest. exact Hsplit.
  - reflexivity.
  - intros k Hk. specialize (Hbelow k Hk). lia.
  - intros u rest' Hu. rewrite Hu in Hsplit, E.
    destruct taken as [ | v taken].
    + exfalso. cbn [MultiUtxo.select_loop app] in E.
      destruct (totalNeeded <=? 0 + u_amount u);
        [discriminate E | ].
      destruct (select_loop_spec rest' totalNeeded [u] (0 + u_amount u))
        as (taken' & rest'' & _ & E' & _).
      rewrite E' in E. discriminate.
    + cbn [app] in Hsplit. injection Hsplit as <- _.
      exists taken. reflexivity.
  - intros Htotal.
    destruct Hend as [H | [-> [-> | H]]]; [exact H | | ].
    + cbn in Hsplit. subst utxos. exact Htotal.
    + rewrite app_nil_r in Hsplit. subst utxos. lia.
  - intros Hpos. rewrite removelast_firstn_length.
    destruct taken as [ | u [ | v taken]]; [cbn; lia | cbn; lia | ].
    specialize (Hbelow (Nat.pred (List.length (u :: v :: taken)))).
    rewrite Z.add_0_l in Hbelow. apply Hbelow. cbn. lia.
  - intros Hzero u rest' Hu Hreach. rewrite Hu in E.
    cbn [MultiUtxo.select_loop app] in E.
    destruct (Z.leb_spec totalNeeded (0 + u_amount u)) as [_ | H];
      [ | lia].
    injection E as <- _. split; [reflexivity | ]. cbn. lia.
  - intros Hshort. split.
    + destruct Hend as [H | [-> _]]; [lia | ].
      rewrite app_nil_r in Hsplit. congruence.
    + intros w req p a f Ev Ea Ef Et Ek Eu.
      apply (insufficient_reply w req p a f utxos); auto.
      rewrite Et. unfold MultiUtxo.select. rewrite E. cbn [snd]. lia.
Qed.

(** Three entries of 0.6 for a target of 1.0001: the first two are
    taken. *)
Lemma greedy_selection_witness :
  let utxos := [Bench.utxo 0 60000000; Bench.utxo 1 60000000;
                Bench.utxo 2 60000000] in
  let selected := fst (MultiUtxo.select utxos 100010000) in
  let inputSum := snd (MultiUtxo.select utxos 100010000) in
  0 < 100010000
  /\ 100010000 <= sum_utxos utxos
  /\ selected = [Bench.utxo 0 60000000; Bench.utxo 1 60000000]
  /\ inputSum = 120000000
  /\ 100010000 <= inputSum
  /\ sum_utxos (removelast selected) < 100010000.
Proof.
  intros utxos selected inputSum.
  assert (Hpos : 0 < 100010000) by lia.
  assert (Htotal : 100010000 <= sum_utxos utxos)
    by (unfold utxos; cbn; lia).
  destruct (greedy_selection utxos 100010000)
    as (_ & _ & _ & _ & Hreach & Hlast & _).
  split; [exact Hpos | split; [exact Htotal | ]].
  split; [reflexivity | split; [reflexivity | ]].
  split; [exact (Hreach Htotal) | exact (Hlast Hpos)].
Defined.

(** A posted payload is the payload of a build, and the only one. *)
Lemma posted_build (w : World) (req : Body) (payload : Payload) :
  In payload (posted (snd (MultiUtxo.createTransaction w req))) ->
  exists b,
    is_build w req b
    /\ payload = b_payload b
    /\ MultiUtxo.createTransaction w req
       = (reply_after_post w (b_params b) (b_payload b)
                           (b_amountToSend b) (b_totalNeeded b),
          snd (MultiUtxo.createTransaction w req)).
Proof.
  intros Hin.
  destruct (MultiUtxo.createTransaction w req) as [resp t] eqn:E.
  cbn [snd] in *.
  destruct (multi_run w req resp t E) as [[Hq _] | (b & Hb & Hp & Hr)].
  - rewrite Hq in Hin. contradiction.
  - rewrite Hp in Hin. destruct Hin as [<- | []].
    exists b. split; [exact Hb | split; [reflexivity | ]].
    rewrite Hr. reflexivity.
Qed.

(** The sum reported by the selection is the sum of the selected
    entries. *)
Lemma build_inputSum (w : World) (req : Body) (b : Build) :
  is_build w req b -> b_inputSum b = sum_utxos (b_inputs b).
Proof.
  intros (_ & _ & _ & _ & _ & Es & _).
  unfold MultiUtxo.select in Es.
  destruct (select_loop_spec (b_utxos b) (b_totalNeeded b) [] 0)
    as (taken & rest & _ & E & _).
  rewrite E in Es. cbn [app] in Es. injection Es as <- <-. lia.
Qed.

(** The amounts of a request that passed validation are not negative. *)
Lemma build_amounts_nonneg (w : World) (req : Body) (b : Build) :
  is_build w req b -> 0 <= b_amountToSend b /\ 0 <= b_feeAmount b.
Proof.
  intros (Ev & Ea & Ef & _).
  destruct (validate_ok_inv req _ _ Ev)
    as (_ & _ & _ & _ & _ & _ & _ & _ & _ & _ & _ & L1 & L2).
  unfold to_sompi in *. split.
  - apply (BigInt_of_nonneg _ _ (Math_floor_nonneg _
             (mul_1e8_nonneg_of_not_le _ L1)) Ea).
  - apply (BigInt_of_nonneg _ _ (Math_floor_nonneg _
             (mul_1e8_nonneg_of_not_lt _ L2)) Ef).
Qed.

(** The outputs of the payload of a build. *)
Lemma build_payload_outputs (w : World) (req : Body) (b : Build) :
  is_build w req b ->
  exists rs,
    Address_script w (recipient (b_params b)) = Returns rs
    /\ ((2000000 <= b_changeAmount b
         /\ exists ss,
              Address_script w (sender (b_params b)) = Returns ss
              /\ p_outputs (b_payload b)
                 = [ payload_output (Number_of_BigInt (b_amountToSend b)) rs;
                     payload_output (Number_of_BigInt (b_changeAmount b))
                                    ss ])
        \/ (b_changeAmount b < 2000000
            /\ p_outputs (b_payload b)
               = [ payload_output (Number_of_BigInt (b_amountToSend b))
                                  rs ])).
Proof.
  intros (_ & _ & _ & _ & _ & _ & _ & Eo & _).
  assert (Hp : forall outs,
             b_outputs b = outs ->
             p_outputs (b_payload b)
             = map (fun o => payload_output (satoshis o) (script o)) outs)
    by (intros outs <-; reflexivity).
  destruct (add_outputs_inv w _ _ _ _ Eo)
    as (rs & Hrs & [(Hc & ss & Hss & Houts) | (Hc & Houts)]);
    exists rs; (split; [exact Hrs | ]).
  - left. split; [exact Hc | ]. exists ss. split; [exact Hss | ].
    rewrite (Hp _ Houts). reflexivity.
  - right. split; [exact Hc | ].
    rewrite (Hp _ Houts). reflexivity.
Qed.

(** C3.  In every build, the change is the total selected minus the
    amount and the fee; the payload has the recipient's output first, and
    a second output, paid to the sender's address, exactly when the
    change is at least 2000000; below that the recipient's output is the
    only one. *)
Theorem change_output_iff_minimum (w : World) (req : Body)
        (payload : Payload) :
  In payload (posted (snd (MultiUtxo.createTransaction w req))) ->
  exists b rs,
    is_build w req b
    /\ payload = b_payload b
    /\ senderAddress req = Some (sender (b_params b))
    /\ recipientAddress req = Some (recipient (b_params b))
    /\ b_changeAmount b
       = sum_utxos (b_inputs b) - b_amountToSend b - b_feeAmount b
    /\ Address_script w (recipient (b_params b)) = Returns rs
    /\ ((2000000 <= b_changeAmount b
         /\ exists ss,
              Address_script w (sender (b_params b)) = Returns ss
              /\ p_outputs payload
                 = [ payload_output (Number_of_BigInt (b_amountToSend b)) rs;
                     payload_output (Number_of_BigInt (b_changeAmount b))
                                    ss ])
        \/ (b_changeAmount b < 2000000
            /\ p_outputs payload
               = [ payload_output (Number_of_BigInt (b_amountToSend b))
                                  rs ])).
Proof.
  intros Hin.
  destruct (posted_build w req payload Hin) as (b & Hb & -> & _).
  pose proof (build_inputSum w req b Hb) as Hsum.
  pose proof Hb as (Ev & _).
  destruct (validate_ok_inv req _ _ Ev) as (Es & Er & _).
  assert (Hchange : b_changeAmount b
                    = sum_utxos (b_inputs b) - b_amountToSend b
                      - b_feeAmount b)
    by (unfold b_changeAmount, b_totalNeeded; lia).
  destruct (build_payload_outputs w req b Hb) as (rs & Hrs & Hout).
  exists b, rs.
  split; [exact Hb | split; [reflexivity | split; [exact Es | ]]].
  split; [exact Er | split; [exact Hchange | split; [exact Hrs | ]]].
  exact Hout.
Qed.

(** The scenario of the specification: one entry of 1.5, an amount of
    1.0 and a fee of 0.0001 give a change of 49990000 and two outputs. *)
Lemma change_output_iff_minimum_witness :
  let w := Bench.world [Bench.utxo 0 150000000] (Returns Null) in
  let req := Bench.request (decimal 1 0) (decimal 1 4) in
  exists payload,
    In payload (posted (snd (MultiUtxo.createTransaction w req)))
    /\ exists b rs,
         is_build w req b
         /\ payload = b_payload b
         /\ senderAddress req = Some (sender (b_params b))
         /\ recipientAddress req = Some (recipient (b_params b))
         /\ b_changeAmount b
            = sum_utxos (b_inputs b) - b_amountToSend b - b_feeAmount b
         /\ Address_script w (recipient (b_params b)) = Returns rs
         /\ ((2000000 <= b_changeAmount b
              /\ exists ss,
                   Address_script w (sender (b_params b)) = Returns ss
                   /\ p_outputs payload
                      = [ payload_output
                            (Number_of_BigInt (b_amountToSend b)) rs;
                          payload_output
                            (Number_of_BigInt (b_changeAmount b)) ss ])
             \/ (b_changeAmount b < 2000000
                 /\ p_outputs payload
                    = [ payload_output
                          (Number_of_BigInt (b_amountToSend b)) rs ])).
Proof.
  intros w req.
  assert (H : exists payload,
             posted (snd (MultiUtxo.createTransaction w req)) = [payload])
    by (vm_compute; eexists; reflexivity).
  destruct H as [payload H]. exists payload.
  assert (Hin : In payload
                   (posted (snd (MultiUtxo.createTransaction w req))))
    by (rewrite H; left; reflexivity).
  split; [exact Hin | ].
  exact (change_output_iff_minimum w req payload Hin).
Defined.

(** ** Conservation of value *)

(** In BigInt arithmetic the books balance: amount, change and fee add up
    to the sum of the selected entries. *)
Lemma build_balance (w : World) (req : Body) (b : Build) :
  is_build w req b ->
  b_amountToSend b + b_changeAmount b + b_feeAmount b
  = sum_utxos (b_inputs b)
  /\ 0 <= b_changeAmount b.
Proof.
  intros Hb. pose proof (build_inputSum w req b Hb) as Hsum.
  destruct Hb as (_ & _ & _ & _ & _ & _ & Hge & _).
  unfold b_changeAmount, b_totalNeeded in *. lia.
Qed.

(** X19.  The integers the outputs of a payload denote, when every amount of
    the build is below 2^53: the amount sent, then the change when it
    reaches the minimum.  With the change that was dropped counted as
    fee, they add up to the inputs. *)
Lemma conservation_below_2p53 (w : World) (req : Body) (payload : Payload) :
  In payload (posted (snd (MultiUtxo.createTransaction w req))) ->
  exists b,
    is_build w req b /\ payload = b_payload b
    /\ (sum_utxos (b_inputs b) < 2 ^ 53 ->
        (2000000 <= b_changeAmount b
         /\ payload_amounts payload
            = [Some (b_amountToSend b); Some (b_changeAmount b)]
         /\ b_amountToSend b + b_changeAmount b + b_feeAmount b
            = sum_utxos (b_inputs b))
        \/ (b_changeAmount b < 2000000
            /\ payload_amounts payload = [Some (b_amountToSend b)]
            /\ b_amountToSend b + (b_feeAmount b + b_changeAmount b)
               = sum_utxos (b_inputs b))).
Proof.
  intros Hin.
  destruct (posted_build w req payload Hin) as (b & Hb & -> & _).
  destruct (build_payload_outputs w req b Hb) as (rs & _ & Hout).
  exists b. split; [exact Hb | split; [reflexivity | ]].
  intros Hsmall.
  destruct (build_balance w req b Hb) as [Hbal Hc0].
  destruct (build_amounts_nonneg w req b Hb) as [Ha0 Hf0].
  assert (Ea : BigInt_of_number (Number_of_BigInt (b_amountToSend b))
               = Some (b_amountToSend b))
    by (apply BigInt_of_Number_exact; lia).
  assert (Ec : BigInt_of_number (Number_of_BigInt (b_changeAmount b))
               = Some (b_changeAmount b))
    by (apply BigInt_of_Number_exact; lia).
  destruct Hout as [(Hc & ss & _ & Hp) | (Hc & Hp)];
    unfold payload_amounts; rewrite Hp; cbn [map po_amount payload_output].
  - left. rewrite Ea, Ec. split; [exact Hc | split; [reflexivity | lia]].
  - right. rewrite Ea. split; [exact Hc | split; [reflexivity | lia]].
Qed.

(** The bench of [Checked] makes the check. *)
Lemma checked_world_checks (utxos : list Utxo) (balance : result value) :
  checks_outputs (Checked.world utxos balance).
Proof.
  intros o. cbn.
  destruct (accepted_satoshis (satoshis o)); [reflexivity | discriminate].
Qed.

(** With a library that checks its outputs, the amounts of a build
    survive the conversion to Numbers: the amount sent, and the change
    when an output is built for it, are below 2^53 and the Numbers handed
    to the constructor denote them. *)
Lemma build_amounts_exact (w : World) (req : Body) (b : Build) :
  checks_outputs w ->
  is_build w req b ->
  (b_amountToSend b < 2 ^ 53
   /\ BigInt_of_number (Number_of_BigInt (b_amountToSend b))
      = Some (b_amountToSend b))
  /\ (2000000 <= b_changeAmount b ->
      b_changeAmount b < 2 ^ 53
      /\ BigInt_of_number (Number_of_BigInt (b_changeAmount b))
         = Some (b_changeAmount b)).
Proof.
  intros Hw (_ & _ & _ & _ & _ & _ & _ & Eo & _).
  pose proof (add_outputs_built w _ _ _ _ Eo) as Hbuilt.
  destruct (add_outputs_inv w _ _ _ _ Eo)
    as (rs & _ & [(Hc & ss & _ & Houts) | (Hc & Houts)]);
    rewrite Houts in Hbuilt.
  - pose proof (Hw _ (Hbuilt _ (or_introl eq_refl))) as Ha.
    pose proof (Hw _ (Hbuilt _ (or_intror (or_introl eq_refl)))) as Hch.
    cbn [satoshis] in Ha, Hch.
    apply accepted_satoshis_exact in Ha as [[_ Ha] Ea].
    apply accepted_satoshis_exact in Hch as [[_ Hch] Ech].
    split; [split; [exact Ha | exact Ea] | ].
    intros _. split; [exact Hch | exact Ech].
  - pose proof (Hw _ (Hbuilt _ (or_introl eq_refl))) as Ha.
    cbn [satoshis] in Ha.
    apply accepted_satoshis_exact in Ha as [[_ Ha] Ea].
    split; [split; [exact Ha | exact Ea] | ].
    intros Hc'. exfalso. apply (Z.lt_irrefl 2000000).
    apply Z.le_lt_trans with (b_changeAmount b); assumption.
Qed.

(** C1.  Value is conserved in every build that reaches the broadcast,
    the library refusing amounts that a Number cannot hold: the outputs
    of the payload are the amount sent and, when the change is at least
    2000000, the change; their amounts are integers, not negative, and
    with the fee they add up to the sum of the selected entries exactly.
    A change below 2000000 has no output and counts as fee. *)
Theorem value_conservation (w : World) (req : Body) (payload : Payload) :
  checks_outputs w ->
  In payload (posted (snd (MultiUtxo.createTransaction w req))) ->
  exists b,
    is_build w req b
    /\ payload = b_payload b
    /\ 0 <= b_amountToSend b
    /\ 0 <= b_feeAmount b
    /\ 0 <= b_changeAmount b
    /\ ((2000000 <= b_changeAmount b
         /\ payload_amounts payload
            = [Some (b_amountToSend b); Some (b_changeAmount b)]
         /\ b_amountToSend b + b_changeAmount b + b_feeAmount b
            = sum_utxos (b_inputs b))
        \/ (b_changeAmount b < 2000000
            /\ payload_amounts payload = [Some (b_amountToSend b)]
            /\ b_amountToSend b + (b_feeAmount b + b_changeAmount b)
               = sum_utxos (b_inputs b))).
Proof.
  intros Hw Hin.
  destruct (posted_build w req payload Hin) as (b & Hb & -> & _).
  destruct (build_payload_outputs w req b Hb) as (rs & _ & Hout).
  destruct (build_balance w req b Hb) as [Hbal Hc0].
  destruct (build_amounts_nonneg w req b Hb) as [Ha0 Hf0].
  destruct (build_amounts_exact w req b Hw Hb) as [[_ Ea] Hchange].
  exists b.
  split; [exact Hb | split; [reflexivity | split; [exact Ha0 | ]]].
  split; [exact Hf0 | split; [exact Hc0 | ]].
  destruct Hout as [(Hc & ss & _ & Hp) | (Hc & Hp)];
    unfold payload_amounts; rewrite Hp; cbn [map po_amount payload_output].
  - left. destruct (Hchange Hc) as [_ Ec]. rewrite Ea, Ec.
    split; [exact Hc | split; [reflexivity | exact Hbal]].
  - right. rewrite Ea.
    split; [exact Hc | split; [reflexivity | ]].
    rewrite <- Hbal. ring.
Qed.

(** Two entries of 0.8 for 1.0 and a fee of 0.0001, against the library
    that checks: both are spent, and 100000000 + 59990000 + 10000 is
    160000000. *)
Lemma value_conservation_witness :
  let w := Checked.world [Bench.utxo 0 80000000; Bench.utxo 1 80000000]
                         (Returns Null) in
  let req := Bench.request (decimal 1 0) (decimal 1 4) in
  checks_outputs w
  /\ exists payload,
       In payload (posted (snd (MultiUtxo.createTransaction w req)))
       /\ payload_amounts payload = [Some 100000000; Some 59990000]
       /\ exists b,
            is_build w req b
            /\ payload = b_payload b
            /\ ((2000000 <= b_changeAmount b
                 /\ payload_amounts payload
                    = [Some (b_amountToSend b); Some (b_changeAmount b)]
                 /\ b_amountToSend b + b_changeAmount b + b_feeAmount b
                    = sum_utxos (b_inputs b))
                \/ (b_changeAmount b < 2000000
                    /\ payload_amounts payload = [Some (b_amountToSend b)]
                    /\ b_amountToSend b + (b_feeAmount b + b_changeAmount b)
                       = sum_utxos (b_inputs b))).
Proof.
  intros w req.
  assert (Hw : checks_outputs w) by apply checked_world_checks.
  split; [exact Hw | ].
  assert (H : exists payload,
             posted (snd (MultiUtxo.createTransaction w req)) = [payload]
             /\ payload_amounts payload
                = [Some 100000000; Some 59990000])
    by (vm_compute; eexists; split; reflexivity).
  destruct H as (payload & H & Hout). exists payload.
  assert (Hin : In payload
                   (posted (snd (MultiUtxo.createTransaction w req))))
    by (rewrite H; left; reflexivity).
  split; [exact Hin | split; [exact Hout | ]].
  destruct (value_conservation w req payload Hw Hin)
    as (b & Hb & Hp & _ & _ & _ & Hcases).
  exists b. split; [exact Hb | split; [exact Hp | exact Hcases]].
Defined.

(** An entry of 2^53 + 2 is refused when the input is built from it: a
    500, and nothing is posted. *)
Example scenario_entry_above_2p53 :
  let w := Checked.world [Bench.utxo 0 99999999;
                          Bench.utxo 1 (2 ^ 53 + 2)] (Returns Null) in
  let run := MultiUtxo.createTransaction
               w (Bench.request (decimal 1 0) lit_0) in
  fst run = ServerError (External Checked.refusal)
  /\ posted (snd run) = [].
Proof. vm_compute. split; reflexivity. Qed.

(** ** Integer arithmetic after the boundary *)



(** ** Signature scripts *)

Lemma length_append (a b : string) :
  String.length (a ++ b) = (String.length a + String.length b)%nat.
Proof. induction a as [ | c a IH]; cbn; [reflexivity | now rewrite IH]. Qed.

(** Every signed input of a signing pass wraps a signature the signer
    returned for one of the inputs. *)
Lemma signed_by_In (w : World) (tx : Transaction) (sk : string)
      (idx : nat -> nat) (i : nat) (ins : list Input)
      (sis : list SignedInput) (si : SignedInput) :
  signed_by w tx sk idx i ins sis -> In si sis ->
  exists input k signature,
    In input ins
    /\ getSignatures w tx sk input k = Returns signature
    /\ si = signed_input w input signature.
Proof.
  induction 1 as [ | i input ins signature sis Hsig _ IH];
    intros Hin; [contradiction | ].
  destruct Hin as [<- | Hin].
  - exists input, (idx i), signature. repeat split; auto. left. reflexivity.
  - destruct (IH Hin) as (input' & k & sig' & Hi & Hs & ->).
    exists input', k, sig'. repeat split; auto. right. exact Hi.
Qed.

(** A script [41 <128 hex chars> 01] has the shape of the pattern and is
    66 bytes long. *)
Lemma signature_script_shape (signature : string) :
  String.length signature = 128%nat ->
  string_forallb is_hex signature = true ->
  Regex.test signatureScriptRegex ("41" ++ signature ++ "01") = true
  /\ hex_bytes ("41" ++ signature ++ "01") = 66%nat.
Proof.
  intros Hlen Hhex. split.
  - unfold Regex.test, signatureScriptRegex. cbn [Regex.match_from].
    assert (E : Regex.strip_prefix "41" ("41" ++ signature ++ "01")
                = Some (signature ++ "01")%string)
      by (apply strip_prefix_spec; reflexivity).
    rewrite E. apply class_repeat_spec.
    exists signature, "01"%string. rewrite Hlen.
    split; [reflexivity | split; [lia | split; [exact Hhex | reflexivity]]].
  - unfold hex_bytes. rewrite !length_append, Hlen. reflexivity.
Qed.

(** C5, as stated, fails on the length: the script is the byte 0x41, the
    64 bytes of the signature and the byte 0x01, that is 66 bytes, not
    65.  A run with a 64-byte signature: *)
Lemma signature_script_is_not_65_bytes :
  let w := Bench.world [Bench.utxo 0 150000000] (Returns Null) in
  let req := Bench.request (decimal 1 0) (decimal 1 4) in
  let scripts :=
    map (fun p => map signatureScript (p_inputs p))
        (posted (snd (MultiUtxo.createTransaction w req))) in
  let script := ("41" ++ Bench.sig64 ++ "01")%string in
  scripts = [[script]]
  /\ hex_bytes Bench.sig64 = 64%nat
  /\ Regex.test signatureScriptRegex script = true
  /\ hex_bytes script = 66%nat
  /\ hex_bytes script <> 65%nat.
Proof.
  vm_compute. repeat split; try reflexivity. discriminate.
Qed.

(** C5 (amended).  Every signed input of every posted payload has the
    signature script ["41" ++ signature ++ "01"], where [signature] is what
    the signer returned for one of the inputs of the transaction; when
    that is a 64-byte signature (128 hexadecimal characters) the script
    matches [41<128 hex chars>01] and is 66 bytes long: the byte 0x41,
    the signature, the byte 0x01. *)
Theorem signature_script_format (w : World) (req : Body)
        (payload : Payload) (si : SignedInput) :
  In payload (posted (snd (MultiUtxo.createTransaction w req))) ->
  In si (p_inputs payload) ->
  exists b input k signature,
    is_build w req b
    /\ payload = b_payload b
    /\ In input (inputs (b_tx b))
    /\ getSignatures w (b_tx b) (key (b_params b)) input k
       = Returns signature
    /\ signatureScript si = ("41" ++ signature ++ "01")%string
    /\ sigOpCount si = 1
    /\ (String.length signature = 128%nat ->
        string_forallb is_hex signature = true ->
        Regex.test signatureScriptRegex (signatureScript si) = true
        /\ hex_bytes (signatureScript si) = 66%nat).
Proof.
  intros Hp Hsi.
  destruct (posted_build w req payload Hp) as (b & Hb & -> & _).
  pose proof Hb as (_ & _ & _ & _ & _ & _ & _ & _ & Hsigned).
  destruct (signed_by_In _ _ _ _ _ _ _ si Hsigned Hsi)
    as (input & k & signature & Hin & Hsig & ->).
  exists b, input, k, signature.
  split; [exact Hb | split; [reflexivity | split; [exact Hin | ]]].
  split; [exact Hsig | split; [reflexivity | split; [reflexivity | ]]].
  cbn [signatureScript signed_input]. apply signature_script_shape.
Qed.

Lemma signature_script_format_witness :
  let w := Bench.world [Bench.utxo 0 150000000] (Returns Null) in
  let req := Bench.request (decimal 1 0) (decimal 1 4) in
  exists payload si,
    In payload (posted (snd (MultiUtxo.createTransaction w req)))
    /\ In si (p_inputs payload)
    /\ exists b input k signature,
         is_build w req b
         /\ payload = b_payload b
         /\ In input (inputs (b_tx b))
         /\ getSignatures w (b_tx b) (key (b_params b)) input k
            = Returns signature
         /\ signatureScript si = ("41" ++ signature ++ "01")%string
         /\ sigOpCount si = 1
         /\ (String.length signature = 128%nat ->
             string_forallb is_hex signature = true ->
             Regex.test signatureScriptRegex (signatureScript si) = true
             /\ hex_bytes (signatureScript si) = 66%nat).
Proof.
  intros w req.
  assert (H : exists payload si,
             posted (snd (MultiUtxo.createTransaction w req)) = [payload]
             /\ p_inputs payload = [si])
    by (vm_compute; eexists _, _; split; reflexivity).
  destruct H as (payload & si & Hp & Hsi). exists payload, si.
  assert (Hin : In payload
                   (posted (snd (MultiUtxo.createTransaction w req))))
    by (rewrite Hp; left; reflexivity).
  assert (Hin' : In si (p_inputs payload))
    by (rewrite Hsi; left; reflexivity).
  split; [exact Hin | split; [exact Hin' | ]].
  exact (signature_script_format w req payload si Hin Hin').
Defined.

(** ** The success reply *)

Lemma string_of_uint_digits (d : Decimal.uint) :
  string_forallb is_digit (NilEmpty.string_of_uint d) = true.
Proof. induction d; cbn; auto. Qed.

(** The decimal string of a BigInt that is not negative: not empty, made
    of digits, and it reads back as the same integer. *)
Lemma BigInt_toString_decimal (z : Z) :
  0 <= z ->
  BigInt_toString z <> ""%string
  /\ string_forallb is_digit (BigInt_toString z) = true
  /\ option_map Z.of_int (NilZero.int_of_string (BigInt_toString z))
     = Some z.
Proof.
  intros Hz. unfold BigInt_toString.
  assert (Hnil : Z.to_int z <> Decimal.Pos Decimal.Nil
                 /\ Z.to_int z <> Decimal.Neg Decimal.Nil).
  { destruct z as [ | p | p]; cbn; split; try discriminate;
      intros [= H]; exact (DecimalPos.Unsigned.to_uint_nonnil p H). }
  destruct Hnil as [Hp Hn].
  split; [ | split].
  - destruct z as [ | p | p]; try lia; cbn; [discriminate | ].
    pose proof (DecimalPos.Unsigned.to_uint_nonnil p) as H.
    unfold NilZero.string_of_uint.
    destruct (Pos.to_uint p); try contradiction; discriminate.
  - destruct z as [ | p | p]; try lia; cbn; [reflexivity | ].
    unfold NilZero.string_of_uint.
    pose proof (string_of_uint_digits (Pos.to_uint p)) as H.
    destruct (Pos.to_uint p); try reflexivity; exact H.
  - rewrite NilZero.isi by assumption. cbn [option_map].
    rewrite DecimalZ.of_to. reflexivity.
Qed.

(** C8, as stated, fails for the wallet balance: the reply passes on what
    the balance lookup returned, and [null] when the lookup failed.
    With a lookup that fails, and with one that answers a Number: *)
Lemma wallet_balance_is_not_a_string :
  let req := Bench.request (decimal 1 0) (decimal 1 4) in
  let down := Bench.world [Bench.utxo 0 150000000] (Throws "timeout") in
  let up := Bench.world [Bench.utxo 0 150000000]
                        (Returns (Num (Number_of_BigInt 49990000))) in
  fst (MultiUtxo.createTransaction down req)
  = Success (Str "txid") (Str "raw") "100000000" "100010000" Null
  /\ fst (MultiUtxo.createTransaction up req)
     = Success (Str "txid") (Str "raw") "100000000" "100010000"
               (Num (Number_of_BigInt 49990000))
  /\ (forall s, Null <> Str s)
  /\ (forall s, Num (Number_of_BigInt 49990000) <> Str s).
Proof.
  vm_compute. repeat split; try reflexivity; intros s; discriminate.
Qed.

(** C8 (amended).  In the success reply the transferred amount and the
    charged amount are the decimal strings of the BigInts [amountToSend]
    and [amountToSend + feeAmount]: non-empty strings of digits that read
    back as these integers.  The wallet balance is the [balance] field of
    the ledger's answer, passed on as it came, and [null] when the lookup
    failed. *)
Theorem success_reply_amounts (w : World) (req : Body)
        (transactionId rawTransaction : value)
        (transferredAmount chargedAmount : string) (walletBalance : value) :
  fst (MultiUtxo.createTransaction w req)
  = Success transactionId rawTransaction transferredAmount chargedAmount
            walletBalance ->
  exists b,
    is_build w req b
    /\ transferredAmount = BigInt_toString (b_amountToSend b)
    /\ chargedAmount = BigInt_toString (b_amountToSend b + b_feeAmount b)
    /\ transferredAmount <> ""%string
    /\ string_forallb is_digit transferredAmount = true
    /\ option_map Z.of_int (NilZero.int_of_string transferredAmount)
       = Some (b_amountToSend b)
    /\ chargedAmount <> ""%string
    /\ string_forallb is_digit chargedAmount = true
    /\ option_map Z.of_int (NilZero.int_of_string chargedAmount)
       = Some (b_amountToSend b + b_feeAmount b)
    /\ walletBalance
       = match get_balance w (sender (b_params b)) with
         | Returns v => v
         | Throws _ => Null
         end.
Proof.
  intros Hresp.
  destruct (MultiUtxo.createTransaction w req) as [resp t] eqn:E.
  cbn [fst] in Hresp. subst resp.
  destruct (multi_run w req _ t E) as [[_ Hno] | (b & Hb & _ & Hr)].
  - exfalso. exact (Hno _ _ _ _ _ eq_refl).
  - exists b. unfold reply_after_post in Hr.
    destruct (post_transaction w (b_payload b)) as [txr | d];
      [ | discriminate].
    injection Hr as _ _ -> -> ->.
    destruct (build_amounts_nonneg w req b Hb) as [Ha Hf].
    destruct (BigInt_toString_decimal (b_amountToSend b) Ha)
      as (A1 & A2 & A3).
    destruct (BigInt_toString_decimal (b_totalNeeded b)
                ltac:(unfold b_totalNeeded; lia)) as (C1 & C2 & C3).
    unfold b_totalNeeded in *.
    repeat (split; [assumption || reflexivity | ]). reflexivity.
Qed.

Lemma success_reply_amounts_witness :
  let w := Bench.world [Bench.utxo 0 150000000] (Throws "timeout") in
  let req := Bench.request (decimal 1 0) (decimal 1 4) in
  fst (MultiUtxo.createTransaction w req)
  = Success (Str "txid") (Str "raw") "100000000" "100010000" Null
  /\ exists b,
       is_build w req b
       /\ "100000000"%string = BigInt_toString (b_amountToSend b)
       /\ "100010000"%string
          = BigInt_toString (b_amountToSend b + b_feeAmount b)
       /\ Null = match get_balance w (sender (b_params b)) with
                 | Returns v => v
                 | Throws _ => Null
                 end.
Proof.
  intros w req.
  assert (H : fst (MultiUtxo.createTransaction w req)
              = Success (Str "txid") (Str "raw") "100000000" "100010000"
                        Null) by (vm_compute; reflexivity).
  split; [exact H | ].
  destruct (success_reply_amounts w req _ _ _ _ _ H)
    as (b & Hb & Ht & Hc & _ & _ & _ & _ & _ & _ & Hw).
  exists b. auto.
Defined.

(** ** The address format *)

Section AddressFormat.

Local Open Scope string_scope.

Lemma class36_accepted :
  forallb (fun c => Regex.test kaspaRegex (Bench.addr c)) class36 = true.
Proof. vm_compute. reflexivity. Qed.

Lemma class36_NoDup : NoDup class36.
Proof.
  assert (E : nodup ascii_dec class36 = class36) by (vm_compute; reflexivity).
  rewrite <- E. apply NoDup_nodup.
Qed.

Lemma address_over_addr (alphabet : list ascii) (c : ascii) :
  address_over alphabet (Bench.addr c) -> In c alphabet.
Proof.
  intros (payload & E & _ & Hall).
  unfold Bench.addr in E. cbn in E. injection E as <-.
  cbn in Hall. apply andb_true_iff in Hall as [Hc _].
  apply existsb_exists in Hc as (x & Hx & Ex).
  apply Ascii.eqb_eq in Ex. subst x. exact Hx.
Qed.

(** C6, as stated, fails whatever the base-32 alphabet is: the pattern
    accepts 36 different characters after the prefix, so no alphabet of 32
    characters describes what is accepted. *)
Lemma no_alphabet_of_32_characters :
  ~ exists alphabet,
      List.length alphabet = 32%nat
      /\ forall s, Regex.test kaspaRegex s = true <-> address_over alphabet s.
Proof.
  intros (alphabet & Hlen & H).
  assert (Hincl : incl class36 alphabet).
  { intros c Hc. apply address_over_addr. apply H.
    pose proof class36_accepted as Hacc.
    rewrite forallb_forall in Hacc. apply Hacc. exact Hc. }
  pose proof (NoDup_incl_length class36_NoDup Hincl) as Hle.
  rewrite Hlen in Hle. cbn in Hle. lia.
Qed.

(** C6 (amended).  A string is accepted as an address if and only if it
    is the prefix [kaspa:] followed by 61 to 63 characters, each a
    lowercase letter [a-z] or a digit [0-9] (36 characters, the bech32
    alphabet among them); a present sender or recipient that is not
    accepted is rejected with the invalid-format reply. *)
Theorem address_format :
  (forall s,
     Regex.test kaspaRegex s = true <->
     exists payload,
       s = "kaspa:" ++ payload
       /\ (61 <= String.length payload <= 63)%nat
       /\ string_forallb lower_alnum payload = true)
  /\ (forall c,
        lower_alnum c = true <->
        (97 <= nat_of_ascii c <= 122 \/ 48 <= nat_of_ascii c <= 57)%nat)
  /\ (forall s r a f k,
        s <> "" -> r <> "" -> k <> "" ->
        Regex.test kaspaRegex s = false ->
        validate {| senderAddress := Some s; recipientAddress := Some r;
                    amount := Some a; fee := Some f; privateKey := Some k |}
        = (Reply (BadRequest "Invalid sender address format"), []))
  /\ (forall s r a f k,
        s <> "" -> r <> "" -> k <> "" ->
        Regex.test kaspaRegex s = true ->
        Regex.test kaspaRegex r = false ->
        validate {| senderAddress := Some s; recipientAddress := Some r;
                    amount := Some a; fee := Some f; privateKey := Some k |}
        = (Reply (BadRequest "Invalid recipient address format"), [])).
Proof.
  split; [exact kaspaRegex_spec | split; [exact lower_alnum_spec | ]].
  split.
  - intros s r a f k Hs Hr Hk Ht. unfold validate.
    cbn [senderAddress recipientAddress amount fee privateKey falsy
         is_undefined].
    apply String.eqb_neq in Hs, Hr, Hk. rewrite Hs, Hr, Hk, Ht. reflexivity.
  - intros s r a f k Hs Hr Hk Hts Htr. unfold validate.
    cbn [senderAddress recipientAddress amount fee privateKey falsy
         is_undefined].
    apply String.eqb_neq in Hs, Hr, Hk. rewrite Hs, Hr, Hk, Hts, Htr.
    reflexivity.
Qed.

(** An accepted address, and a sender that is too short. *)
Lemma address_format_witness :
  let short := {| senderAddress := Some "kaspa:abc"%string;
                  recipientAddress := Some Bench.bob;
                  amount := Some (decimal 1 0);
                  fee := Some lit_0;
                  privateKey := Some "11"%string |} in
  Regex.test kaspaRegex Bench.alice = true
  /\ (exists payload,
        Bench.alice = ("kaspa:" ++ payload)%string
        /\ (61 <= String.length payload <= 63)%nat
        /\ string_forallb lower_alnum payload = true)
  /\ Regex.test kaspaRegex "kaspa:abc" = false
  /\ validate short
     = (Reply (BadRequest "Invalid sender address format"), []).
Proof.
  intros short.
  destruct address_format as (Hiff & _ & Hsender & _).
  assert (Hacc : Regex.test kaspaRegex Bench.alice = true)
    by (vm_compute; reflexivity).
  assert (Hrej : Regex.test kaspaRegex "kaspa:abc" = false)
    by (vm_compute; reflexivity).
  split; [exact Hacc | split; [exact (proj1 (Hiff Bench.alice) Hacc) | ]].
  split; [exact Hrej | ].
  apply Hsender; [discriminate | discriminate | discriminate | exact Hrej].
Defined.

End AddressFormat.

(** * Claims about the single-UTXO handler *)

Lemma posted_build1 (w : World) (req : Body) (payload : Payload) :
  In payload (posted (snd (SingleUtxo.createTransaction w req))) ->
  exists b,
    is_build1 w req b
    /\ payload = s_payload b
    /\ SingleUtxo.createTransaction w req
       = (reply_after_post w (s_params b) (s_payload b)
                           (s_amountToSend b)
                           (s_amountToSend b + s_feeAmount b),
          snd (SingleUtxo.createTransaction w req)).
Proof.
  intros Hin.
  destruct (SingleUtxo.createTransaction w req) as [resp t] eqn:E.
  cbn [snd] in *.
  destruct (single_run w req resp t E) as [[Hq _] | (b & Hb & Hp & Hr)].
  - rewrite Hq in Hin. contradiction.
  - rewrite Hp in Hin. destruct Hin as [<- | []].
    exists b. split; [exact Hb | split; [reflexivity | ]].
    rewrite Hr. reflexivity.
Qed.

(** The entry the handler picks: the first one of at least 100000. *)
Lemma selectedUtxo_Some (utxos : list Utxo) (u : Utxo) :
  SingleUtxo.selectedUtxo utxos = Some u <->
  exists before after,
    utxos = before ++ u :: after
    /\ 100000 <= u_amount u
    /\ forall v, In v before -> u_amount v < 100000.
Proof.
  unfold SingleUtxo.selectedUtxo.
  induction utxos as [ | x utxos IH]; cbn [find].
  - split; [discriminate | ].
    intros (before & after & E & _). destruct before; discriminate.
  - unfold SingleUtxo.suitable at 1. rewrite geb_100000.
    destruct (Z.leb_spec 100000 (u_amount x)) as [Hx | Hx].
    + split.
      * intros [= <-]. exists [], utxos. repeat split; auto.
        intros v [].
      * intros (before & after & E & Hu & Hb).
        destruct before as [ | y before]; cbn in E; injection E as <- E.
        -- reflexivity.
        -- specialize (Hb x (or_introl eq_refl)). lia.
    + rewrite IH. split.
      * intros (before & after & -> & Hu & Hb).
        exists (x :: before), after. repeat split; auto.
        intros v [<- | Hv]; auto.
      * intros (before & after & E & Hu & Hb).
        destruct before as [ | y before]; cbn in E; injection E as <- E.
        -- lia.
        -- exists before, after. repeat split; auto.
           intros v Hv. apply Hb. right. exact Hv.
Qed.

Lemma selectedUtxo_None (utxos : list Utxo) :
  SingleUtxo.selectedUtxo utxos = None <->
  forall v, In v utxos -> u_amount v < 100000.
Proof.
  unfold SingleUtxo.selectedUtxo.
  induction utxos as [ | x utxos IH]; cbn [find].
  - split; [intros _ v [] | reflexivity].
  - unfold SingleUtxo.suitable at 1. rewrite geb_100000.
    destruct (Z.leb_spec 100000 (u_amount x)) as [Hx | Hx].
    + split; [discriminate | ].
      intros H. specialize (H x (or_introl eq_refl)). lia.
    + rewrite IH. split.
      * intros H v [<- | Hv]; auto.
      * intros H v Hv. apply H. right. exact Hv.
Qed.

Ltac leaf E :=
  cbv beta iota delta [bind reply raise call route] in E;
  let E1 := fresh "Eresp" in let E2 := fresh "Etrace" in
  injection E as E1 E2; rewrite <- E1; eauto 10.

(** The replies of the single-UTXO handler: a validation failure, a 500,
    a success, or the 400 for want of a suitable entry, which is given
    exactly when the selection found none. *)
Lemma single_reply_cases (w : World) (req : Body) (resp : response)
      (t : list event) :
  SingleUtxo.createTransaction w req = (resp, t) ->
  (exists msg, validate req = (Reply (BadRequest msg), [])
               /\ resp = BadRequest msg)
  \/ (exists e, resp = ServerError e)
  \/ (exists a b c d e, resp = Success a b c d e)
  \/ (exists p utxos,
        validate req = (Next p, [])
        /\ PrivateKey_new w (key p) = Returns tt
        /\ get_utxos w (sender p) = Returns utxos
        /\ SingleUtxo.selectedUtxo utxos = None
        /\ resp = BadRequest "No suitable UTXO available"
        /\ t = [EvPrivateKey (key p); EvGetUtxos (sender p)]).
Proof.
  unfold SingleUtxo.createTransaction, SingleUtxo.createTransaction_body.
  intros E.
  pose proof (validate_trace req) as Hvt.
  pose proof (validate_reply req) as Hvr.
  pose proof (validate_no_raise req) as Hve.
  destruct (validate req) as [[p | r | e] tv] eqn:Ev; cbn in Hvt; subst tv;
    cbn [bind] in E.
  2: { destruct (Hvr r [] eq_refl) as [msg ->]. leaf E. }
  2: { exfalso. exact (Hve e [] eq_refl). }
  clear Hvr Hve.
  destruct (PrivateKey_new w (key p)) as [[] | d] eqn:Ek;
    cbn [bind call] in E; [ | leaf E].
  destruct (get_utxos w (sender p)) as [utxos | d] eqn:Eu;
    cbn [bind call] in E; [ | leaf E].
  destruct (SingleUtxo.selectedUtxo utxos) as [selected | ] eqn:Es.
  2: { cbv beta iota delta [bind reply raise call route] in E.
       injection E as <- <-. do 3 right. exists p, utxos.
       repeat split; auto. }
  destruct (new_input_run w selected) as (_ & Hir & _).
  destruct (new_input w selected) as [[txInput | r | e] ti];
    cbn [fst snd] in Hir; cbn [bind] in E;
    [ | exfalso; exact (Hir r eq_refl) | leaf E].
  clear Hir. rewrite !BigInt_run in E.
  destruct (BigInt_of_number (Math_floor (mul (amount_ p) lit_1e8)))
    as [amountToSend | ]; cbn [bind] in E; [ | leaf E].
  destruct (BigInt_of_number (Math_floor (mul (fee_ p) lit_1e8)))
    as [feeAmount | ]; cbn [bind] in E; [ | leaf E].
  pose proof (new_output_no_reply w (recipient p)
                (Number_of_BigInt amountToSend)) as Hrr.
  destruct (new_output w (recipient p) (Number_of_BigInt amountToSend))
    as [[txOutput | r | e] tr]; cbn [fst snd] in Hrr;
    cbn [bind] in E; [ | exfalso; exact (Hrr r eq_refl) | leaf E].
  clear Hrr.
  set (change := u_amount selected - amountToSend - feeAmount) in *.
  pose proof (new_output_no_reply w (sender p) (Number_of_BigInt change))
    as Hcr.
  destruct (new_output w (sender p) (Number_of_BigInt change))
    as [[txChange | r | e] tc]; cbn [fst snd] in Hcr;
    cbn [bind] in E; [ | exfalso; exact (Hcr r eq_refl) | leaf E].
  clear Hcr. cbn [inputs version] in E.
  set (tx := {| version := 0; inputs := [txInput]; outputs := _ |}) in *.
  destruct (sign_inputs_run1 w tx (key p) [txInput] 0) as (_ & Hsr & _).
  destruct (map_indexed (SingleUtxo.sign_input w tx (key p)) [txInput] 0)
    as [[signedInputs | r | e] ts]; cbn [fst snd] in Hsr;
    cbn [bind] in E; [ | exfalso; exact (Hsr r eq_refl) | leaf E].
  set (payload := rest_json 0 signedInputs _) in *.
  destruct (broadcast_and_reply_run w p payload
              amountToSend (amountToSend + feeAmount))
    as (o & tb & Eb & _ & Hbr).
  rewrite Eb in E.
  assert (Er : forall t0, route (o, t0) = (fst (route (o, tb)), t0))
    by (intros; destruct o; reflexivity).
  rewrite Er, Hbr in E. cbn [fst] in E. injection E as <- _.
  unfold reply_after_post. destruct (post_transaction w payload); eauto 10.
Qed.

(** The messages of validation. *)
Lemma validate_messages (req : Body) (msg : string) (t : list event) :
  validate req = (Reply (BadRequest msg), t) ->
  msg <> "No suitable UTXO available"%string.
Proof.
  unfold validate.
  destruct (_ || _); [intros [= <- _]; discriminate | ].
  destruct (senderAddress req), (recipientAddress req), (amount req),
    (fee req), (privateKey req); try (intros [= <- _]; discriminate).
  repeat (match goal with |- context [if ?b then _ else _] => destruct b end);
    try (intros [= <- _]; discriminate); discriminate.
Qed.

(** C10.  The single-UTXO handler selects the first entry whose amount is
    at least 100000, a test in which the requested amount and fee take no
    part; it answers that no suitable entry is available exactly when no
    entry reaches 100000; and an entry too small for amount plus fee is
    selected all the same: with one entry of 150000 and a request for 1.0
    plus a fee of 0.0001 the run goes through to the broadcast with a
    change of -99860000, on the bench whose library checks nothing. *)
Theorem selection_ignores_the_target :
  (forall utxos u,
     SingleUtxo.selectedUtxo utxos = Some u <->
     exists before after,
       utxos = before ++ u :: after
       /\ 100000 <= u_amount u
       /\ forall v, In v before -> u_amount v < 100000)
  /\ (forall w req t,
        SingleUtxo.createTransaction w req
        = (BadRequest "No suitable UTXO available", t) ->
        exists p utxos,
          validate req = (Next p, [])
          /\ get_utxos w (sender p) = Returns utxos
          /\ forall v, In v utxos -> u_amount v < 100000)
  /\ (forall w req p utxos,
        validate req = (Next p, []) ->
        PrivateKey_new w (key p) = Returns tt ->
        get_utxos w (sender p) = Returns utxos ->
        (forall v, In v utxos -> u_amount v < 100000) ->
        SingleUtxo.createTransaction w req
        = (BadRequest "No suitable UTXO available",
           [EvPrivateKey (key p); EvGetUtxos (sender p)]))
  /\ (let w := Bench.world [Bench.utxo 0 150000] (Returns Null) in
      let req := Bench.request (decimal 1 0) (decimal 1 4) in
      let run := SingleUtxo.createTransaction w req in
      SingleUtxo.selectedUtxo [Bench.utxo 0 150000]
      = Some (Bench.utxo 0 150000)
      /\ to_sompi (decimal 1 0) = Some 100000000
      /\ to_sompi (decimal 1 4) = Some 10000
      /\ 150000 < 100000000 + 10000
      /\ map payload_amounts (posted (snd run))
         = [[Some 100000000; Some (-99860000)]]
      /\ fst run
         = Success (Str "txid") (Str "raw") "100000000" "100010000" Null).
Proof.
  split; [exact selectedUtxo_Some | split; [ | split]].
  - intros w req t E.
    destruct (single_reply_cases w req _ t E)
      as [(msg & Ev & [= <-]) | [(e & [=]) | [(a & b & c & d & e & [=])
          | (p & utxos & Ev & _ & Eu & Es & _)]]].
    + exfalso. exact (validate_messages req _ _ Ev eq_refl).
    + exists p, utxos. split; [exact Ev | split; [exact Eu | ]].
      apply selectedUtxo_None. exact Es.
  - intros w req p utxos Ev Ek Eu Hall.
    apply selectedUtxo_None in Hall.
    unfold SingleUtxo.createTransaction, SingleUtxo.createTransaction_body.
    rewrite Ev. cbn [bind]. rewrite Ek. cbn [bind call].
    rewrite Eu. cbn [bind call]. rewrite Hall. reflexivity.
  - vm_compute. repeat split; reflexivity.
Qed.

(** A ledger whose only entry is 99999. *)
Lemma selection_ignores_the_target_witness :
  let utxos := [Bench.utxo 0 99999] in
  let w := Bench.world utxos (Returns Null) in
  let req := Bench.request (decimal 1 0) lit_0 in
  (forall v, In v utxos -> u_amount v < 100000)
  /\ SingleUtxo.createTransaction w req
     = (BadRequest "No suitable UTXO available",
        [EvPrivateKey "11"; EvGetUtxos Bench.alice]).
Proof.
  intros utxos w req.
  assert (Hall : forall v, In v utxos -> u_amount v < 100000)
    by (intros v [<- | []]; cbn; lia).
  split; [exact Hall | ].
  destruct selection_ignores_the_target as (_ & _ & H & _).
  apply (H w req
           {| sender := Bench.alice; recipient := Bench.bob;
              amount_ := decimal 1 0; fee_ := lit_0; key := "11" |}
           utxos); [vm_compute; reflexivity | reflexivity | reflexivity | ].
  exact Hall.
Defined.

(** ** The construction in the single-UTXO handler *)

(** Once the recipient's output is built, the handler builds the change
    output from [Number(changeAmount)], whatever the change is; when the
    constructor throws, the run ends there with a 500. *)
Lemma single_construction (w : World) (req : Body) (p : Params)
      (utxos : list Utxo) (selected : Utxo) (a f : Z) (rs ss : string) :
  validate req = (Next p, []) ->
  PrivateKey_new w (key p) = Returns tt ->
  get_utxos w (sender p) = Returns utxos ->
  SingleUtxo.selectedUtxo utxos = Some selected ->
  Input_new w (input_of_utxo selected) = Returns tt ->
  to_sompi (amount_ p) = Some a ->
  to_sompi (fee_ p) = Some f ->
  Address_script w (recipient p) = Returns rs ->
  Output_new w {| script := rs; satoshis := Number_of_BigInt a |}
  = Returns tt ->
  Address_script w (sender p) = Returns ss ->
  let txOutput := {| script := rs; satoshis := Number_of_BigInt a |} in
  let txChange :=
    {| script := ss;
       satoshis := Number_of_BigInt (u_amount selected - a - f) |} in
  (exists t,
     snd (SingleUtxo.createTransaction w req)
     = construction_calls p selected txOutput txChange ++ t)
  /\ forall d,
       Output_new w txChange = Throws d ->
       SingleUtxo.createTransaction w req
       = (ServerError (External d),
          construction_calls p selected txOutput txChange).
Proof.
  intros Ev Ek Eu Es Ein Ea Ef Ers Eout Ess txOutput txChange.
  unfold to_sompi in Ea, Ef.
  unfold SingleUtxo.createTransaction, SingleUtxo.createTransaction_body.
  rewrite Ev. cbn [bind]. rewrite Ek. cbn [bind call].
  rewrite Eu. cbn [bind call]. rewrite Es.
  unfold new_input. rewrite Ein. cbn [bind call ret].
  rewrite !BigInt_run, Ea. cbn [bind]. rewrite Ef. cbn [bind].
  unfold new_output. rewrite Ers. cbn [bind call]. rewrite Eout.
  cbn [bind call ret]. rewrite Ess. cbn [bind call].
  fold txOutput txChange.
  destruct (Output_new w txChange) as [[] | d'] eqn:Ec.
  - split; [ | discriminate].
    cbn [bind call ret].
    match goal with
    | |- context [map_indexed ?f ?l ?i] =>
        destruct (map_indexed f l i) as [[signedInputs | r | e] ts]
    end; cbn [bind app].
    + match goal with
      | |- context [broadcast_and_reply ?w ?p ?j ?x ?y] =>
          destruct (broadcast_and_reply w p j x y) as [[v | r | e] tb]
      end; cbn [route snd app]; eexists; reflexivity.
    + cbn [route snd app]. eexists; reflexivity.
    + cbn [route snd app]. eexists; reflexivity.
  - split; [cbn; eexists; reflexivity | ].
    intros d [= <-]. reflexivity.
Qed.

(** A run that posted a payload built its input and both its outputs. *)
Lemma single_built (w : World) (req : Body) (b : Build1) :
  is_build1 w req b ->
  posted (snd (SingleUtxo.createTransaction w req)) <> [] ->
  Input_new w (input_of_utxo (s_selected b)) = Returns tt
  /\ Output_new w {| script := s_recipientScript b;
                     satoshis := Number_of_BigInt (s_amountToSend b) |}
     = Returns tt
  /\ Output_new w {| script := s_senderScript b;
                     satoshis := Number_of_BigInt (s_changeAmount b) |}
     = Returns tt.
Proof.
  intros (Ev & Ek & Eu & Es & Ea & Ef & Ers & Ess & _).
  unfold to_sompi in Ea, Ef.
  unfold SingleUtxo.createTransaction, SingleUtxo.createTransaction_body.
  rewrite Ev. cbn [bind]. rewrite Ek. cbn [bind call].
  rewrite Eu. cbn [bind call]. rewrite Es.
  unfold new_input.
  destruct (Input_new w (input_of_utxo (s_selected b))) as [[] | d] eqn:Ein;
    [ | intros H; exfalso; apply H; reflexivity].
  cbn [bind call ret].
  rewrite !BigInt_run, Ea. cbn [bind]. rewrite Ef. cbn [bind].
  unfold new_output. rewrite Ers. cbn [bind call].
  destruct (Output_new w {| script := s_recipientScript b;
                            satoshis := _ |}) as [[] | d] eqn:Eout;
    [ | intros H; exfalso; apply H; reflexivity].
  cbn [bind call ret]. rewrite Ess. cbn [bind call].
  fold (s_changeAmount b).
  destruct (Output_new w {| script := s_senderScript b;
                            satoshis := _ |}) as [[] | d] eqn:Ec;
    [ | intros H; exfalso; apply H; reflexivity].
  intros _. split; [reflexivity | split; reflexivity].
Qed.

(** With a library that checks its outputs, a negative change is never
    posted: the amounts of a posted payload are the integers of the
    build. *)
Lemma build1_amounts_exact (w : World) (req : Body) (b : Build1) :
  checks_outputs w ->
  is_build1 w req b ->
  posted (snd (SingleUtxo.createTransaction w req)) <> [] ->
  0 <= s_changeAmount b < 2 ^ 53
  /\ s_amountToSend b < 2 ^ 53
  /\ payload_amounts (s_payload b)
     = [Some (s_amountToSend b); Some (s_changeAmount b)].
Proof.
  intros Hw Hb Hposted.
  destruct (single_built w req b Hb Hposted) as (_ & Hout & Hchange).
  apply Hw in Hout. apply Hw in Hchange. cbn [satoshis] in Hout, Hchange.
  apply accepted_satoshis_exact in Hout as [[_ Ha] Ea].
  apply accepted_satoshis_exact in Hchange as [Hc Ec].
  split; [exact Hc | split; [exact Ha | ]].
  unfold payload_amounts, s_payload.
  cbn [rest_json p_outputs map po_amount payload_output].
  rewrite Ea, Ec. reflexivity.
Qed.

(** ** The change output of the single-UTXO handler *)

(** C9, as stated, fails on a negative change: with an entry of 200000
    and an amount of 1.0 the handler does hand a change of -99800000 to
    the output constructor, but the library refuses it, the run ends
    there with a 500 and no payload is posted. *)
Lemma negative_change_is_not_posted :
  let utxo := Bench.utxo 0 200000 in
  let w := Checked.world [utxo] (Returns Null) in
  let req := Bench.request (decimal 1 0) lit_0 in
  let p := {| sender := Bench.alice; recipient := Bench.bob;
              amount_ := decimal 1 0; fee_ := lit_0; key := "11" |} in
  let txOutput := {| script := "script:" ++ Bench.bob;
                     satoshis := Number_of_BigInt 100000000 |} in
  let txChange := {| script := "script:" ++ Bench.alice;
                     satoshis := Number_of_BigInt (-99800000) |} in
  SingleUtxo.selectedUtxo [utxo] = Some utxo
  /\ to_sompi (decimal 1 0) = Some 100000000
  /\ to_sompi lit_0 = Some 0
  /\ u_amount utxo - 100000000 - 0 = -99800000
  /\ accepted_satoshis (satoshis txChange) = false
  /\ SingleUtxo.createTransaction w req
     = (ServerError (External Checked.refusal),
        construction_calls p utxo txOutput txChange)
  /\ posted (snd (SingleUtxo.createTransaction w req)) = [].
Proof.
  vm_compute. repeat split; reflexivity.
Qed.

(** C9 (amended).  The single-UTXO handler makes no test on the change.
    Every payload it posts has exactly two outputs, the recipient's and
    then a change output paid to the sender's address, with the amount
    [Number(changeAmount)] for [changeAmount = utxo amount - amountToSend
    - feeAmount]; and once the recipient's output is built, the output
    constructor is called for the change whatever its value, below
    2000000, zero or negative.  When that constructor throws, the run
    ends with a 500 and posts nothing; the library throws on a negative
    amount, so a negative change is never posted: the change of a posted
    payload is an integer from 0 up, and with the amount sent and the
    fee it adds up to the selected entry. *)
Theorem change_output_unconditional :
  (forall w req payload,
     In payload (posted (snd (SingleUtxo.createTransaction w req))) ->
     exists b,
       is_build1 w req b
       /\ payload = s_payload b
       /\ senderAddress req = Some (sender (s_params b))
       /\ Address_script w (sender (s_params b))
          = Returns (s_senderScript b)
       /\ s_changeAmount b
          = u_amount (s_selected b) - s_amountToSend b - s_feeAmount b
       /\ p_outputs payload
          = [ payload_output (Number_of_BigInt (s_amountToSend b))
                             (s_recipientScript b);
              payload_output (Number_of_BigInt (s_changeAmount b))
                             (s_senderScript b) ]
       /\ List.length (p_outputs payload) = 2%nat
       /\ (checks_outputs w ->
           0 <= s_changeAmount b
           /\ payload_amounts payload
              = [Some (s_amountToSend b); Some (s_changeAmount b)]
           /\ s_amountToSend b + s_changeAmount b + s_feeAmount b
              = u_amount (s_selected b)))
  /\ (forall w req p utxos selected a f rs ss,
        validate req = (Next p, []) ->
        PrivateKey_new w (key p) = Returns tt ->
        get_utxos w (sender p) = Returns utxos ->
        SingleUtxo.selectedUtxo utxos = Some selected ->
        Input_new w (input_of_utxo selected) = Returns tt ->
        to_sompi (amount_ p) = Some a ->
        to_sompi (fee_ p) = Some f ->
        Address_script w (recipient p) = Returns rs ->
        Output_new w {| script := rs; satoshis := Number_of_BigInt a |}
        = Returns tt ->
        Address_script w (sender p) = Returns ss ->
        let run := SingleUtxo.createTransaction w req in
        let txOutput := {| script := rs; satoshis := Number_of_BigInt a |} in
        let txChange :=
          {| script := ss;
             satoshis := Number_of_BigInt (u_amount selected - a - f) |} in
        In (EvOutput txChange) (snd run)
        /\ (forall d,
              Output_new w txChange = Throws d ->
              run = (ServerError (External d),
                     construction_calls p selected txOutput txChange)
              /\ posted (snd run) = [])
        /\ (checks_outputs w ->
            u_amount selected - a - f < 0 ->
            exists d,
              Output_new w txChange = Throws d
              /\ run = (ServerError (External d),
                        construction_calls p selected txOutput txChange)
              /\ posted (snd run) = [])).
Proof.
  split.
  - intros w req payload Hin.
    destruct (posted_build1 w req payload Hin) as (b & Hb & -> & _).
    pose proof Hb as (Ev & _ & _ & _ & _ & _ & _ & Ess & _).
    destruct (validate_ok_inv req _ _ Ev) as (Es & _).
    exists b.
    split; [exact Hb | split; [reflexivity | split; [exact Es | ]]].
    split; [exact Ess | split; [reflexivity | split; [reflexivity | ]]].
    split; [reflexivity | ].
    intros Hw.
    assert (Hposted : posted (snd (SingleUtxo.createTransaction w req))
                      <> [])
      by (intros E; rewrite E in Hin; contradiction).
    destruct (build1_amounts_exact w req b Hw Hb Hposted)
      as ([Hc _] & _ & Hpa).
    split; [exact Hc | split; [exact Hpa | ]].
    unfold s_changeAmount. ring.
  - intros w req p utxos selected a f rs ss
           Ev Ek Eu Es Ein Ea Ef Ers Eout Ess run txOutput txChange.
    destruct (single_construction w req p utxos selected a f rs ss
                Ev Ek Eu Es Ein Ea Ef Ers Eout Ess) as [[t Ht] Hthrow].
    fold run txOutput txChange in Ht, Hthrow.
    assert (Hend : forall d,
               Output_new w txChange = Throws d ->
               run = (ServerError (External d),
                      construction_calls p selected txOutput txChange)
               /\ posted (snd run) = []).
    { intros d Hd. specialize (Hthrow d Hd).
      split; [exact Hthrow | ]. rewrite Hthrow. reflexivity. }
    split; [ | split; [exact Hend | ]].
    + rewrite Ht. apply in_or_app. left.
      unfold construction_calls. do 6 right. left. reflexivity.
    + intros Hw Hneg.
      pose proof (negative_not_accepted _ Hneg) as Hno.
      destruct (Output_new w txChange) as [[] | d] eqn:Ec.
      * apply Hw in Ec. cbn [satoshis txChange] in Ec.
        rewrite Hno in Ec. discriminate.
      * exists d. split; [reflexivity | ]. apply Hend. reflexivity.
Qed.

(** Against the library that checks.  An entry of 100000100 for an amount
    of 1.0: the change of 100, below the minimum of the other handler, is
    the second output of the payload.  An entry of 200000 for the same
    amount: the change is negative, the constructor throws and nothing is
    posted. *)
Lemma change_output_unconditional_witness :
  (let w := Checked.world [Bench.utxo 0 100000100] (Returns Null) in
   let req := Bench.request (decimal 1 0) lit_0 in
   checks_outputs w
   /\ exists payload,
        In payload (posted (snd (SingleUtxo.createTransaction w req)))
        /\ payload_amounts payload = [Some 100000000; Some 100]
        /\ exists b,
             is_build1 w req b
             /\ payload = s_payload b
             /\ List.length (p_outputs payload) = 2%nat
             /\ 0 <= s_changeAmount b
             /\ payload_amounts payload
                = [Some (s_amountToSend b); Some (s_changeAmount b)])
  /\ (let utxo := Bench.utxo 0 200000 in
      let w := Checked.world [utxo] (Returns Null) in
      let req := Bench.request (decimal 1 0) lit_0 in
      let txChange := {| script := "script:" ++ Bench.alice;
                         satoshis := Number_of_BigInt (-99800000) |} in
      checks_outputs w
      /\ u_amount utxo - 100000000 - 0 < 0
      /\ In (EvOutput txChange) (snd (SingleUtxo.createTransaction w req))
      /\ posted (snd (SingleUtxo.createTransaction w req)) = []
      /\ exists d,
           fst (SingleUtxo.createTransaction w req)
           = ServerError (External d)).
Proof.
  split.
  - intros w req.
    assert (Hw : checks_outputs w) by apply checked_world_checks.
    split; [exact Hw | ].
    assert (H : exists payload,
               posted (snd (SingleUtxo.createTransaction w req)) = [payload]
               /\ payload_amounts payload = [Some 100000000; Some 100])
      by (vm_compute; eexists; split; reflexivity).
    destruct H as (payload & H & Hout). exists payload.
    assert (Hin : In payload
                     (posted (snd (SingleUtxo.createTransaction w req))))
      by (rewrite H; left; reflexivity).
    split; [exact Hin | split; [exact Hout | ]].
    destruct (proj1 change_output_unconditional w req payload Hin)
      as (b & Hb & Hp & _ & _ & _ & _ & Hlen & Hexact).
    destruct (Hexact Hw) as (Hc & Hpa & _).
    exists b.
    split; [exact Hb | split; [exact Hp | split; [exact Hlen | ]]].
    split; [exact Hc | exact Hpa].
  - intros utxo w req txChange.
    assert (Hw : checks_outputs w) by apply checked_world_checks.
    assert (Hneg : u_amount utxo - 100000000 - 0 < 0) by reflexivity.
    split; [exact Hw | split; [exact Hneg | ]].
    destruct (proj2 change_output_unconditional w req
                {| sender := Bench.alice; recipient := Bench.bob;
                   amount_ := decimal 1 0; fee_ := lit_0; key := "11" |}
                [utxo] utxo 100000000 0
                ("script:" ++ Bench.bob)%string
                ("script:" ++ Bench.alice)%string)
      as (Hcall & _ & Hrefused);
      [vm_compute; reflexivity | reflexivity | reflexivity
       | vm_compute; reflexivity | vm_compute; reflexivity
       | vm_compute; reflexivity | vm_compute; reflexivity
       | reflexivity | vm_compute; reflexivity | reflexivity | ].
    destruct (Hrefused Hw Hneg) as (d & _ & Hrun & Hposted).
    split; [exact Hcall | split; [exact Hposted | ]].
    exists d. rewrite Hrun. reflexivity.
Defined.

(** A change of exactly 0 is an output like any other. *)
Example scenario_change_of_zero :
  map payload_amounts
      (posted (snd (SingleUtxo.createTransaction
                      (Checked.world [Bench.utxo 0 100000000]
                                     (Returns Null))
                      (Bench.request (decimal 1 0) lit_0))))
  = [[Some 100000000; Some 0]].
Proof. vm_compute. reflexivity. Qed.

(** * The unsigned variant *)

(** The validation of the unsigned variant, read against the one of the
    signing handlers. *)
Lemma unsigned_validate_spec (req : Body) :
  match Unsigned.validate req with
  | inl error => validate req = (Reply (BadRequest error), [])
  | inr p => validate req = (Next p, [])
  end.
Proof.
  unfold Unsigned.validate, validate.
  destruct (_ || _); [reflexivity | ].
  destruct (senderAddress req), (recipientAddress req), (amount req),
    (fee req), (privateKey req); try reflexivity.
  repeat (match goal with |- context [if ?b then _ else _] => destruct b end);
    reflexivity.
Qed.

(** [reduce] from the left and the sum of the entries. *)
Lemma totalInputAmount_sum (utxos : list Utxo) :
  Unsigned.totalInputAmount (map Unsigned.input_of utxos) = sum_utxos utxos.
Proof.
  unfold Unsigned.totalInputAmount.
  assert (H : forall acc,
             fold_left (fun sum utxo => sum + Unsigned.in_amount utxo)
                       (map Unsigned.input_of utxos) acc
             = acc + sum_utxos utxos).
  { induction utxos as [ | u utxos IH]; intros acc; cbn [map fold_left].
    - cbn. lia.
    - rewrite IH, sum_utxos_cons. cbn. lia. }
  rewrite H. lia.
Qed.

(** The amounts of a request that passed validation convert to integers
    that are not negative. *)
Lemma validated_amounts_nonneg (req : Body) (p : Params) (a f : Z) :
  validate req = (Next p, []) ->
  to_sompi (amount_ p) = Some a ->
  to_sompi (fee_ p) = Some f ->
  0 <= a /\ 0 <= f.
Proof.
  intros Ev Ea Ef.
  destruct (validate_ok_inv req _ _ Ev)
    as (_ & _ & _ & _ & _ & _ & _ & _ & _ & _ & _ & L1 & L2).
  unfold to_sompi in *. split.
  - apply (BigInt_of_nonneg _ _ (Math_floor_nonneg _
             (mul_1e8_nonneg_of_not_le _ L1)) Ea).
  - apply (BigInt_of_nonneg _ _ (Math_floor_nonneg _
             (mul_1e8_nonneg_of_not_lt _ L2)) Ef).
Qed.

(** What a run of the unsigned variant goes through once the request
    passed validation. *)
Lemma unsigned_run (w : World) (req : Body) (p : Params) :
  Unsigned.validate req = inr p ->
  Unsigned.createTransaction w req
  = let fetch := EvGetUtxos (sender p) in
    match get_utxos w (sender p) with
    | Throws _ =>
        (Unsigned.Status400
           "Invalid sender address or unable to fetch UTXOs", [fetch])
    | Returns [] =>
        (Unsigned.Status400 "No UTXOs available for the sender address",
         [fetch])
    | Returns utxos =>
        match to_sompi (amount_ p), to_sompi (fee_ p) with
        | Some a, Some f =>
            if sum_utxos utxos <? a + f
            then (Unsigned.Status400 "Insufficient funds", [fetch])
            else
              (Unsigned.Status200
                 (Unsigned.replaced
                    {| Unsigned.tx_inputs := map Unsigned.input_of utxos;
                       Unsigned.tx_outputs :=
                         [ {| Unsigned.out_recipient := recipient p;
                              Unsigned.out_amount := a |};
                           {| Unsigned.out_recipient := sender p;
                              Unsigned.out_amount :=
                                sum_utxos utxos - a - f |} ] |})
                 (BigInt_toString a) (BigInt_toString (a + f))
                 match get_balance w (sender p) with
                 | Returns v => v
                 | Throws _ => Null
                 end,
               [fetch; EvGetBalance (sender p)])
        | _, _ => (Unsigned.Status500, [fetch])
        end
    end.
Proof.
  intros Ev. unfold Unsigned.createTransaction. rewrite Ev. cbv zeta.
  destruct (get_utxos w (sender p)) as [[ | u utxos] | d]; try reflexivity.
  rewrite totalInputAmount_sum.
  destruct (to_sompi (amount_ p)) as [a | ]; [ | reflexivity].
  destruct (to_sompi (fee_ p)) as [f | ]; [ | reflexivity].
  replace (sum_utxos (u :: utxos) - a - f <? 0)
    with (sum_utxos (u :: utxos) <? a + f); [reflexivity | ].
  destruct (Z.ltb_spec (sum_utxos (u :: utxos)) (a + f)),
    (Z.ltb_spec (sum_utxos (u :: utxos) - a - f) 0); lia || reflexivity.
Qed.

(** * Properties of the unsigned variant *)

(** X1.  The three variants reject the same requests in validation, with the
    same message and before any call: a reply 400 [error] with an empty
    trace is given by one of them exactly when it is given by the
    others. *)
Theorem variants_share_validation (w : World) (req : Body)
        (error : string) :
  (Unsigned.createTransaction w req = (Unsigned.Status400 error, [])
   <-> MultiUtxo.createTransaction w req = (BadRequest error, []))
  /\ (Unsigned.createTransaction w req = (Unsigned.Status400 error, [])
      <-> SingleUtxo.createTransaction w req = (BadRequest error, [])).
Proof.
  pose proof (unsigned_validate_spec req) as Hv.
  pose proof (unsigned_run w req) as Hu.
  unfold MultiUtxo.createTransaction, MultiUtxo.createTransaction_body,
    SingleUtxo.createTransaction, SingleUtxo.createTransaction_body.
  destruct (Unsigned.validate req) as [msg | p] eqn:Ev.
  - rewrite Hv. cbn [bind route reply].
    unfold Unsigned.createTransaction. rewrite Ev.
    split; split; intros [= <-]; reflexivity.
  - rewrite (Hu p eq_refl), Hv. cbn [bind]. clear Hu Hv. cbv zeta.
    split; split; intros H; exfalso.
    + destruct (get_utxos w (sender p)) as [[ | u l] | d];
        try discriminate.
      destruct (to_sompi (amount_ p)), (to_sompi (fee_ p));
        try discriminate.
      destruct (_ <? _); discriminate.
    + rewrite !BigInt_run in H. fold (to_sompi (amount_ p)) in H.
      fold (to_sompi (fee_ p)) in H.
      destruct (to_sompi (amount_ p)); cbn [bind] in H; [ | discriminate].
      destruct (to_sompi (fee_ p)); cbn [bind] in H; [ | discriminate].
      destruct (PrivateKey_new w (key p)) as [[] | d];
        cbn [bind call] in H; [ | discriminate].
      destruct (bind _ _) as [o t] in H. destruct o; discriminate.
    + destruct (get_utxos w (sender p)) as [[ | u l] | d];
        try discriminate.
      destruct (to_sompi (amount_ p)), (to_sompi (fee_ p));
        try discriminate.
      destruct (_ <? _); discriminate.
    + destruct (PrivateKey_new w (key p)) as [[] | d];
        cbn [bind call] in H; [ | discriminate].
      destruct (bind _ _) as [o t] in H. destruct o; discriminate.
Qed.

(** X2.  The unsigned variant never handles the key: the reply and the calls
    are the same whatever the (non-empty) key of the request is; they
    depend on the world only through the UTXO fetch and the balance
    lookup; and every call made is one of these two, for the sender of the
    request. *)
Theorem unsigned_ignores_the_key :
  (forall w s r a f k k',
     k <> ""%string -> k' <> ""%string ->
     Unsigned.createTransaction w
       {| senderAddress := s; recipientAddress := r; amount := a;
          fee := f; privateKey := Some k |}
     = Unsigned.createTransaction w
         {| senderAddress := s; recipientAddress := r; amount := a;
            fee := f; privateKey := Some k' |})
  /\ (forall w w' req,
        (forall a, get_utxos w' a = get_utxos w a) ->
        (forall a, get_balance w' a = get_balance w a) ->
        Unsigned.createTransaction w' req
        = Unsigned.createTransaction w req)
  /\ (forall w req,
        snd (Unsigned.createTransaction w req) = []
        \/ exists s,
             senderAddress req = Some s
             /\ (snd (Unsigned.createTransaction w req) = [EvGetUtxos s]
                 \/ snd (Unsigned.createTransaction w req)
                    = [EvGetUtxos s; EvGetBalance s])).
Proof.
  split; [ | split].
  - intros w s r a f k k' Hk Hk'.
    apply String.eqb_neq in Hk, Hk'.
    unfold Unsigned.createTransaction, Unsigned.validate.
    cbn [senderAddress recipientAddress amount fee privateKey falsy].
    rewrite Hk, Hk'.
    destruct (_ || _); [reflexivity | ].
    destruct s as [s | ], r as [r | ], a as [a | ], f as [f | ];
      try reflexivity.
    repeat (match goal with
            | |- context [if ?b then _ else _] => destruct b
            end; try reflexivity).
  - intros w w' req Hu Hb.
    unfold Unsigned.createTransaction.
    destruct (Unsigned.validate req) as [msg | p]; [reflexivity | ].
    cbv zeta. rewrite Hu, Hb. reflexivity.
  - intros w req.
    pose proof (unsigned_validate_spec req) as Hv.
    pose proof (unsigned_run w req) as Hr.
    destruct (Unsigned.validate req) as [msg | p] eqn:Ev.
    + left. unfold Unsigned.createTransaction. rewrite Ev. reflexivity.
    + right. exists (sender p).
      destruct (validate_ok_inv req p [] Hv) as (Es & _).
      split; [exact Es | ].
      rewrite (Hr p eq_refl). cbv zeta.
      destruct (get_utxos w (sender p)) as [[ | u l] | d]; auto.
      destruct (to_sompi (amount_ p)), (to_sompi (fee_ p)); auto.
      destruct (_ <? _); auto.
Qed.

(** Two keys, and two worlds that differ in everything but the ledger:
    the same reply. *)
Lemma unsigned_ignores_the_key_witness :
  let w := Bench.world [Bench.utxo 0 150000000] (Returns Null) in
  let w' := {| PrivateKey_new := fun _ => Throws "bad key";
               get_utxos := get_utxos w;
               Input_new := fun _ => Throws "no library";
               Address_script := fun _ => Throws "no library";
               Output_new := fun _ => Throws "no library";
               getSignatures := fun _ _ _ _ => Throws "no library";
               prevTxId_hex := fun id => id;
               post_transaction := fun _ => Throws "offline";
               get_balance := get_balance w |} in
  let req k := {| senderAddress := Some Bench.alice;
                  recipientAddress := Some Bench.bob;
                  amount := Some (decimal 1 0);
                  fee := Some (decimal 1 4);
                  privateKey := Some k |} in
  Unsigned.createTransaction w (req "11"%string)
  = Unsigned.createTransaction w (req "not a key"%string)
  /\ Unsigned.createTransaction w' (req "11"%string)
     = Unsigned.createTransaction w (req "11"%string).
Proof.
  intros w w' req.
  destruct unsigned_ignores_the_key as (Hkey & Hworld & _).
  split.
  - apply Hkey; discriminate.
  - apply Hworld; reflexivity.
Defined.

(** X3.  The books of the unsigned variant balance exactly, whatever the size
    of the amounts: a success reply carries every entry of the ledger's
    answer as an input, in order and with its amount as a decimal string,
    and two outputs, the amount for the recipient and the change for the
    sender, whose decimal strings read back as integers that, with the
    fee, add up to the sum of all entries; none of them is negative. *)
Theorem unsigned_conservation (w : World) (req : Body)
        (unsignedTx : Unsigned.Tx string)
        (transferredAmount chargedAmount : string) (walletBalance : value) :
  fst (Unsigned.createTransaction w req)
  = Unsigned.Status200 unsignedTx transferredAmount chargedAmount
                       walletBalance ->
  exists p utxos a f change,
    validate req = (Next p, [])
    /\ get_utxos w (sender p) = Returns utxos
    /\ to_sompi (amount_ p) = Some a
    /\ to_sompi (fee_ p) = Some f
    /\ 0 <= a /\ 0 <= f /\ 0 <= change
    /\ a + change + f = sum_utxos utxos
    /\ map Unsigned.in_amount (Unsigned.tx_inputs unsignedTx)
       = map (fun u => BigInt_toString (u_amount u)) utxos
    /\ map (fun i => (Unsigned.in_transactionId i, Unsigned.in_outputIndex i))
           (Unsigned.tx_inputs unsignedTx)
       = map (fun u => (u_transactionId u, u_index u)) utxos
    /\ Unsigned.tx_outputs unsignedTx
       = [ {| Unsigned.out_recipient := recipient p;
              Unsigned.out_amount := BigInt_toString a |};
           {| Unsigned.out_recipient := sender p;
              Unsigned.out_amount := BigInt_toString change |} ]
    /\ option_map Z.of_int (NilZero.int_of_string (BigInt_toString a))
       = Some a
    /\ option_map Z.of_int (NilZero.int_of_string (BigInt_toString change))
       = Some change
    /\ transferredAmount = BigInt_toString a
    /\ chargedAmount = BigInt_toString (a + f).
Proof.
  intros H.
  pose proof (unsigned_validate_spec req) as Hv.
  pose proof (unsigned_run w req) as Hr.
  destruct (Unsigned.validate req) as [msg | p] eqn:Ev.
  - unfold Unsigned.createTransaction in H. rewrite Ev in H. discriminate.
  - rewrite (Hr p eq_refl) in H. cbv zeta in H. clear Hr.
    destruct (get_utxos w (sender p)) as [utxos | d] eqn:Eu;
      [ | discriminate].
    destruct utxos as [ | u0 l]; [discriminate | ].
    set (utxos := u0 :: l) in *.
    destruct (to_sompi (amount_ p)) as [a | ] eqn:Ea; [ | discriminate].
    destruct (to_sompi (fee_ p)) as [f | ] eqn:Ef; [ | discriminate].
    destruct (Z.ltb_spec (sum_utxos utxos) (a + f)) as [Hlt | Hge];
      [discriminate | ].
    cbn [fst] in H. injection H as <- <- <- _.
    destruct (validated_amounts_nonneg req p a f Hv Ea Ef) as [Ha Hf].
    exists p, utxos, a, f, (sum_utxos utxos - a - f).
    destruct (BigInt_toString_decimal a Ha) as (_ & _ & Ra).
    destruct (BigInt_toString_decimal (sum_utxos utxos - a - f)
                ltac:(lia)) as (_ & _ & Rc).
    cbn [Unsigned.replaced Unsigned.tx_inputs Unsigned.tx_outputs map
         Unsigned.out_recipient Unsigned.out_amount].
    rewrite !map_map.
    split; [exact Hv | split; [exact Eu | split; [exact Ea | ]]].
    split; [exact Ef | split; [exact Ha | split; [exact Hf | ]]].
    split; [lia | split; [lia | ]].
    split; [reflexivity | split; [reflexivity | split; [reflexivity | ]]].
    split; [exact Ra | split; [exact Rc | split; reflexivity]].
Qed.

(** Entries of 99999999 and 2^53 + 2, an amount of 1.0 and no fee: the
    change 2^53 + 1 is carried exactly. *)
Lemma unsigned_conservation_witness :
  let utxos := [Bench.utxo 0 99999999; Bench.utxo 1 (2 ^ 53 + 2)] in
  let w := Bench.world utxos (Returns Null) in
  let req := Bench.request (decimal 1 0) lit_0 in
  exists unsignedTx b,
    fst (Unsigned.createTransaction w req)
    = Unsigned.Status200 unsignedTx "100000000" "100000000" b
    /\ map Unsigned.out_amount (Unsigned.tx_outputs unsignedTx)
       = ["100000000"; "9007199254740993"]%string
    /\ exists p utxos' a f change,
         validate req = (Next p, [])
         /\ get_utxos w (sender p) = Returns utxos'
         /\ a + change + f = sum_utxos utxos'.
Proof.
  intros utxos w req.
  assert (H : exists unsignedTx b,
             fst (Unsigned.createTransaction w req)
             = Unsigned.Status200 unsignedTx "100000000" "100000000" b
             /\ map Unsigned.out_amount (Unsigned.tx_outputs unsignedTx)
                = ["100000000"; "9007199254740993"]%string)
    by (vm_compute; eexists _, _; split; reflexivity).
  destruct H as (unsignedTx & b & H & Hout).
  exists unsignedTx, b. split; [exact H | split; [exact Hout | ]].
  destruct (unsigned_conservation w req _ _ _ _ H)
    as (p & utxos' & a & f & change & Hv & Hu & _ & _ & _ & _ & _ & Hsum & _).
  exists p, utxos', a, f, change. auto.
Defined.

(** * The calls of a run, in order *)

Lemma new_inputs_calls (w : World) (l : list Utxo) (i : nat) :
  match map_indexed (fun u _ => new_input w u) l i with
  | (Next ys, t) => t = map EvInput (map input_of_utxo l)
  | (Reply _, _) => True
  | (Raise e, _) => exists d, e = External d
  end.
Proof.
  revert i. induction l as [ | u l IH]; intros i; [reflexivity | ].
  cbn [map_indexed map]. unfold new_input at 1.
  destruct (Input_new w (input_of_utxo u)) as [[] | d]; cbn; [ | eauto].
  specialize (IH (S i)).
  destruct (map_indexed _ l (S i)) as [[ys | r | e] t]; cbn; auto.
  rewrite app_nil_r. f_equal. exact IH.
Qed.

Lemma sign_inputs_calls (w : World) (tx : Transaction) (sk : string)
      (l : list Input) (i : nat) :
  match map_indexed (MultiUtxo.sign_input w tx sk) l i with
  | (Next ys, t) => t = map EvSign (seq i (List.length l))
  | (Reply _, _) => True
  | (Raise e, _) => exists d, e = External d
  end.
Proof.
  revert i. induction l as [ | input l IH]; intros i; [reflexivity | ].
  cbn [map_indexed List.length seq map]. unfold MultiUtxo.sign_input at 1.
  destruct (getSignatures w tx sk input i) as [sig | d]; cbn; [ | eauto].
  specialize (IH (S i)).
  destruct (map_indexed _ l (S i)) as [[ys | r | e] t]; cbn; auto.
  rewrite app_nil_r. f_equal. exact IH.
Qed.

Lemma new_output_calls (w : World) (a : string) (sat : number) :
  match new_output w a sat with
  | (Next o, t) => t = [EvAddressScript a; EvOutput o]
  | (Reply _, _) => True
  | (Raise e, _) => exists d, e = External d
  end.
Proof.
  unfold new_output.
  destruct (Address_script w a) as [s | d]; cbn; [ | eauto].
  destruct (Output_new w _) as [[] | d]; cbn; eauto.
Qed.

Lemma add_outputs_calls (w : World) (p : Params) (a c : Z) :
  match MultiUtxo.add_outputs w p a c with
  | (Next outs, t) => t = output_calls [recipient p; sender p] outs
  | (Reply _, _) => True
  | (Raise e, _) => exists d, e = External d
  end.
Proof.
  unfold MultiUtxo.add_outputs. rewrite minimum_change.
  pose proof (new_output_calls w (recipient p) (Number_of_BigInt a)) as H1.
  pose proof (new_output_calls w (sender p) (Number_of_BigInt c)) as H2.
  destruct (new_output w (recipient p) _) as [[o | r | e] t]; cbn; auto.
  subst t.
  destruct (2000000 <=? c); cbn; [ | reflexivity].
  destruct (new_output w (sender p) _) as [[o' | r | e] t']; cbn; auto.
  subst t'. reflexivity.
Qed.

Ltac failed_call E :=
  cbv beta iota delta [bind reply raise call route] in E;
  injection E as <- <-;
  left; eexists _, _;
  split; [reflexivity | split; [ | cbn [app]; discriminate]];
  cbn [posted app]; rewrite ?posted_app; cbn [posted app];
  repeat match goal with H : posted _ = [] |- _ => rewrite H end;
  reflexivity.

(** Every run of the multi-UTXO handler, by the step at which it
    ends. *)
Lemma multi_cases (w : World) (req : Body) :
  (exists msg,
     validate req = (Reply (BadRequest msg), [])
     /\ MultiUtxo.createTransaction w req = (BadRequest msg, []))
  \/ exists p,
       validate req = (Next p, [])
       /\ (((to_sompi (amount_ p) = None \/ to_sompi (fee_ p) = None)
            /\ MultiUtxo.createTransaction w req
               = (ServerError RangeError, []))
           \/ exists a f,
                to_sompi (amount_ p) = Some a
                /\ to_sompi (fee_ p) = Some f
                /\ ((exists d t,
                       MultiUtxo.createTransaction w req
                       = (ServerError (External d), t)
                       /\ posted t = [] /\ t <> [])
                    \/ (exists utxos,
                          PrivateKey_new w (key p) = Returns tt
                          /\ get_utxos w (sender p) = Returns utxos
                          /\ snd (MultiUtxo.select utxos (a + f)) < a + f
                          /\ MultiUtxo.createTransaction w req
                             = (BadRequest
                                  "Insufficient UTXOs for requested amount",
                                [EvPrivateKey (key p);
                                 EvGetUtxos (sender p)]))
                    \/ (exists b,
                          is_build w req b
                          /\ b_params b = p
                          /\ b_amountToSend b = a
                          /\ b_feeAmount b = f
                          /\ MultiUtxo.createTransaction w req
                             = (reply_after_post w p (b_payload b)
                                                 a (a + f),
                                build_calls b
                                ++ match post_transaction w (b_payload b)
                                   with
                                   | Returns _ => [EvGetBalance (sender p)]
                                   | Throws _ => []
                                   end)))).
Proof.
  destruct (MultiUtxo.createTransaction w req) as [resp t] eqn:E.
  unfold MultiUtxo.createTransaction, MultiUtxo.createTransaction_body in E.
  pose proof (validate_trace req) as Hvt.
  pose proof (validate_reply req) as Hvr.
  pose proof (validate_no_raise req) as Hve.
  destruct (validate req) as [[p | r | e] tv] eqn:Ev; cbn in Hvt; subst tv;
    cbn [bind] in E.
  2: { destruct (Hvr r [] eq_refl) as [msg ->]. left. exists msg.
       cbn in E. injection E as <- <-. split; reflexivity. }
  2: { exfalso. exact (Hve e [] eq_refl). }
  clear Hvr Hve. right. exists p. split; [reflexivity | ].
  rewrite !BigInt_run in E. unfold to_sompi.
  destruct (BigInt_of_number (Math_floor (mul (amount_ p) lit_1e8)))
    as [a | ] eqn:Ea; cbn [bind] in E.
  2: { left. cbn in E. injection E as <- <-. split; auto. }
  destruct (BigInt_of_number (Math_floor (mul (fee_ p) lit_1e8)))
    as [f | ] eqn:Ef; cbn [bind] in E.
  2: { left. cbn in E. injection E as <- <-. split; auto. }
  right. exists a, f. split; [reflexivity | split; [reflexivity | ]].
  destruct (PrivateKey_new w (key p)) as [[] | d] eqn:Ek;
    cbn [bind call] in E; [ | failed_call E].
  destruct (get_utxos w (sender p)) as [utxos | d] eqn:Eu;
    cbn [bind call] in E; [ | failed_call E].
  destruct (MultiUtxo.select utxos (a + f)) as [ins inputSum] eqn:Es.
  destruct (inputSum <? a + f) eqn:Hge.
  { right. left. exists utxos. apply Z.ltb_lt in Hge.
    cbv beta iota delta [bind reply raise call route] in E.
    injection E as <- <-. rewrite Es. repeat split; auto. }
  apply Z.ltb_ge in Hge.
  destruct (new_inputs_run w ins 0) as (Hip & Hir & Hiy).
  pose proof (new_inputs_calls w ins 0) as Hic.
  destruct (map_indexed (fun u _ => new_input w u) ins 0)
    as [[txInputs | r | e] ti]; cbn [fst snd] in Hip, Hir, Hiy;
    cbn [bind] in E;
    [ | exfalso; exact (Hir r eq_refl)
      | destruct Hic as [d ->]; failed_call E].
  specialize (Hiy txInputs eq_refl). subst txInputs. clear Hir.
  pose proof (add_outputs_posted w p a (inputSum - (a + f))) as Hop.
  pose proof (add_outputs_no_reply w p a (inputSum - (a + f))) as Hor.
  pose proof (add_outputs_calls w p a (inputSum - (a + f))) as Hoc.
  destruct (MultiUtxo.add_outputs w p a (inputSum - (a + f)))
    as [[txOutputs | r | e] to] eqn:Eo; cbn [fst snd] in Hop, Hor;
    cbn [bind] in E;
    [ | exfalso; exact (Hor r eq_refl)
      | destruct Hoc as [d ->]; failed_call E].
  clear Hor.
  set (tx := {| version := 0; inputs := map input_of_utxo ins;
                outputs := txOutputs |}) in *.
  destruct (sign_inputs_run w tx (key p) (map input_of_utxo ins) 0)
    as (Hsp & Hsr & Hsy).
  pose proof (sign_inputs_calls w tx (key p) (map input_of_utxo ins) 0)
    as Hsc.
  destruct (map_indexed (MultiUtxo.sign_input w tx (key p))
                        (map input_of_utxo ins) 0)
    as [[signedInputs | r | e] ts]; cbn [fst snd] in Hsp, Hsr, Hsy;
    cbn [bind] in E;
    [ | exfalso; exact (Hsr r eq_refl)
      | destruct Hsc as [d ->]; failed_call E].
  specialize (Hsy signedInputs eq_refl). clear Hsr.
  right. right.
  exists {| b_params := p; b_amountToSend := a;
            b_feeAmount := f; b_utxos := utxos; b_inputs := ins;
            b_inputSum := inputSum; b_outputs := txOutputs;
            b_signedInputs := signedInputs |}.
  split; [ | split; [reflexivity | split; [reflexivity | ]]].
  - unfold is_build, to_sompi, b_changeAmount, b_totalNeeded, b_tx;
      cbn [b_params b_amountToSend b_feeAmount b_utxos b_inputs b_inputSum
           b_outputs b_signedInputs].
    rewrite Eo. repeat split; auto.
  - split; [reflexivity | ].
    unfold build_calls, b_payload, b_tx;
      cbn [b_params b_amountToSend b_feeAmount b_utxos b_inputs b_inputSum
           b_outputs b_signedInputs inputs].
    fold tx. subst ti to ts.
    unfold broadcast_and_reply, reply_after_post in *.
    destruct (post_transaction w (MultiUtxo.payload_of tx signedInputs))
      as [txr | d]; cbn [bind call call_or] in E.
    + destruct (get_balance w (sender p)) as [v | d];
        cbv beta iota delta [bind reply raise call call_or route] in E;
        injection E as <- <-; f_equal;
        cbn [app]; rewrite <- ?app_assoc; reflexivity.
    + cbv beta iota delta [bind reply raise call call_or route] in E.
      injection E as <- <-. f_equal.
      cbn [app]. rewrite <- ?app_assoc, ?app_nil_r. reflexivity.
Qed.

(** * Amounts that do not convert *)

(** The conversion [BigInt(Math.floor(x * 1e8))] throws exactly when the
    product is not finite. *)
Lemma to_sompi_None (x : number) :
  to_sompi x = None <-> isFinite (mul x lit_1e8) = false.
Proof.
  rewrite to_sompi_floor.
  destruct (mul x lit_1e8); cbn; split; congruence.
Qed.

(** X4.  An amount or a fee whose product with 1e8 is not finite (an amount
    of 1e301, or the infinity that JSON text such as 1e999 parses to)
    passes validation, and the multi-UTXO handler answers it with the 500
    of a RangeError before calling anything; it gives no other RangeError:
    when one is reported, nothing was called and one of the two products
    is not finite. *)
Theorem range_error_before_any_call (w : World) (req : Body) (p : Params)
        (t : list event) :
  validate req = (Next p, []) ->
  MultiUtxo.createTransaction w req = (ServerError RangeError, t)
  <-> t = []
      /\ (isFinite (mul (amount_ p) lit_1e8) = false
          \/ isFinite (mul (fee_ p) lit_1e8) = false).
Proof.
  intros Ev. rewrite <- !to_sompi_None.
  destruct (multi_cases w req)
    as [(msg & Ev' & _) | (p' & Ev' & H)]; [congruence | ].
  assert (p' = p) by congruence. subst p'. clear Ev'.
  destruct H as [(Hnone & E) | (a & f & Ea & Ef & H)].
  - rewrite E. split.
    + intros [= <-]. split; [reflexivity | exact Hnone].
    + intros [-> _]. reflexivity.
  - split.
    + intros E. exfalso.
      destruct H as [(d & t' & E' & _) | [(utxos & _ & _ & _ & E')
                     | (b & _ & _ & _ & _ & E')]];
        rewrite E' in E; try discriminate.
      unfold reply_after_post in E.
      destruct (post_transaction w (b_payload b)); discriminate.
    + intros [_ [Hn | Hn]]; congruence.
Qed.

Lemma range_error_before_any_call_witness :
  let w := Bench.world [Bench.utxo 0 150000000] (Returns Null) in
  let req := Bench.request (Number_of_BigInt (10 ^ 301)) lit_0 in
  isFinite (mul (Number_of_BigInt (10 ^ 301)) lit_1e8) = false
  /\ MultiUtxo.createTransaction w req = (ServerError RangeError, []).
Proof.
  intros w req.
  assert (H : isFinite (mul (Number_of_BigInt (10 ^ 301)) lit_1e8) = false)
    by (vm_compute; reflexivity).
  split; [exact H | ].
  apply (range_error_before_any_call w req
           {| sender := Bench.alice; recipient := Bench.bob;
              amount_ := Number_of_BigInt (10 ^ 301); fee_ := lit_0;
              key := "11" |} []);
    [vm_compute; reflexivity | ].
  split; [reflexivity | left; exact H].
Defined.

(** X5.  The unsigned variant answers 500, without details, exactly when the
    ledger returned entries and the amount or the fee does not convert;
    the entries were fetched by then. *)
Theorem unsigned_internal_error (w : World) (req : Body)
        (t : list event) :
  Unsigned.createTransaction w req = (Unsigned.Status500, t)
  <-> exists p u utxos,
        validate req = (Next p, [])
        /\ get_utxos w (sender p) = Returns (u :: utxos)
        /\ (isFinite (mul (amount_ p) lit_1e8) = false
            \/ isFinite (mul (fee_ p) lit_1e8) = false)
        /\ t = [EvGetUtxos (sender p)].
Proof.
  pose proof (unsigned_validate_spec req) as Hv.
  pose proof (unsigned_run w req) as Hr.
  destruct (Unsigned.validate req) as [msg | p] eqn:Ev.
  - split.
    + unfold Unsigned.createTransaction. rewrite Ev. discriminate.
    + intros (p & _ & _ & Ev' & _). congruence.
  - rewrite (Hr p eq_refl). cbv zeta. clear Hr. split.
    + intros E. exists p.
      destruct (get_utxos w (sender p)) as [[ | u utxos] | d];
        try discriminate.
      exists u, utxos. rewrite <- !to_sompi_None.
      destruct (to_sompi (amount_ p)) as [a | ].
      * destruct (to_sompi (fee_ p)) as [f | ].
        -- destruct (_ <? _); discriminate.
        -- injection E as <-. auto.
      * injection E as <-. auto.
    + intros (p' & u & utxos & Ev' & Eu & Hn & ->).
      assert (p' = p) by congruence. subst p'. rewrite Eu.
      rewrite <- !to_sompi_None in Hn.
      destruct Hn as [-> | Hn]; [reflexivity | ].
      rewrite Hn. destruct (to_sompi (amount_ p)); reflexivity.
Qed.

(** * What the reply says about the broadcast *)

(** X6.  The calls of a successful run of the multi-UTXO handler, in order:
    the key is parsed, the entries are fetched, one input is built per
    selected entry, the outputs are built (the recipient's, then the
    change when there is one), every input is signed once, with its own
    index and in order, over the transaction that has all its inputs and
    outputs, the payload is posted once, and the balance is looked up
    last. *)
Theorem calls_of_a_success (w : World) (req : Body)
        (transactionId rawTransaction : value)
        (transferredAmount chargedAmount : string) (walletBalance : value)
        (t : list event) :
  MultiUtxo.createTransaction w req
  = (Success transactionId rawTransaction transferredAmount chargedAmount
             walletBalance, t) ->
  exists b,
    is_build w req b
    /\ post_transaction w (b_payload b)
       = Returns (transactionId, rawTransaction)
    /\ t = [EvPrivateKey (key (b_params b));
            EvGetUtxos (sender (b_params b))]
           ++ map EvInput (map input_of_utxo (b_inputs b))
           ++ output_calls [recipient (b_params b); sender (b_params b)]
                           (b_outputs b)
           ++ map EvSign (seq 0 (List.length (b_inputs b)))
           ++ [EvPost (b_payload b); EvGetBalance (sender (b_params b))].
Proof.
  intros E.
  destruct (multi_cases w req)
    as [(msg & _ & E') | (p & _ & [(_ & E') | (a & f & _ & _ & H)])];
    try congruence.
  destruct H as [(d & t' & E' & _) | [(utxos & _ & _ & _ & E')
                 | (b & Hb & <- & _ & _ & E')]]; try congruence.
  rewrite E' in E. unfold reply_after_post in E.
  exists b. split; [exact Hb | ].
  destruct (post_transaction w (b_payload b)) as [[i r] | d];
    [ | discriminate].
  injection E as <- <- _ _ _ <-.
  split; [reflexivity | ].
  unfold build_calls, b_tx. cbn [inputs]. rewrite length_map.
  cbn [app]. rewrite <- !app_assoc. reflexivity.
Qed.

Lemma calls_of_a_success_witness :
  let w := Bench.world [Bench.utxo 0 60000000; Bench.utxo 1 60000000;
                        Bench.utxo 2 60000000] (Returns Null) in
  let req := Bench.request (decimal 1 0) (decimal 1 4) in
  exists t,
    MultiUtxo.createTransaction w req
    = (Success (Str "txid") (Str "raw") "100000000" "100010000" Null, t)
    /\ List.length t = 12%nat
    /\ exists b,
         is_build w req b
         /\ t = [EvPrivateKey (key (b_params b));
                 EvGetUtxos (sender (b_params b))]
                ++ map EvInput (map input_of_utxo (b_inputs b))
                ++ output_calls [recipient (b_params b);
                                 sender (b_params b)] (b_outputs b)
                ++ map EvSign (seq 0 (List.length (b_inputs b)))
                ++ [EvPost (b_payload b);
                    EvGetBalance (sender (b_params b))].
Proof.
  intros w req.
  destruct (MultiUtxo.createTransaction w req) as [resp t] eqn:E.
  assert (Hr : resp = Success (Str "txid") (Str "raw") "100000000"
                              "100010000" Null)
    by (change resp with (fst (resp, t)); rewrite <- E;
        vm_compute; reflexivity).
  assert (Hl : List.length t = 12%nat)
    by (change t with (snd (resp, t)); rewrite <- E;
        vm_compute; reflexivity).
  subst resp. exists t. split; [reflexivity | split; [exact Hl | ]].
  destruct (calls_of_a_success w req _ _ _ _ _ t E) as (b & Hb & _ & Ht).
  exists b. split; [exact Hb | exact Ht].
Defined.

(** X7.  Both signing handlers try the broadcast at most once per request,
    and the reply tells its outcome: a success reply means that exactly
    one payload was posted and the ledger accepted it; a 400 means that
    nothing was posted; a 500 means that nothing was posted or that the
    ledger refused the one payload that was, the reply carrying the
    ledger's error.  No reply other than success follows an accepted
    broadcast. *)
Theorem reply_reports_the_broadcast (w : World) (req : Body)
        (resp : response) (t : list event) :
  MultiUtxo.createTransaction w req = (resp, t)
  \/ SingleUtxo.createTransaction w req = (resp, t) ->
  (List.length (posted t) <= 1)%nat
  /\ (forall a b c d e,
        resp = Success a b c d e ->
        exists payload,
          posted t = [payload]
          /\ post_transaction w payload = Returns (a, b))
  /\ (forall msg, resp = BadRequest msg -> posted t = [])
  /\ (forall e,
        resp = ServerError e ->
        posted t = []
        \/ exists payload d,
             posted t = [payload]
             /\ post_transaction w payload = Throws d
             /\ e = External d)
  /\ (forall payload x,
        In payload (posted t) ->
        post_transaction w payload = Returns x ->
        exists c d e, resp = Success (fst x) (snd x) c d e).
Proof.
  intros H.
  assert (Hrun : (posted t = [] /\ forall a b c d e, resp <> Success a b c d e)
                 \/ exists payload a c p,
                      posted t = [payload]
                      /\ resp = reply_after_post w p payload a c).
  { destruct H as [E | E].
    - destruct (multi_run w req resp t E) as [H | (b & _ & Hp & Hr)];
        [left; exact H | right; eauto 10].
    - destruct (single_run w req resp t E) as [H | (b & _ & Hp & Hr)];
        [left; exact H | right; eauto 10]. }
  clear H.
  destruct Hrun as [[Hp Hno] | (payload & a0 & c0 & p & Hp & ->)];
    rewrite Hp.
  - split; [cbn; lia | split; [ | split; [ | split]]].
    + intros a b c d e ->. exfalso. exact (Hno _ _ _ _ _ eq_refl).
    + reflexivity.
    + intros e _. left. reflexivity.
    + intros payload x [].
  - unfold reply_after_post.
    split; [cbn; lia | split; [ | split; [ | split]]].
    + intros a b c d e H. exists payload. split; [reflexivity | ].
      destruct (post_transaction w payload) as [[i r] | d'];
        [ | discriminate].
      injection H as <- <- _ _ _. reflexivity.
    + intros msg H.
      destruct (post_transaction w payload); discriminate.
    + intros e H. right.
      destruct (post_transaction w payload) as [x | d'] eqn:Ep;
        [discriminate | ].
      injection H as <-. exists payload, d'.
      split; [reflexivity | split; [exact Ep | reflexivity]].
    + intros payload' x [<- | []] Hx. rewrite Hx. eauto.
Qed.

(** A ledger that refuses the broadcast: one payload posted, a 500 with
    the ledger's error, and no success. *)
Lemma reply_reports_the_broadcast_witness :
  let w0 := Bench.world [Bench.utxo 0 150000000] (Returns Null) in
  let w := {| PrivateKey_new := PrivateKey_new w0;
              get_utxos := get_utxos w0;
              Input_new := Input_new w0;
              Address_script := Address_script w0;
              Output_new := Output_new w0;
              getSignatures := getSignatures w0;
              prevTxId_hex := prevTxId_hex w0;
              post_transaction := fun _ => Throws "rejected";
              get_balance := get_balance w0 |} in
  let req := Bench.request (decimal 1 0) (decimal 1 4) in
  exists t payload,
    MultiUtxo.createTransaction w req
    = (ServerError (External "rejected"), t)
    /\ posted t = [payload]
    /\ (List.length (posted t) <= 1)%nat.
Proof.
  intros w0 w req.
  destruct (MultiUtxo.createTransaction w req) as [resp t] eqn:E.
  assert (Hr : resp = ServerError (External "rejected"))
    by (change resp with (fst (resp, t)); rewrite <- E;
        vm_compute; reflexivity).
  assert (Hp : exists payload, posted t = [payload])
    by (change t with (snd (resp, t)); rewrite <- E;
        vm_compute; eexists; reflexivity).
  destruct Hp as [payload Hp]. subst resp.
  exists t, payload. split; [reflexivity | split; [exact Hp | ]].
  exact (proj1 (reply_reports_the_broadcast w req _ t (or_introl E))).
Defined.

(** * The variants side by side *)

Lemma sum_utxos_nonneg (l : list Utxo) :
  (forall u, In u l -> 0 <= u_amount u) -> 0 <= sum_utxos l.
Proof.
  induction l as [ | u l IH]; intros H; [cbn; lia | ].
  rewrite sum_utxos_cons.
  pose proof (H u (or_introl eq_refl)).
  assert (0 <= sum_utxos l) by (apply IH; intros v Hv; apply H; right; auto).
  lia.
Qed.

(** With entries that are not negative, the loop ends short of the
    target exactly when all the entries together are short of it. *)
Lemma select_short (utxos : list Utxo) (target : Z) :
  (forall u, In u utxos -> 0 <= u_amount u) ->
  snd (MultiUtxo.select utxos target) < target
  <-> sum_utxos utxos < target.
Proof.
  intros Hpos. unfold MultiUtxo.select.
  destruct (select_loop_spec utxos target [] 0)
    as (taken & rest & Hsplit & E & _ & Hend).
  rewrite E. cbn [snd]. rewrite Z.add_0_l in *.
  assert (Hrest : 0 <= sum_utxos rest).
  { apply sum_utxos_nonneg. intros u Hu. apply Hpos. rewrite Hsplit.
    apply in_or_app. right. exact Hu. }
  rewrite Hsplit, sum_utxos_app. split; [ | lia].
  intros Hshort. destruct Hend as [H | [-> _]]; [lia | cbn; lia].
Qed.

(** X8.  The multi-UTXO handler and the unsigned variant agree on who lacks
    funds: for a request that passed validation, a key that parses and a
    ledger answer with at least one entry and no negative amount, the one
    answers that the UTXOs are insufficient exactly when the other
    answers that the funds are, and that is exactly when all the entries
    together are worth less than amount plus fee. *)
Theorem variants_agree_on_insufficient_funds (w : World) (req : Body)
        (p : Params) (utxos : list Utxo) :
  validate req = (Next p, []) ->
  PrivateKey_new w (key p) = Returns tt ->
  get_utxos w (sender p) = Returns utxos ->
  utxos <> [] ->
  (forall u, In u utxos -> 0 <= u_amount u) ->
  (fst (MultiUtxo.createTransaction w req)
   = BadRequest "Insufficient UTXOs for requested amount"
   <-> fst (Unsigned.createTransaction w req)
       = Unsigned.Status400 "Insufficient funds")
  /\ (fst (Unsigned.createTransaction w req)
      = Unsigned.Status400 "Insufficient funds"
      <-> exists a f,
            to_sompi (amount_ p) = Some a
            /\ to_sompi (fee_ p) = Some f
            /\ sum_utxos utxos < a + f).
Proof.
  intros Ev Ek Eu Hne Hpos.
  assert (Hu : fst (Unsigned.createTransaction w req)
               = Unsigned.Status400 "Insufficient funds"
               <-> exists a f,
                     to_sompi (amount_ p) = Some a
                     /\ to_sompi (fee_ p) = Some f
                     /\ sum_utxos utxos < a + f).
  { pose proof (unsigned_validate_spec req) as Hv.
    destruct (Unsigned.validate req) as [msg | p'] eqn:Ev';
      [congruence | ].
    assert (p' = p) by congruence. subst p'.
    rewrite (unsigned_run w req p Ev'), Eu. cbv zeta.
    destruct utxos as [ | u l]; [contradiction | ].
    destruct (to_sompi (amount_ p)) as [a | ].
    - destruct (to_sompi (fee_ p)) as [f | ].
      + destruct (Z.ltb_spec (sum_utxos (u :: l)) (a + f)) as [Hlt | Hge];
          cbn [fst].
        * split; [intros _; exists a, f; auto | reflexivity].
        * split; [discriminate | ].
          intros (a' & f' & [= <-] & [= <-] & H). lia.
      + split; [discriminate | intros (a' & f' & _ & [=] & _)].
    - split; [destruct (to_sompi (fee_ p)); discriminate | ].
      intros (a' & f' & [=] & _). }
  split; [ | exact Hu].
  rewrite Hu. split.
  - intros E.
    destruct (multi_cases w req)
      as [(msg & Ev' & _) | (p' & Ev' & H)]; [congruence | ].
    assert (p' = p) by congruence. subst p'.
    destruct H as [(_ & E') | (a & f & Ea & Ef & H)];
      [rewrite E' in E; discriminate | ].
    exists a, f. split; [exact Ea | split; [exact Ef | ]].
    destruct H as [(d & t' & E' & _) | [(utxos' & _ & Eu' & Hs & _)
                   | (b & _ & _ & _ & _ & E')]].
    + rewrite E' in E. discriminate.
    + assert (utxos' = utxos) by congruence. subst utxos'.
      apply select_short; assumption.
    + rewrite E' in E. unfold reply_after_post in E. cbn [fst] in E.
      destruct (post_transaction w (b_payload b)); discriminate.
  - intros (a & f & Ea & Ef & Hlt).
    rewrite (insufficient_reply w req p a f utxos Ev Ea Ef Ek Eu);
      [reflexivity | ].
    apply select_short; assumption.
Qed.

(** Two entries of 0.2 and 0.3 for an amount of 1.0. *)
Lemma variants_agree_on_insufficient_funds_witness :
  let utxos := [Bench.utxo 0 20000000; Bench.utxo 1 30000000] in
  let w := Bench.world utxos (Returns Null) in
  let req := Bench.request (decimal 1 0) lit_0 in
  fst (Unsigned.createTransaction w req)
  = Unsigned.Status400 "Insufficient funds"
  /\ fst (MultiUtxo.createTransaction w req)
     = BadRequest "Insufficient UTXOs for requested amount".
Proof.
  intros utxos w req.
  assert (Hu : fst (Unsigned.createTransaction w req)
               = Unsigned.Status400 "Insufficient funds")
    by (vm_compute; reflexivity).
  split; [exact Hu | ].
  apply (variants_agree_on_insufficient_funds w req
           {| sender := Bench.alice; recipient := Bench.bob;
              amount_ := decimal 1 0; fee_ := lit_0; key := "11" |}
           utxos);
    [vm_compute; reflexivity | reflexivity | reflexivity | discriminate
    | | exact Hu].
  intros u [<- | [<- | []]]; cbn; lia.
Defined.

(** X9.  A ledger that fails to return the entries: the unsigned variant
    answers 400 and blames the sender address; the signing handlers, which
    parsed the key first, answer 500 with the error of the ledger.  None
    of them calls anything else. *)
Theorem ledger_failure_status (w : World) (req : Body) (p : Params)
        (d : string) :
  validate req = (Next p, []) ->
  get_utxos w (sender p) = Throws d ->
  Unsigned.createTransaction w req
  = (Unsigned.Status400 "Invalid sender address or unable to fetch UTXOs",
     [EvGetUtxos (sender p)])
  /\ (PrivateKey_new w (key p) = Returns tt ->
      SingleUtxo.createTransaction w req
      = (ServerError (External d),
         [EvPrivateKey (key p); EvGetUtxos (sender p)])
      /\ (isFinite (mul (amount_ p) lit_1e8) = true ->
          isFinite (mul (fee_ p) lit_1e8) = true ->
          MultiUtxo.createTransaction w req
          = (ServerError (External d),
             [EvPrivateKey (key p); EvGetUtxos (sender p)]))).
Proof.
  intros Ev Eu. split; [ | intros Ek; split].
  - pose proof (unsigned_validate_spec req) as Hv.
    destruct (Unsigned.validate req) as [msg | p'] eqn:Ev';
      [congruence | ].
    assert (p' = p) by congruence. subst p'.
    rewrite (unsigned_run w req p Ev'), Eu. reflexivity.
  - unfold SingleUtxo.createTransaction, SingleUtxo.createTransaction_body.
    rewrite Ev. cbn [bind]. rewrite Ek. cbn [bind call].
    rewrite Eu. reflexivity.
  - intros Fa Ff.
    destruct (to_sompi (amount_ p)) as [a | ] eqn:Ea;
      [ | apply to_sompi_None in Ea; congruence].
    destruct (to_sompi (fee_ p)) as [f | ] eqn:Ef;
      [ | apply to_sompi_None in Ef; congruence].
    unfold to_sompi in Ea, Ef.
    unfold MultiUtxo.createTransaction, MultiUtxo.createTransaction_body.
    rewrite Ev. cbn [bind]. rewrite BigInt_run, Ea. cbn [bind].
    rewrite BigInt_run, Ef. cbn [bind]. rewrite Ek. cbn [bind call].
    rewrite Eu. reflexivity.
Qed.

Lemma ledger_failure_status_witness :
  let w0 := Bench.world [] (Returns Null) in
  let w := {| PrivateKey_new := PrivateKey_new w0;
              get_utxos := fun _ => Throws "503";
              Input_new := Input_new w0;
              Address_script := Address_script w0;
              Output_new := Output_new w0;
              getSignatures := getSignatures w0;
              prevTxId_hex := prevTxId_hex w0;
              post_transaction := post_transaction w0;
              get_balance := get_balance w0 |} in
  let req := Bench.request (decimal 1 0) lit_0 in
  Unsigned.createTransaction w req
  = (Unsigned.Status400 "Invalid sender address or unable to fetch UTXOs",
     [EvGetUtxos Bench.alice])
  /\ SingleUtxo.createTransaction w req
     = (ServerError (External "503"),
        [EvPrivateKey "11"; EvGetUtxos Bench.alice])
  /\ MultiUtxo.createTransaction w req
     = (ServerError (External "503"),
        [EvPrivateKey "11"; EvGetUtxos Bench.alice]).
Proof.
  intros w0 w req.
  destruct (ledger_failure_status w req
              {| sender := Bench.alice; recipient := Bench.bob;
                 amount_ := decimal 1 0; fee_ := lit_0; key := "11" |}
              "503"%string)
    as (Hu & Hs); [vm_compute; reflexivity | reflexivity | ].
  destruct (Hs eq_refl) as (Hs1 & Hm).
  split; [exact Hu | split; [exact Hs1 | ]].
  apply Hm; vm_compute; reflexivity.
Defined.

(** * What a posted payload spends *)

(** The signed inputs of a signing pass name the outpoints of the inputs
    signed, in order, with their sequence numbers. *)
Lemma signed_by_outpoints (w : World) (tx : Transaction) (sk : string)
      (idx : nat -> nat) (i : nat) (ins : list Input)
      (sis : list SignedInput) :
  signed_by w tx sk idx i ins sis ->
  map previousOutpoint sis
  = map (fun x => (prevTxId_hex w (prevTxId x), outputIndex x)) ins
  /\ map sequence sis = map sequenceNumber ins
  /\ forall si, In si sis -> sigOpCount si = 1.
Proof.
  induction 1 as [ | i input ins signature sis _ _ (IH1 & IH2 & IH3)].
  - repeat split. intros si [].
  - cbn [map]. rewrite IH1, IH2. repeat split.
    intros si [<- | Hsi]; [reflexivity | exact (IH3 si Hsi)].
Qed.

(** X10.  The payload of the multi-UTXO handler spends the selected entries
    and nothing else: its inputs name the outpoints of a prefix of the
    ledger's answer, one input per selected entry and in the order of the
    answer, each with the index of the entry and with its transaction id
    as the library gives it back in hexadecimal
    ([input.prevTxId.toString("hex")]), with sequence 0 and one signature
    operation; the fixed fields are version 0, lock time 0, the all-zero
    subnetwork and [allowOrphan: true]. *)
Theorem payload_spends_the_selection (w : World) (req : Body)
        (payload : Payload) :
  In payload (posted (snd (MultiUtxo.createTransaction w req))) ->
  exists b rest,
    is_build w req b
    /\ payload = b_payload b
    /\ b_utxos b = b_inputs b ++ rest
    /\ map previousOutpoint (p_inputs payload)
       = map (fun u => (prevTxId_hex w (u_transactionId u), u_index u))
             (b_inputs b)
    /\ (forall si, In si (p_inputs payload) ->
                   sequence si = 0 /\ sigOpCount si = 1)
    /\ p_version payload = 0
    /\ lockTime payload = 0
    /\ subnetworkId payload
       = "0000000000000000000000000000000000000000"%string
    /\ allowOrphan payload = true
    /\ forall o, In o (p_outputs payload) -> po_version o = 0.
Proof.
  intros Hin.
  destruct (posted_build w req payload Hin) as (b & Hb & -> & _).
  pose proof Hb as (_ & _ & _ & _ & _ & Es & _ & _ & Hsigned).
  destruct (signed_by_outpoints _ _ _ _ _ _ _ Hsigned) as (H1 & H2 & H3).
  unfold MultiUtxo.select in Es.
  destruct (select_loop_spec (b_utxos b) (b_totalNeeded b) [] 0)
    as (taken & rest & Hsplit & E & _).
  rewrite E in Es. cbn [app] in Es. injection Es as Hins _.
  exists b, rest.
  split; [exact Hb | split; [reflexivity | split; [congruence | ]]].
  cbn [b_payload MultiUtxo.payload_of rest_json p_inputs p_version lockTime
       subnetworkId allowOrphan p_outputs b_tx version inputs outputs]
    in *.
  split; [rewrite H1, map_map; reflexivity | ].
  split.
  - intros si Hsi. split; [ | exact (H3 si Hsi)].
    assert (Hall : forall z, In z (map sequence (b_signedInputs b)) -> z = 0).
    { rewrite H2, map_map. cbn. intros z Hz.
      apply in_map_iff in Hz as (u & <- & _). reflexivity. }
    apply Hall. apply in_map. exact Hsi.
  - repeat split. intros o Ho.
    apply in_map_iff in Ho as (x & <- & _). reflexivity.
Qed.

(** Three entries of 0.6 whose ids the ledger sends in upper case, for a
    target of 1.0001: the first two are spent, their ids in lower case. *)
Lemma payload_spends_the_selection_witness :
  let entry n := {| u_transactionId := "AB12"; u_index := n;
                    u_amount := 60000000;
                    u_scriptPublicKey := "20aaac" |} in
  let w := Checked.world [entry 0; entry 1; entry 2] (Returns Null) in
  let req := Bench.request (decimal 1 0) (decimal 1 4) in
  exists payload,
    In payload (posted (snd (MultiUtxo.createTransaction w req)))
    /\ map previousOutpoint (p_inputs payload)
       = [("ab12"%string, 0); ("ab12"%string, 1)]
    /\ exists b rest,
         is_build w req b
         /\ payload = b_payload b
         /\ b_utxos b = b_inputs b ++ rest
         /\ map previousOutpoint (p_inputs payload)
            = map (fun u => (prevTxId_hex w (u_transactionId u), u_index u))
                  (b_inputs b).
Proof.
  intros entry w req.
  assert (H : exists payload,
             posted (snd (MultiUtxo.createTransaction w req)) = [payload]
             /\ map previousOutpoint (p_inputs payload)
                = [("ab12"%string, 0); ("ab12"%string, 1)])
    by (vm_compute; eexists; split; reflexivity).
  destruct H as (payload & H & Hout). exists payload.
  assert (Hin : In payload
                   (posted (snd (MultiUtxo.createTransaction w req))))
    by (rewrite H; left; reflexivity).
  split; [exact Hin | split; [exact Hout | ]].
  destruct (payload_spends_the_selection w req payload Hin)
    as (b & rest & Hb & Hp & Hsplit & Hmap & _).
  exists b, rest.
  split; [exact Hb | split; [exact Hp | split; [exact Hsplit | exact Hmap]]].
Defined.

(** X11.  The payload of the single-UTXO handler spends the one selected
    entry: its only input names that entry, an entry of the ledger's
    answer worth at least 100000, by its index and by its transaction id
    as the library gives it back in hexadecimal.  The amount sent and the
    fee are not negative and, with the change, add up to the entry; and
    with a library that checks its outputs, the two output amounts of the
    payload are exactly the amount sent and the change, the change is not
    negative and the entry covers amount plus fee. *)
Theorem single_payload_balances (w : World) (req : Body)
        (payload : Payload) :
  In payload (posted (snd (SingleUtxo.createTransaction w req))) ->
  exists b,
    is_build1 w req b
    /\ payload = s_payload b
    /\ In (s_selected b) (s_utxos b)
    /\ 100000 <= u_amount (s_selected b)
    /\ map previousOutpoint (p_inputs payload)
       = [(prevTxId_hex w (u_transactionId (s_selected b)),
           u_index (s_selected b))]
    /\ 0 <= s_amountToSend b
    /\ 0 <= s_feeAmount b
    /\ s_amountToSend b + s_changeAmount b + s_feeAmount b
       = u_amount (s_selected b)
    /\ (checks_outputs w ->
        payload_amounts payload
        = [Some (s_amountToSend b); Some (s_changeAmount b)]
        /\ 0 <= s_changeAmount b
        /\ s_amountToSend b + s_feeAmount b <= u_amount (s_selected b)).
Proof.
  intros Hin.
  destruct (posted_build1 w req payload Hin) as (b & Hb & -> & _).
  pose proof Hb as (Ev & _ & _ & Es & Ea & Ef & _ & _ & Hsigned).
  destruct (signed_by_outpoints _ _ _ _ _ _ _ Hsigned) as (H1 & _).
  destruct (validated_amounts_nonneg req _ _ _ Ev Ea Ef) as [Ha Hf].
  apply selectedUtxo_Some in Es as (before & after & Hsplit & Hu & _).
  exists b.
  split; [exact Hb | split; [reflexivity | split; [ | split; [ | split]]]].
  - rewrite Hsplit. apply in_or_app. right. left. reflexivity.
  - exact Hu.
  - exact H1.
  - split; [exact Ha | split; [exact Hf | split]].
    + unfold s_changeAmount. ring.
    + intros Hw.
      assert (Hposted : posted (snd (SingleUtxo.createTransaction w req))
                        <> [])
        by (intros E; rewrite E in Hin; contradiction).
      destruct (build1_amounts_exact w req b Hw Hb Hposted)
        as ([Hc _] & _ & Hpa).
      split; [exact Hpa | split; [exact Hc | ]].
      unfold s_changeAmount in Hc. lia.
Qed.

(** A ledger whose first entry is too small to be picked and whose
    second, with an id in upper case, is worth 1.5; 1.0 and a fee of
    0.0001 against the library that checks. *)
Lemma single_payload_balances_witness :
  let entry := {| u_transactionId := "AB12"; u_index := 7;
                  u_amount := 150000000;
                  u_scriptPublicKey := "20aaac" |} in
  let w := Checked.world [Bench.utxo 0 99999; entry] (Returns Null) in
  let req := Bench.request (decimal 1 0) (decimal 1 4) in
  checks_outputs w
  /\ exists payload,
       In payload (posted (snd (SingleUtxo.createTransaction w req)))
       /\ map previousOutpoint (p_inputs payload) = [("ab12"%string, 7)]
       /\ payload_amounts payload = [Some 100000000; Some 49990000]
       /\ exists b,
            is_build1 w req b
            /\ payload = s_payload b
            /\ map previousOutpoint (p_inputs payload)
               = [(prevTxId_hex w (u_transactionId (s_selected b)),
                   u_index (s_selected b))]
            /\ payload_amounts payload
               = [Some (s_amountToSend b); Some (s_changeAmount b)]
            /\ 0 <= s_changeAmount b.
Proof.
  intros entry w req.
  assert (Hw : checks_outputs w) by apply checked_world_checks.
  split; [exact Hw | ].
  assert (H : exists payload,
             posted (snd (SingleUtxo.createTransaction w req)) = [payload]
             /\ map previousOutpoint (p_inputs payload)
                = [("ab12"%string, 7)]
             /\ payload_amounts payload
                = [Some 100000000; Some 49990000])
    by (vm_compute; eexists; repeat split; reflexivity).
  destruct H as (payload & H & Hid & Hout). exists payload.
  assert (Hin : In payload
                   (posted (snd (SingleUtxo.createTransaction w req))))
    by (rewrite H; left; reflexivity).
  split; [exact Hin | split; [exact Hid | split; [exact Hout | ]]].
  destruct (single_payload_balances w req payload Hin)
    as (b & Hb & Hp & _ & _ & Hmap & _ & _ & _ & Hexact).
  destruct (Hexact Hw) as (Hpa & Hc & _).
  exists b.
  split; [exact Hb | split; [exact Hp | split; [exact Hmap | ]]].
  split; [exact Hpa | exact Hc].
Defined.

(** * The conversion at the boundary *)

(** X12.  [BigInt(Math.floor(x * 1e8))] never throws on a finite product, and
    it truncates: the result is 0 for a product of zero and the integer
    part of a binary64 product [m * 2^e], never the nearest integer above
    it. *)
Theorem conversion_is_the_floor (x : number) :
  isFinite (mul x lit_1e8) = true ->
  exists z,
    to_sompi x = Some z
    /\ match mul x lit_1e8 with
       | S754_finite s m e =>
           (0 <= e -> z = signed s m * 2 ^ e)
           /\ (e < 0 -> z * 2 ^ (- e) <= signed s m < (z + 1) * 2 ^ (- e))
       | _ => z = 0
       end.
Proof.
  intros Hfin. rewrite to_sompi_floor.
  destruct (mul x lit_1e8) as [s | s | | s m e]; try discriminate.
  - exists 0. split; reflexivity.
  - destruct (floorZ (S754_finite s m e)) as [z | ] eqn:Ez;
      [ | discriminate].
    exists z. split; [reflexivity | split].
    + intros He. cbn [floorZ] in Ez.
      destruct (Z.leb_spec 0 e); [congruence | lia].
    + intros He. apply floorZ_spec; assumption.
Qed.

(** 0.29 times 1e8 is 28999999.999999996 in binary64, and converts to
    28999999. *)
Lemma conversion_is_the_floor_witness :
  exists m e z,
    mul (decimal 29 2) lit_1e8 = S754_finite false m e
    /\ e < 0
    /\ to_sompi (decimal 29 2) = Some z
    /\ z = 28999999
    /\ z * 2 ^ (- e) <= Zpos m < (z + 1) * 2 ^ (- e).
Proof.
  assert (H : exists m e,
             mul (decimal 29 2) lit_1e8 = S754_finite false m e
             /\ e < 0
             /\ to_sompi (decimal 29 2) = Some 28999999)
    by (vm_compute; eexists _, _; repeat split; reflexivity).
  destruct H as (m & e & E & He & Hz).
  assert (Hfin : isFinite (mul (decimal 29 2) lit_1e8) = true)
    by (rewrite E; reflexivity).
  destruct (conversion_is_the_floor _ Hfin) as (z & Ez & Hfloor).
  rewrite E in Hfloor.
  exists m, e, z.
  split; [exact E | split; [exact He | split; [exact Ez | ]]].
  split; [congruence | exact (proj2 Hfloor He)].
Defined.

Lemma lit_1_bits : lit_1 = S754_finite false 4503599627370496 (-52).
Proof. vm_compute. reflexivity. Qed.

(** X13.  An amount that passes the check [amount <= 0] and whose product with
    1e8 is below 1 (an amount under one smallest unit, 1e-9 for one)
    converts to 0: validation lets through a transfer of nothing. *)
Theorem amounts_below_one_unit (req : Body) (p : Params) :
  validate req = (Next p, []) ->
  ltb (mul (amount_ p) lit_1e8) lit_1 = true ->
  to_sompi (amount_ p) = Some 0.
Proof.
  intros Ev Hlt.
  destruct (validate_ok_inv req _ _ Ev)
    as (_ & _ & _ & _ & _ & _ & _ & _ & _ & _ & _ & L1 & _).
  pose proof (mul_1e8_nonneg_of_not_le _ L1) as Hpos.
  pose proof (mul_1e8_valid (amount_ p)) as Hvalid.
  rewrite to_sompi_floor. rewrite lit_1_bits in Hlt.
  destruct (mul (amount_ p) lit_1e8) as [s | s | | s m e];
    try reflexivity; try discriminate.
  - destruct s; discriminate.
  - cbn in Hpos. apply negb_true_iff in Hpos. subst s.
    pose proof (valid_mantissa false m e Hvalid) as Hm.
    unfold ltb, SFltb, SFcompare in Hlt.
    cbn [floorZ signed cond_Zopp].
    destruct (Z.compare_spec e (-52)) as [Heq | He | He];
      try discriminate.
    + subst e.
      destruct (PosDef.Pos.compare_cont Eq m 4503599627370496) eqn:Hc;
        try discriminate.
      assert (Hm' : (m < 4503599627370496)%positive) by exact Hc.
      cbn [Z.leb Z.compare Z.opp]. f_equal.
      apply Z.div_small. change (2 ^ 52) with 4503599627370496.
      split; [apply Pos2Z.is_nonneg | exact (Pos2Z.pos_lt_pos _ _ Hm')].
    + destruct (Z.leb_spec 0 e); [lia | ]. f_equal.
      apply Z.div_small. split; [clear; lia | ].
      apply Z.lt_le_trans with (2 ^ 53); [exact Hm | ].
      apply Z.pow_le_mono_r; clear - He; lia.
Qed.

Lemma amounts_below_one_unit_witness :
  let req := Bench.request (decimal 1 9) lit_0 in
  leb (decimal 1 9) lit_0 = false
  /\ to_sompi (decimal 1 9) = Some 0.
Proof.
  intros req. split; [vm_compute; reflexivity | ].
  apply (amounts_below_one_unit req
           {| sender := Bench.alice; recipient := Bench.bob;
              amount_ := decimal 1 9; fee_ := lit_0; key := "11" |});
    vm_compute; reflexivity.
Defined.

(** * The history route *)

Section History.

Import Gateway.
Local Open Scope string_scope.

Lemma property_assign (k k' : string) (v : json)
      (fields : list (string * json)) :
  property k' (assign k v fields)
  = if String.eqb k k' then Some v else property k' fields.
Proof.
  induction fields as [ | [k0 v0] fields IH]; cbn [assign property].
  - destruct (String.eqb k k'); reflexivity.
  - destruct (String.eqb_spec k0 k) as [-> | Hk0]; cbn [property].
    + destruct (String.eqb k k'); reflexivity.
    + rewrite IH.
      destruct (String.eqb_spec k0 k') as [-> | Hk0'];
        [ | reflexivity].
      apply String.eqb_neq in Hk0. rewrite String.eqb_sym in Hk0.
      rewrite Hk0. reflexivity.
Qed.

(** The loop of [map] with a callback that can throw: it returns when
    the callback returned for every element, element by element. *)
Lemma map_throwing_inr {A B} (f : A -> thrown + B) (l : list A)
      (ys : list B) :
  map_throwing f l = inr ys <-> Forall2 (fun x y => f x = inr y) l ys.
Proof.
  revert ys. induction l as [ | x l IH]; intros ys; cbn [map_throwing].
  - split; [intros [= <-]; constructor | intros H; inversion H; auto].
  - destruct (f x) as [e | y] eqn:Ex.
    + split; [discriminate | intros H; inversion H; congruence].
    + destruct (map_throwing f l) as [e | ys'] eqn:El.
      * split; [discriminate | ].
        intros H. inversion H as [ | ? y' ? ys'' _ Hl]; subst.
        apply IH in Hl. discriminate.
      * split.
        -- intros [= <-]. constructor; [exact Ex | apply IH; reflexivity].
        -- intros H. inversion H as [ | ? y' ? ys'' Hy Hl]; subst.
           apply IH in Hl. congruence.
Qed.

(** Reading one key off every entry of an array: it throws exactly when
    an entry is null, and what it collects holds the string [address]
    where an entry names it, the nulls filtered out or not. *)
Lemma read_entries (k address : string) (items : list json) :
  match map_throwing (fun x => read x k) items with
  | inl e => e = TypeError /\ no_null items = false
  | inr found =>
      no_null items = true
      /\ includes found address
         = existsb (fun x => names x k address) items
      /\ includes (filter not_null found) address
         = existsb (fun x => names x k address) items
  end.
Proof.
  induction items as [ | x items IH]; cbn [map_throwing].
  - repeat split.
  - destruct x as [ | b | n | s | l | fields]; cbn [read no_null forallb];
      try (split; reflexivity);
      destruct (map_throwing _ items) as [e | found];
      try (destruct IH as [-> IH]; split; [reflexivity | exact IH]);
      destruct IH as (IH0 & IH1 & IH2); fold (no_null items);
      (split; [exact IH0 | ]);
      cbn [includes existsb names filter not_null orb] in *;
      try (split; assumption).
    destruct (property k fields) as [[ | b | n | s | l | fs] | ];
      cbn [filter not_null includes existsb orb];
      fold (includes found address);
      fold (includes (filter not_null found) address);
      rewrite ?IH1, ?IH2; split; reflexivity.
Qed.

(** The callback on one transaction. *)
Lemma flagged_spec (address : string) (tx : json) :
  match flagged address tx with
  | inl e => e = TypeError /\ readable tx = false
  | inr tx' =>
      readable tx = true
      /\ exists fields fields' ins outs,
           tx = JObj fields
           /\ tx' = JObj fields'
           /\ property "inputs" fields = Some (JArr ins)
           /\ property "outputs" fields = Some (JArr outs)
           /\ let sent :=
                existsb (fun x => names x "previous_outpoint_address"
                                        address) ins in
              let received :=
                existsb (fun x => names x "script_public_key_address"
                                        address) outs in
              property "isSent" fields' = Some (JBool sent)
              /\ property "isReceived" fields' = Some (JBool received)
              /\ property "isSelfTransfer" fields'
                 = Some (JBool (sent && received))
              /\ forall k,
                   k <> "isSent" -> k <> "isReceived" ->
                   k <> "isSelfTransfer" ->
                   property k fields' = property k fields
  end.
Proof.
  destruct tx as [ | b | n | s | l | fields]; cbn [flagged readable];
    try (split; reflexivity).
  destruct (property "inputs" fields) as [[ | b | n | s | ins | fs] | ]
    eqn:Ein; cbn [array_map]; try (split; reflexivity).
  pose proof (read_entries "previous_outpoint_address" address ins) as Hi.
  destruct (map_throwing _ ins) as [e | previous].
  { destruct Hi as [-> Hi]. rewrite Hi.
    split; [reflexivity | ].
    destruct (property "outputs" fields) as [[ | | | | | ] | ]; reflexivity. }
  destruct Hi as (Hi0 & _ & Hi2). rewrite Hi0.
  destruct (property "outputs" fields) as [[ | b | n | s | outs | fs] | ]
    eqn:Eout; cbn [array_map]; try (split; reflexivity).
  pose proof (read_entries "script_public_key_address" address outs) as Ho.
  destruct (map_throwing _ outs) as [e | outputAddresses].
  { destruct Ho as [-> Ho]. rewrite Ho. split; reflexivity. }
  destruct Ho as (Ho0 & Ho1 & _). rewrite Ho0.
  split; [reflexivity | ].
  eexists fields, _, ins, outs.
  split; [reflexivity | split; [reflexivity | ]].
  split; [exact Ein | split; [exact Eout | ]].
  cbv zeta. rewrite Hi2, Ho1, !property_assign.
  split; [reflexivity | split; [reflexivity | split; [reflexivity | ]]].
  intros k H1 H2 H3. apply String.eqb_neq in H1, H2, H3.
  rewrite String.eqb_sym in H1, H2, H3.
  rewrite !property_assign, H1, H2, H3. reflexivity.
Qed.

(** X14.  The signing variants' [GET /transactions/:address] flags every
    transaction of the ledger's answer, in order and one for one: in
    each, [isSent] says whether an input names the address as its
    [previous_outpoint_address] (filtering the nulls changes nothing),
    [isReceived] whether an output names it as its
    [script_public_key_address], [isSelfTransfer] is the conjunction of
    the two, and every other field is the ledger's. *)
Theorem history_flags (u : Upstream) (address : string) (body : json) :
  fst (transactions u address) = Json 200 body ->
  exists txs txs',
    axios_get u (KASPA_REST ++ "/addresses/" ++ address
                 ++ "/full-transactions") = Data (JArr txs)
    /\ txs <> []
    /\ body = ok "transactions" (JArr txs')
    /\ Forall2
         (fun tx tx' =>
            exists fields fields' ins outs,
              tx = JObj fields
              /\ tx' = JObj fields'
              /\ property "inputs" fields = Some (JArr ins)
              /\ property "outputs" fields = Some (JArr outs)
              /\ let sent :=
                   existsb (fun x => names x "previous_outpoint_address"
                                           address) ins in
                 let received :=
                   existsb (fun x => names x "script_public_key_address"
                                           address) outs in
                 property "isSent" fields' = Some (JBool sent)
                 /\ property "isReceived" fields' = Some (JBool received)
                 /\ property "isSelfTransfer" fields'
                    = Some (JBool (sent && received))
                 /\ forall k,
                      k <> "isSent" -> k <> "isReceived" ->
                      k <> "isSelfTransfer" ->
                      property k fields' = property k fields)
         txs txs'.
Proof.
  unfold transactions. cbv zeta.
  destruct (axios_get u _) as [data | details]; [ | discriminate].
  destruct (negb (truthy data) || length_is_0 data) eqn:Hempty;
    [discriminate | ].
  destruct data as [ | b | n | s | txs | fields]; cbn [array_map];
    try discriminate.
  destruct (map_throwing (flagged address) txs) as [e | txs'] eqn:Em;
    [discriminate | ].
  intros [= <-]. exists txs, txs'.
  split; [reflexivity | split; [ | split; [reflexivity | ]]].
  - intros ->. discriminate.
  - apply map_throwing_inr in Em. clear Hempty.
    induction Em as [ | tx tx' txs txs' Hf _ IH]; constructor.
    + pose proof (flagged_spec address tx) as H. rewrite Hf in H.
      exact (proj2 H).
    + exact IH.
Qed.

(** Alice's history with one payment to Bob and change back to her. *)
Lemma history_flags_witness :
  let u := Ledger.upstream (Data (JArr [Ledger.payment])) in
  exists body txs',
    fst (transactions u Bench.alice) = Json 200 body
    /\ body = ok "transactions" (JArr txs')
    /\ map (fun tx' => match tx' with
                       | JObj fields' =>
                           (property "isSent" fields',
                            property "isReceived" fields',
                            property "isSelfTransfer" fields',
                            property "transaction_id" fields')
                       | _ => (None, None, None, None)
                       end) txs'
       = [(Some (JBool true), Some (JBool true), Some (JBool true),
           Some (JStr "aa"))]
    /\ Forall2 (fun tx tx' => exists fields fields',
                  tx = JObj fields /\ tx' = JObj fields'
                  /\ forall k,
                       k <> "isSent" -> k <> "isReceived" ->
                       k <> "isSelfTransfer" ->
                       property k fields' = property k fields)
               [Ledger.payment] txs'.
Proof.
  intros u.
  assert (H : exists body txs',
             fst (transactions u Bench.alice) = Json 200 body
             /\ body = ok "transactions" (JArr txs')
             /\ map (fun tx' => match tx' with
                                | JObj fields' =>
                                    (property "isSent" fields',
                                     property "isReceived" fields',
                                     property "isSelfTransfer" fields',
                                     property "transaction_id" fields')
                                | _ => (None, None, None, None)
                                end) txs'
                = [(Some (JBool true), Some (JBool true),
                    Some (JBool true), Some (JStr "aa"))])
    by (vm_compute; eexists _, _; repeat split; reflexivity).
  destruct H as (body & txs' & H & Hb & Hflags).
  exists body, txs'.
  split; [exact H | split; [exact Hb | split; [exact Hflags | ]]].
  destruct (history_flags u Bench.alice body H)
    as (txs & txs'' & Hdata & _ & Hb' & Hall).
  injection Hdata as <-.
  rewrite Hb in Hb'. unfold ok in Hb'. injection Hb' as ->.
  clear - Hall.
  induction Hall as [ | tx tx' l l' Hx _ IH]; constructor; [ | exact IH].
  destruct Hx as (fields & fields' & ins & outs & -> & -> & _ & _ & Hx).
  cbv zeta in Hx. destruct Hx as (_ & _ & _ & Hk).
  exists fields, fields'. auto.
Defined.

(** X15.  The replies of the signing variants' [GET /transactions/:address]:
    one unreadable transaction (one whose inputs are null, say) fails
    the whole request with the 500 of a TypeError, whatever the other
    transactions are; an answer of readable transactions is answered
    200 with as many transactions; an answer that is empty or falsy is
    answered 404; and a failure of the ledger, whatever its status, is
    answered 500 with its details.  One request is sent in every case. *)
Theorem history_replies (u : Upstream) (address : string) :
  let url :=
    KASPA_REST ++ "/addresses/" ++ address ++ "/full-transactions" in
  snd (transactions u address) = [Get url]
  /\ (forall txs tx,
        axios_get u url = Data (JArr txs) ->
        In tx txs -> readable tx = false ->
        fst (transactions u address) = Failure TypeError)
  /\ (forall txs,
        axios_get u url = Data (JArr txs) ->
        txs <> [] -> forallb readable txs = true ->
        exists txs',
          fst (transactions u address)
          = Json 200 (ok "transactions" (JArr txs'))
          /\ List.length txs' = List.length txs)
  /\ (forall data,
        axios_get u url = Data data ->
        truthy data = false \/ data = JArr [] ->
        fst (transactions u address)
        = Json 404 (error "No transactions found for the address"))
  /\ (forall details,
        axios_get u url = Fails details ->
        fst (transactions u address) = Failure (HttpError details)).
Proof.
  assert (Hmap : forall txs,
             match map_throwing (flagged address) txs with
             | inl e => e = TypeError /\ forallb readable txs = false
             | inr txs' => forallb readable txs = true
                           /\ List.length txs' = List.length txs
             end).
  { induction txs as [ | tx txs IH]; cbn [map_throwing forallb].
    - split; reflexivity.
    - pose proof (flagged_spec address tx) as Hf.
      destruct (flagged address tx) as [e | tx'].
      + destruct Hf as [-> ->]. split; reflexivity.
      + destruct Hf as [-> _].
        destruct (map_throwing (flagged address) txs) as [e | txs'].
        * destruct IH as [-> ->]. split; reflexivity.
        * destruct IH as [-> IH]. cbn. rewrite IH. split; reflexivity. }
  cbv zeta. unfold transactions. cbv zeta.
  split; [ | split; [ | split; [ | split]]].
  - destruct (axios_get u _) as [data | details]; [ | reflexivity].
    destruct (_ || _); [reflexivity | ].
    destruct (array_map _ _); reflexivity.
  - intros txs tx -> Hin Hbad.
    destruct txs as [ | tx0 txs]; [contradiction | ].
    cbn [truthy negb length_is_0 orb array_map].
    specialize (Hmap (tx0 :: txs)).
    destruct (map_throwing (flagged address) (tx0 :: txs)) as [e | txs'].
    + destruct Hmap as [-> _]. reflexivity.
    + exfalso. destruct Hmap as [Hall _].
      rewrite forallb_forall in Hall. specialize (Hall tx Hin). congruence.
  - intros txs -> Hne Hall.
    destruct txs as [ | tx0 txs]; [contradiction | ].
    cbn [truthy negb length_is_0 orb array_map].
    specialize (Hmap (tx0 :: txs)).
    destruct (map_throwing (flagged address) (tx0 :: txs)) as [e | txs'].
    + destruct Hmap as [_ Hbad]. congruence.
    + exists txs'. split; [reflexivity | exact (proj2 Hmap)].
  - intros data -> [Hfalsy | ->]; [rewrite Hfalsy | ]; reflexivity.
  - intros details ->. reflexivity.
Qed.

(** A payment followed by a transaction whose inputs are null: the
    request fails. *)
Lemma history_replies_witness :
  let txs := [Ledger.payment; Ledger.without_inputs] in
  let u := Ledger.upstream (Data (JArr txs)) in
  In Ledger.without_inputs txs
  /\ readable Ledger.without_inputs = false
  /\ transactions u Bench.alice
     = (Failure TypeError,
        [Get ("https://api.kaspa.org/addresses/" ++ Bench.alice
              ++ "/full-transactions")]).
Proof.
  intros txs u.
  assert (Hin : In Ledger.without_inputs txs) by (right; left; reflexivity).
  assert (Hbad : readable Ledger.without_inputs = false) by reflexivity.
  split; [exact Hin | split; [exact Hbad | ]].
  destruct (history_replies u Bench.alice) as (Ht & Hr & _).
  rewrite (surjective_pairing (transactions u Bench.alice)).
  rewrite Ht, (Hr txs Ledger.without_inputs eq_refl Hin Hbad). reflexivity.
Defined.

(** X16.  [POST /submit] sends nothing unless the body has a [tx] that counts
    as true: without one (no field, null, false, 0 or the empty string)
    the reply is the 400 and no request is made; with one, exactly one
    request posts [{ tx }] to the ledger's [/transactions], and the reply
    is 200 with the ledger's answer as [result], or 500 with the details
    of the failure. *)
Theorem submit_requires_a_transaction (u : Upstream) (tx : option json) :
  (fst (submit u tx) = Json 400 (error "Missing signed transaction data")
   <-> tx = None \/ exists v, tx = Some v /\ truthy v = false)
  /\ (snd (submit u tx) = []
      <-> fst (submit u tx)
          = Json 400 (error "Missing signed transaction data"))
  /\ (forall v,
        tx = Some v -> truthy v = true ->
        let url := "https://api.kaspa.org/transactions" in
        let body := JObj [("tx", v)] in
        snd (submit u tx) = [Post url body]
        /\ fst (submit u tx)
           = match axios_post u url body with
             | Data data => Json 200 (ok "result" data)
             | Fails details => Failure (HttpError details)
             end).
Proof.
  unfold submit.
  destruct tx as [v | ].
  - destruct (truthy v) eqn:Hv; cbn [negb]; cbv zeta.
    + split; [ | split].
      * split.
        -- destruct (axios_post u _ _); discriminate.
        -- intros [[=] | (v' & [= <-] & Hv')]. congruence.
      * split; destruct (axios_post u _ _); discriminate.
      * intros v' [= <-] _. split; destruct (axios_post u _ _); reflexivity.
    + split; [ | split].
      * split; [intros _; right; exists v; auto | reflexivity].
      * split; reflexivity.
      * intros v' [= <-] Hv'. congruence.
  - split; [ | split].
    + split; [intros _; left; reflexivity | reflexivity].
    + split; reflexivity.
    + intros v [=].
Qed.

End History.

(** * Validation, both ways *)



(** * An empty wallet *)

(** X18.  A ledger without entries for the sender: the unsigned variant says
    that no UTXOs are available, the single-UTXO handler that none is
    suitable, and the multi-UTXO handler that the UTXOs are insufficient
    when amount plus fee is at least one unit.  When amount and fee both
    convert to 0 the multi-UTXO handler does not stop there: it goes on
    with a transaction that has no input. *)
Theorem empty_wallet (w : World) (req : Body) (p : Params) (a f : Z) :
  validate req = (Next p, []) ->
  get_utxos w (sender p) = Returns [] ->
  to_sompi (amount_ p) = Some a ->
  to_sompi (fee_ p) = Some f ->
  Unsigned.createTransaction w req
  = (Unsigned.Status400 "No UTXOs available for the sender address",
     [EvGetUtxos (sender p)])
  /\ (PrivateKey_new w (key p) = Returns tt ->
      SingleUtxo.createTransaction w req
      = (BadRequest "No suitable UTXO available",
         [EvPrivateKey (key p); EvGetUtxos (sender p)])
      /\ (0 < a + f ->
          MultiUtxo.createTransaction w req
          = (BadRequest "Insufficient UTXOs for requested amount",
             [EvPrivateKey (key p); EvGetUtxos (sender p)]))
      /\ (a + f = 0 ->
          (forall msg, fst (MultiUtxo.createTransaction w req)
                       <> BadRequest msg)
          /\ forall payload,
               In payload (posted (snd (MultiUtxo.createTransaction w req)))
               -> p_inputs payload = [])).
Proof.
  intros Ev Eu Ea Ef. split; [ | intros Ek; split; [ | split]].
  - pose proof (unsigned_validate_spec req) as Hv.
    destruct (Unsigned.validate req) as [msg | p'] eqn:Ev';
      [congruence | ].
    assert (p' = p) by congruence. subst p'.
    rewrite (unsigned_run w req p Ev'), Eu. reflexivity.
  - unfold SingleUtxo.createTransaction, SingleUtxo.createTransaction_body.
    rewrite Ev. cbn [bind]. rewrite Ek. cbn [bind call].
    rewrite Eu. reflexivity.
  - intros Hpos.
    apply (insufficient_reply w req p a f []); auto.
  - intros Hzero.
    destruct (multi_cases w req)
      as [(msg & Ev' & _) | (p' & Ev' & H)]; [congruence | ].
    assert (p' = p) by congruence. subst p'.
    destruct H as [([Hn | Hn] & _) | (a' & f' & Ea' & Ef' & H)];
      try congruence.
    assert (a' = a) by congruence. assert (f' = f) by congruence.
    subst a' f'.
    destruct H as [(d & t' & E' & Hp & _) | [(utxos' & _ & Eu' & Hs & _)
                   | (b & Hb & Hbp & _ & _ & E')]].
    + rewrite E'. cbn [fst snd]. rewrite Hp.
      split; [discriminate | intros payload []].
    + exfalso. assert (utxos' = []) by congruence. subst utxos'.
      cbn in Hs. lia.
    + rewrite E'. cbn [fst snd]. split.
      * intros msg. unfold reply_after_post.
        destruct (post_transaction w (b_payload b)); discriminate.
      * intros payload Hin.
        assert (Hpb : payload = b_payload b).
        { rewrite posted_app in Hin. unfold build_calls in Hin.
          rewrite !posted_app in Hin.
          assert (Hq : forall l, posted (map EvInput l) = [])
            by (induction l; auto).
          assert (Hs : forall l, posted (map EvSign l) = [])
            by (induction l; auto).
          assert (Ho : forall l l', posted (output_calls l l') = []).
          { unfold output_calls. induction l as [ | x l IH];
              intros [ | y l']; cbn; auto. }
          rewrite Hq, Hs, Ho in Hin. cbn [posted app] in Hin.
          destruct (post_transaction w (b_payload b)); cbn in Hin;
            destruct Hin as [H | []]; auto. }
        subst payload.
        destruct Hb as (_ & _ & _ & _ & Eu' & Es & _ & _ & Hsigned).
        rewrite Hbp, Eu in Eu'. injection Eu' as Eu'.
        rewrite <- Eu' in Es. cbn in Es. injection Es as Es _.
        unfold b_tx in Hsigned. cbn [inputs] in Hsigned.
        rewrite <- Es in Hsigned. cbn [map] in Hsigned.
        inversion Hsigned as [i Hi Hnil Hsis | ]. subst.
        unfold b_payload, MultiUtxo.payload_of. cbn [rest_json p_inputs].
        symmetry. assumption.
Qed.

(** An empty wallet and an amount of 1e-9: a payload without inputs is
    posted. *)
Lemma empty_wallet_witness :
  let w := Bench.world [] (Returns Null) in
  let req := Bench.request (decimal 1 9) lit_0 in
  Unsigned.createTransaction w req
  = (Unsigned.Status400 "No UTXOs available for the sender address",
     [EvGetUtxos Bench.alice])
  /\ (exists payload,
        posted (snd (MultiUtxo.createTransaction w req)) = [payload])
  /\ forall payload,
       In payload (posted (snd (MultiUtxo.createTransaction w req))) ->
       p_inputs payload = [].
Proof.
  intros w req.
  destruct (empty_wallet w req
              {| sender := Bench.alice; recipient := Bench.bob;
                 amount_ := decimal 1 9; fee_ := lit_0; key := "11" |}
              0 0)
    as (Hu & Hs); try (vm_compute; reflexivity).
  destruct (Hs eq_refl) as (_ & _ & Hm).
  split; [exact Hu | split].
  - vm_compute. eexists. reflexivity.
  - exact (proj2 (Hm eq_refl)).
Defined.

(** * Conservation below 2^53, on the bench *)

(** One entry of 1.5, an amount of 1.0 and a fee of 0.0001. *)
Lemma conservation_below_2p53_witness :
  let w := Bench.world [Bench.utxo 0 150000000] (Returns Null) in
  let req := Bench.request (decimal 1 0) (decimal 1 4) in
  exists payload,
    In payload (posted (snd (MultiUtxo.createTransaction w req)))
    /\ payload_amounts payload = [Some 100000000; Some 49990000]
    /\ exists b,
         is_build w req b
         /\ payload = b_payload b
         /\ (sum_utxos (b_inputs b) < 2 ^ 53 ->
             (2000000 <= b_changeAmount b
              /\ payload_amounts payload
                 = [Some (b_amountToSend b); Some (b_changeAmount b)]
              /\ b_amountToSend b + b_changeAmount b + b_feeAmount b
                 = sum_utxos (b_inputs b))
             \/ (b_changeAmount b < 2000000
                 /\ payload_amounts payload = [Some (b_amountToSend b)]
                 /\ b_amountToSend b + (b_feeAmount b + b_changeAmount b)
                    = sum_utxos (b_inputs b))).
Proof.
  intros w req.
  assert (H : exists payload,
             posted (snd (MultiUtxo.createTransaction w req)) = [payload]
             /\ payload_amounts payload
                = [Some 100000000; Some 49990000])
    by (vm_compute; eexists; split; reflexivity).
  destruct H as (payload & H & Ha). exists payload.
  assert (Hin : In payload
                   (posted (snd (MultiUtxo.createTransaction w req))))
    by (rewrite H; left; reflexivity).
  split; [exact Hin | split; [exact Ha | ]].
  exact (conservation_below_2p53 w req payload Hin).
Defined.
